(** * Lark wiki document content retrieval ([get_wiki_content.py])

    A shallow embedding of the script: Python values as an inductive
    type, dictionaries as [gmap string _], the process environment (files,
    environment variables, console, transport invocations) as a record
    threaded through a state-and-exception monad, and [main] written
    statement by statement after the source. *)

From Stdlib Require Import ZArith String Ascii List.
From Stdlib Require Import Floats.SpecFloat DecimalString.
From stdpp Require Import base option list gmap strings.

Set Warnings "-register-all".
#[local] Open Scope string_scope.
#[local] Open Scope list_scope.

(** ** Text

    A Python [str] is modelled by the [string] of its UTF-8 bytes, which is
    also what the report file holds ([encoding='utf-8']). *)

Module Text.

Definition nl : string := String "010"%char EmptyString.

(** [s * n] *)
Fixpoint times (s : string) (n : nat) : string :=
  match n with
  | O => EmptyString
  | S k => s +:+ times s k
  end.

(** [''.join(l)] *)
Fixpoint join (l : list string) : string :=
  match l with
  | [] => EmptyString
  | s :: r => s +:+ join r
  end.

(** [str(n)] for a machine-independent integer *)
Definition of_nat (n : nat) : string := NilEmpty.string_of_uint (Nat.to_uint n).
Definition of_Z (z : Z) : string := NilEmpty.string_of_int (Z.to_int z).

(** A byte [10xxxxxx] continues a code point; every other byte starts one. *)
Definition starts_char (c : ascii) : bool :=
  let n := nat_of_ascii c in (n <? 128)%nat || (192 <=? n)%nat.

(** [len(s)]: the number of code points *)
Fixpoint len (s : string) : nat :=
  match s with
  | EmptyString => O
  | String c r => (if starts_char c then 1 else 0)%nat + len r
  end.

(** the characters of [s], what [for c in s] goes through *)
Fixpoint chars (s : string) : list string :=
  match s with
  | EmptyString => []
  | String c r =>
      match chars r with
      | x :: xs =>
          if starts_char (match x with String d _ => d | EmptyString => c end)
          then String c EmptyString :: x :: xs
          else String c x :: xs
      | [] => [String c EmptyString]
      end
  end.

(** JSON texts are written below with ['] for the double quote. *)
Fixpoint js (s : string) : string :=
  match s with
  | EmptyString => EmptyString
  | String c r => String (if Ascii.eqb c "'"%char then "034"%char else c) (js r)
  end.

End Text.

Import Text.

(** ** Python values *)

Inductive pyval : Type :=
  | PNone
  | PBool (b : bool)
  | PInt (n : Z)
  | PFloat (f : spec_float)
  | PStr (s : string)
  | PList (l : list pyval)
  | PDict (d : gmap string pyval).

Inductive type_error : Type :=
  | NotSubscriptable   (* [v['k']] on a value that is no dict *)
  | NoLen              (* [len(v)] on None, a bool or a number *)
  | NotIterable        (* [for x in v] on such a value *)
  | WriteNotStr.       (* [f.write(v)] with a [v] that is no str *)

Inductive exn : Type :=
  | SystemExit (code : Z)
  | KeyError (key : string)
  | TypeError (why : type_error)
  | AttributeError
  | JSONDecodeError
  | FileNotFoundError
  | RunError (name : string).   (* whatever [subprocess.run] raised *)

Inductive result (A : Type) : Type :=
  | Ok (a : A)
  | Raise (e : exn).
Arguments Ok {A} a.
Arguments Raise {A} e.

(** [bool(v)] *)
Definition py_bool (v : pyval) : bool :=
  match v with
  | PNone => false
  | PBool b => b
  | PInt n => negb (n =? 0)%Z
  | PFloat (S754_zero _) => false
  | PFloat _ => true
  | PStr s => negb (String.eqb s EmptyString)
  | PList l => match l with [] => false | _ => true end
  | PDict d => negb (bool_decide (d = ∅))
  end.

(** [v == 0] *)
Definition py_eq_0 (v : pyval) : bool :=
  match v with
  | PInt n => (n =? 0)%Z
  | PBool b => negb b
  | PFloat (S754_zero _) => true
  | _ => false
  end.

(** [len(v)] *)
Definition py_len (v : pyval) : result nat :=
  match v with
  | PStr s => Ok (len s)
  | PList l => Ok (length l)
  | PDict d => Ok (size d)
  | _ => Raise (TypeError NoLen)
  end.

(** the items [for x in v] visits; a dict yields its keys *)
Definition py_iter (v : pyval) : result (list pyval) :=
  match v with
  | PStr s => Ok (PStr <$> chars s)
  | PList l => Ok l
  | PDict d => Ok ((λ kv, PStr kv.1) <$> map_to_list d)
  | _ => Raise (TypeError NotIterable)
  end.

(** [v[k]] for a string key *)
Definition py_getitem (v : pyval) (k : string) : result pyval :=
  match v with
  | PDict d => match d !! k with Some x => Ok x | None => Raise (KeyError k) end
  | _ => Raise (TypeError NotSubscriptable)
  end.

(** [v[k] = x] *)
Definition py_setitem (v : pyval) (k : string) (x : pyval) : result pyval :=
  match v with
  | PDict d => Ok (PDict (<[k := x]> d))
  | _ => Raise (TypeError NotSubscriptable)
  end.

(** [v.get(k, dflt)]: only a dict has the method *)
Definition py_get (v : pyval) (k : string) (dflt : pyval) : result pyval :=
  match v with
  | PDict d => Ok (default dflt (d !! k))
  | _ => Raise AttributeError
  end.

(** ** The world the script runs in *)

Inductive run_result : Type :=
  | Completed (returncode : Z) (stdout : string)
  | RunRaises (name : string).

Record world : Type := World {
  files : gmap string string;       (* regular files, by path *)
  environ : gmap string string;     (* os.environ *)
  console : list string;            (* one item per print call *)
  calls : list (list string)        (* argv of every subprocess.run so far *)
}.

(** the three ways the script changes its world *)
Definition say (lines : list string) (w : world) : world :=
  World (files w) (environ w) (console w ++ lines) (calls w).

Definition set_file (path text : string) (w : world) : world :=
  World (<[path := text]> (files w)) (environ w) (console w) (calls w).

Definition invoke (argv : list string) (w : world) : world :=
  World (files w) (environ w) (console w) (calls w ++ [argv]).

Definition M (A : Type) : Type := world -> result A * world.

Definition ret {A} (a : A) : M A := fun w => (Ok a, w).

Definition bind {A B} (m : M A) (f : A -> M B) : M B :=
  fun w => match m w with
           | (Ok a, w') => f a w'
           | (Raise e, w') => (Raise e, w')
           end.

Definition lift {A} (r : result A) : M A := fun w => (r, w).

Notation "'do' x <- m ; k" := (bind m (fun x => k))
  (at level 10, x name, m at level 100, k at level 200,
   format "'[v' 'do'  x  <-  m ; '/' k ']'").
Notation "'run' m ; k" := (bind m (fun _ => k))
  (at level 10, m at level 100, k at level 200,
   format "'[v' 'run'  m ; '/' k ']'").

(** [for x in l: body(x)] *)
Fixpoint for_each {A} (body : A -> M unit) (l : list A) : M unit :=
  match l with
  | [] => ret tt
  | x :: r => run body x; for_each body r
  end.

Definition print (s : string) : M unit :=
  fun w => (Ok tt, say [s] w).

Definition sys_exit {A} (code : Z) : M A := lift (Raise (SystemExit code)).

Definition os_path_exists (path : string) : M bool :=
  fun w => (Ok (bool_decide (is_Some (files w !! path))), w).

Definition os_environ_get (name : string) : M (option string) :=
  fun w => (Ok (environ w !! name), w).

(** [open(path, 'w')]: the file is created or truncated *)
Definition open_w (path : string) : M unit :=
  fun w => (Ok tt, set_file path EmptyString w).

(** [f.write(s)] on the file opened at [path]; what was written stays in the
    file when a later statement raises, the [with] block closes the file *)
Definition file_write (path : string) (s : string) : M unit :=
  fun w => (Ok tt, set_file path (default EmptyString (files w !! path) +:+ s) w).

(** [output_path.parent.mkdir(parents=True, exist_ok=True)]: directories are
    not files of the model, and the directory of the input file, which is the
    one asked for, exists once the input file was read *)
Definition mkdir_parent (path : string) : M unit := ret tt.

(** ** Configuration *)

Definition MCP_SERVER : string := "Lark MCP".
Definition INPUT_FILE : string := "temp/wiki_documents.json".
Definition OUTPUT_FILE : string := "temp/wiki_documents_with_content.txt".
Definition TOKEN_VAR : string := "LARK_USER_ACCESS_TOKEN".

Definition rule_eq : string := times "=" 80.
Definition rule_dash : string := times "-" 80.
Definition PLACEHOLDER : string := "[Content not available]".

(** ** A reader for JSON texts

    [json.loads] is library code; the script is embedded over an arbitrary
    [json_loads]. The examples instantiate it with this reader of JSON texts
    whose numbers are integers (a text with a fraction or an exponent, or a
    [\u] escape, is not read). *)

Module Json.

Inductive token : Type :=
  | TLBrace | TRBrace | TLBrack | TRBrack | TColon | TComma
  | TString (s : string)
  | TInt (n : Z)
  | TTrue | TFalse | TNull.

Definition is_digit (c : ascii) : bool :=
  let n := nat_of_ascii c in (48 <=? n)%nat && (n <=? 57)%nat.

Definition is_space (c : ascii) : bool :=
  let n := nat_of_ascii c in
  (n =? 32)%nat || (n =? 9)%nat || (n =? 10)%nat || (n =? 13)%nat.

Definition unescape (c : ascii) : option ascii :=
  match nat_of_ascii c with
  | 34 => Some "034"%char
  | 92 => Some "092"%char
  | 47 => Some "/"%char
  | 98 => Some "008"%char
  | 102 => Some "012"%char
  | 110 => Some "010"%char
  | 114 => Some "013"%char
  | 116 => Some "009"%char
  | _ => None
  end.

(** after the opening quote: the string read and what follows it *)
Fixpoint read_string (s : string) : option (string * string) :=
  match s with
  | EmptyString => None
  | String c rest =>
      if (nat_of_ascii c =? 34)%nat then Some (EmptyString, rest)
      else if (nat_of_ascii c =? 92)%nat then
        match rest with
        | String e rest' =>
            match unescape e, read_string rest' with
            | Some x, Some (body, tail) => Some (String x body, tail)
            | _, _ => None
            end
        | EmptyString => None
        end
      else if (nat_of_ascii c <? 32)%nat then None
      else
        match read_string rest with
        | Some (body, tail) => Some (String c body, tail)
        | None => None
        end
  end.

(** the digits [s] starts with, as a number with its count, and the rest *)
Fixpoint read_digits (acc : Z) (count : nat) (s : string) : Z * nat * string :=
  match s with
  | String c rest =>
      if is_digit c
      then read_digits (acc * 10 + Z.of_nat (nat_of_ascii c - 48)) (S count) rest
      else (acc, count, s)
  | EmptyString => (acc, count, s)
  end.

Definition starts_fraction (s : string) : bool :=
  match s with
  | String c _ =>
      let n := nat_of_ascii c in (n =? 46)%nat || (n =? 101)%nat || (n =? 69)%nat
  | EmptyString => false
  end.

(** an integer literal: no leading zero, no fraction, no exponent *)
Definition read_int (negative : bool) (s : string) : option (Z * string) :=
  match s with
  | String c _ =>
      let '(n, count, rest) := read_digits 0 0 s in
      if (count =? 0)%nat then None
      else if (nat_of_ascii c =? 48)%nat && negb (count =? 1)%nat then None
      else if starts_fraction rest then None
      else Some (if negative then (- n)%Z else n, rest)
  | EmptyString => None
  end.

Definition read_word (word : string) (s : string) : option string :=
  if String.prefix word s
  then Some (String.substring (String.length word) (String.length s - String.length word) s)
  else None.

Fixpoint lex (fuel : nat) (s : string) : option (list token) :=
  match fuel with
  | O => None
  | S fuel' =>
      match s with
      | EmptyString => Some []
      | String c rest =>
          let n := nat_of_ascii c in
          let one (t : token) := cons t <$> lex fuel' rest in
          if is_space c then lex fuel' rest
          else if (n =? 123)%nat then one TLBrace
          else if (n =? 125)%nat then one TRBrace
          else if (n =? 91)%nat then one TLBrack
          else if (n =? 93)%nat then one TRBrack
          else if (n =? 58)%nat then one TColon
          else if (n =? 44)%nat then one TComma
          else if (n =? 34)%nat then
            match read_string rest with
            | Some (body, tail) => cons (TString body) <$> lex fuel' tail
            | None => None
            end
          else if (n =? 45)%nat then
            match read_int true rest with
            | Some (z, tail) => cons (TInt z) <$> lex fuel' tail
            | None => None
            end
          else if is_digit c then
            match read_int false s with
            | Some (z, tail) => cons (TInt z) <$> lex fuel' tail
            | None => None
            end
          else
            match read_word "true" s, read_word "false" s, read_word "null" s with
            | Some tail, _, _ => cons TTrue <$> lex fuel' tail
            | _, Some tail, _ => cons TFalse <$> lex fuel' tail
            | _, _, Some tail => cons TNull <$> lex fuel' tail
            | _, _, _ => None
            end
      end
  end.

(** a later binding of a key replaces an earlier one *)
Definition dict_of (members : list (string * pyval)) : pyval :=
  PDict (fold_left (fun d kv => <[kv.1 := kv.2]> d) members ∅).

Fixpoint value (fuel : nat) (ts : list token) : option (pyval * list token) :=
  match fuel with
  | O => None
  | S fuel' =>
      match ts with
      | TNull :: r => Some (PNone, r)
      | TTrue :: r => Some (PBool true, r)
      | TFalse :: r => Some (PBool false, r)
      | TInt n :: r => Some (PInt n, r)
      | TString s :: r => Some (PStr s, r)
      | TLBrack :: TRBrack :: r => Some (PList [], r)
      | TLBrack :: r =>
          match elements fuel' r with
          | Some (l, r') => Some (PList l, r')
          | None => None
          end
      | TLBrace :: TRBrace :: r => Some (dict_of [], r)
      | TLBrace :: r =>
          match members fuel' r with
          | Some (l, r') => Some (dict_of l, r')
          | None => None
          end
      | _ => None
      end
  end
with elements (fuel : nat) (ts : list token) : option (list pyval * list token) :=
  match fuel with
  | O => None
  | S fuel' =>
      match value fuel' ts with
      | Some (v, TComma :: r) =>
          match elements fuel' r with
          | Some (l, r') => Some (v :: l, r')
          | None => None
          end
      | Some (v, TRBrack :: r) => Some ([v], r)
      | _ => None
      end
  end
with members (fuel : nat) (ts : list token) : option (list (string * pyval) * list token) :=
  match fuel with
  | O => None
  | S fuel' =>
      match ts with
      | TString k :: TColon :: r =>
          match value fuel' r with
          | Some (v, TComma :: r') =>
              match members fuel' r' with
              | Some (l, r'') => Some ((k, v) :: l, r'')
              | None => None
              end
          | Some (v, TRBrace :: r') => Some ([(k, v)], r')
          | _ => None
          end
      | _ => None
      end
  end.

Definition loads (s : string) : option pyval :=
  match lex (S (String.length s)) s with
  | Some ts =>
      match value (S (length ts)) ts with
      | Some (v, []) => Some v
      | _ => None
      end
  | None => None
  end.

End Json.

(** ** Test doubles

    A scripted transport: the n-th invocation gets the n-th of [replies],
    whatever its arguments, and raises once they are used up. *)
Definition scripted (replies : list run_result) (before : list (list string)) (argv : list string)
  : run_result :=
  default (RunRaises "StopIteration") (replies !! length before).

(** No value of the examples needs [repr]. *)
Definition no_repr (v : pyval) : string := "<repr>".

(** A process that has just started, with the given input file content and
    credential. *)
Definition start (input : option string) (token : option string) : world :=
  World (match input with Some text => {[ INPUT_FILE := text ]} | None => ∅ end)
        (match token with Some t => {[ TOKEN_VAR := t ]} | None => ∅ end)
        [] [].

(** The reply of the remote service to a successful request for a document
    whose text is [hello], as a text and as [json.loads] reads it. *)
Definition hello_body : string := js "{'code':0,'data':{'content':'hello'}}".

Definition hello_reply : pyval :=
  PDict {[ "code" := PInt 0; "data" := PDict {[ "content" := PStr "hello" ]} ]}.

(** ** Sample inputs

    An input file with two descriptors, and a filesystem that already holds
    a report. *)
Definition two_documents : string :=
  js ("[{'number':1,'title':'A','level':0,'node_token':'na','document_token':'da','url':'ua'},"
      +:+ "{'number':2,'title':'B','level':1,'node_token':'nb','document_token':'db','url':'ub'}]").

Definition doc_A : gmap string pyval :=
  {[ "number" := PInt 1; "title" := PStr "A"; "level" := PInt 0;
     "node_token" := PStr "na"; "document_token" := PStr "da"; "url" := PStr "ua" ]}.

Definition doc_B : gmap string pyval :=
  {[ "number" := PInt 2; "title" := PStr "B"; "level" := PInt 1;
     "node_token" := PStr "nb"; "document_token" := PStr "db"; "url" := PStr "ub" ]}.

(** a descriptor with a title and a document token and nothing else *)
Definition doc_short : gmap string pyval :=
  {[ "title" := PStr "A"; "document_token" := PStr "da" ]}.

Definition one_short_document : string := js "[{'title':'A','document_token':'da'}]".

(** the world a second run starts in: same input and credential, the report
    and the console output of an earlier run still there *)
Definition rerun (input token : string) : world :=
  World (<[OUTPUT_FILE := "stale report"]> {[ INPUT_FILE := input ]})
        {[ TOKEN_VAR := token ]}
        ["output of the first run"] [].


(** replies of the remote service with a longer text, and with a number and
    an array in the place of the text *)
Definition text_body : string :=
  js "{'code':0,'data':{'content':'Release notes, 3rd draft'}}".
Definition number_body : string := js "{'code':0,'data':{'content':5}}".

(** an input file whose second descriptor has no url, and that descriptor *)
Definition second_without_url : string :=
  js ("[{'number':1,'title':'A','level':0,'node_token':'na','document_token':'da','url':'ua'},"
      +:+ "{'number':2,'title':'B','level':1,'node_token':'nb','document_token':'db'}]").

Definition doc_B_no_url : gmap string pyval :=
  {[ "number" := PInt 2; "title" := PStr "B"; "level" := PInt 1;
     "node_token" := PStr "nb"; "document_token" := PStr "db" ]}.

(** the reply of the remote service when the document has no content field *)
Definition no_content_body : string := js "{'code':0,'data':{}}".

(** ** The script *)

Section Script.

(** Python's [json.loads]; [None] when it raises. *)
Variable json_loads : string -> option pyval.

(** Python's [repr] of the values whose [str] is not spelled out below. *)
Variable py_repr : pyval -> string.

(** The transport: what [subprocess.run] does with an argument vector,
    given the invocations made before it. *)
Variable subprocess_run : list (list string) -> list string -> run_result.

(** [str(v)], as an f-string field formats it *)
Definition py_str (v : pyval) : string :=
  match v with
  | PNone => "None"
  | PBool true => "True"
  | PBool false => "False"
  | PInt n => of_Z n
  | PStr s => s
  | PFloat _ | PList _ | PDict _ => py_repr v
  end.

(** [subprocess.run(argv, capture_output=True, text=True)] *)
Definition run_process (argv : list string) : M (Z * string) :=
  fun w =>
    match subprocess_run (calls w) argv with
    | Completed returncode stdout => (Ok (returncode, stdout), invoke argv w)
    | RunRaises name => (Raise (RunError name), invoke argv w)
    end.

(** [with open(path, 'r') as f: json.load(f)] *)
Definition json_load_file (path : string) : M pyval :=
  fun w =>
    match files w !! path with
    | None => (Raise FileNotFoundError, w)
    | Some text =>
        match json_loads text with
        | Some v => (Ok v, w)
        | None => (Raise JSONDecodeError, w)
        end
    end.

(** Lines 21 to 35; [main] does not call it. *)
Definition get_content_via_mcp_tool (document_token : pyval) : M pyval :=
  run print ("  → Would retrieve content for: " +:+ py_str document_token);
  ret PNone.

Definition api_url (document_token : pyval) : string :=
  "https://open.feishu.cn/open-apis/docx/v1/documents/"
    +:+ py_str document_token +:+ "/raw_content".

Definition curl_argv (document_token : pyval) (user_token : string) : list string :=
  [ "curl"; "-s"; "-X"; "GET";
    api_url document_token;
    "-H"; "Authorization: Bearer " +:+ user_token ].

(** The body of the [try] of [get_content_via_api]: [Ok (Some c)] when it
    returns [c], [Ok None] when it falls through, [Raise _] when it raises. *)
Definition try_body (stdout : string) : result (option pyval) :=
  match json_loads stdout with
  | None => Raise JSONDecodeError
  | Some data =>
      match py_get data "code" PNone with
      | Raise e => Raise e
      | Ok code =>
          if py_eq_0 code then
            match py_get data "data" (PDict ∅) with
            | Raise e => Raise e
            | Ok inner =>
                match py_get inner "content" (PStr EmptyString) with
                | Raise e => Raise e
                | Ok c => Ok (Some c)
                end
            end
          else Ok None
      end
  end.

(** Lines 53 to 61: what [get_content_via_api] returns for a response. *)
Definition response_content (returncode : Z) (stdout : string) : pyval :=
  if (returncode =? 0)%Z then
    match try_body stdout with
    | Ok (Some c) => c
    | Ok None => PNone
    | Raise _ => PNone          (* except: pass *)
    end
  else PNone.

Definition get_content_via_api (document_token : pyval) (user_token : string) : M pyval :=
  do response <- run_process (curl_argv document_token user_token);
  ret (response_content response.1 response.2).

(** *** [main], section by section *)

(** Lines 67 to 70 *)
Definition input_missing : M unit :=
  run print ("Error: Input file not found: " +:+ INPUT_FILE);
  run print "Please run get_all_wiki_docs.sh first to generate the JSON file.";
  sys_exit 1.

(** Lines 75 to 81 *)
Definition print_heading (documents : pyval) : M unit :=
  run print rule_eq;
  run print "Lark Wiki Document Content Retrieval";
  run print rule_eq;
  do n <- lift (py_len documents);
  run print (nl +:+ "Found " +:+ of_nat n +:+ " documents");
  run print ("Input: " +:+ INPUT_FILE);
  run print ("Output: " +:+ OUTPUT_FILE);
  print (nl +:+ rule_dash).

(** Line 95 *)
Definition list_document (doc : pyval) : M unit :=
  do title <- lift (py_getitem doc "title");
  do token <- lift (py_getitem doc "document_token");
  print ("  • " +:+ py_str title +:+ ": " +:+ py_str token).

(** Lines 87 to 104 *)
Definition dry_mode (documents : pyval) : M unit :=
  run print (nl +:+ "⚠️  User Access Token not found!");
  run print (nl +:+ "To retrieve content, you need:");
  run print "  1. Set LARK_USER_ACCESS_TOKEN environment variable";
  run print "     OR";
  run print "  2. Use MCP tools manually (docx.v1.document.rawContent)";
  run print (nl +:+ "📋 Document Tokens to retrieve:");
  run print EmptyString;
  do docs <- lift (py_iter documents);
  run for_each list_document docs;
  run print (nl +:+ "💡 To retrieve content using MCP tools:");
  run print "   Call: mcp_Lark_MCP_docx_v1_document_rawContent";
  run print "   With: document_id = {document_token}";
  run print (nl +:+ "💡 To retrieve via API:");
  run print "   export LARK_USER_ACCESS_TOKEN='your_token'";
  run print "   python3 get_wiki_content.py";
  sys_exit 0.

(** Lines 109 to 121: one turn of the retrieval loop, for the [i]-th
    element of [documents]; the result is [doc] after the assignment to
    [doc['content']], the object appended to [results]. *)
Definition retrieve_one (documents : pyval) (user_token : string) (i : nat) (doc : pyval)
  : M pyval :=
  do total <- lift (py_len documents);
  do title <- lift (py_getitem doc "title");
  run print (nl +:+ "[" +:+ of_nat i +:+ "/" +:+ of_nat total +:+ "] Retrieving: " +:+ py_str title);
  do token <- lift (py_getitem doc "document_token");
  run print ("  Token: " +:+ py_str token);
  do token <- lift (py_getitem doc "document_token");
  do content <- get_content_via_api token user_token;
  if py_bool content then
    do doc' <- lift (py_setitem doc "content" content);
    do n <- lift (py_len content);
    run print ("  ✅ Content retrieved (" +:+ of_nat n +:+ " characters)");
    ret doc'
  else
    do doc' <- lift (py_setitem doc "content" PNone);
    run print "  ❌ Failed to retrieve content";
    ret doc'.

(** Lines 107 to 121. The elements of [documents] are distinct objects
    ([json.load] builds a fresh dict per array element), so the in-place
    update of one leaves the others as they are. *)
Fixpoint retrieve_loop (documents : pyval) (user_token : string) (i : nat) (docs : list pyval)
  : M (list pyval) :=
  match docs with
  | [] => ret []
  | doc :: rest =>
      do doc' <- retrieve_one documents user_token i doc;
      do results <- retrieve_loop documents user_token (S i) rest;
      ret (doc' :: results)
  end.

(** Lines 133 to 146 *)
Definition write_entry (doc : pyval) : M unit :=
  do number <- lift (py_getitem doc "number");
  do title <- lift (py_getitem doc "title");
  run file_write OUTPUT_FILE
    ("📄 DOCUMENT " +:+ py_str number +:+ ": " +:+ py_str title +:+ nl);
  do level <- lift (py_getitem doc "level");
  run file_write OUTPUT_FILE ("   Level: " +:+ py_str level +:+ nl);
  do node_token <- lift (py_getitem doc "node_token");
  run file_write OUTPUT_FILE ("   Node Token: " +:+ py_str node_token +:+ nl);
  do document_token <- lift (py_getitem doc "document_token");
  run file_write OUTPUT_FILE ("   Document Token: " +:+ py_str document_token +:+ nl);
  do url <- lift (py_getitem doc "url");
  run file_write OUTPUT_FILE ("   URL: " +:+ py_str url +:+ nl);
  run file_write OUTPUT_FILE (nl +:+ rule_dash +:+ nl +:+ nl);
  do content <- lift (py_get doc "content" PNone);
  run (if py_bool content then
         do content <- lift (py_getitem doc "content");
         match content with
         | PStr s =>
             run file_write OUTPUT_FILE s;
             file_write OUTPUT_FILE (nl +:+ nl)
         | _ => lift (Raise (TypeError WriteNotStr))
         end
       else file_write OUTPUT_FILE (PLACEHOLDER +:+ nl +:+ nl));
  file_write OUTPUT_FILE (rule_dash +:+ nl +:+ nl).

(** Lines 128 to 130 *)
Definition write_banner : M unit :=
  run file_write OUTPUT_FILE (rule_eq +:+ nl);
  run file_write OUTPUT_FILE ("LARK WIKI DOCUMENTS - WITH CONTENT" +:+ nl);
  file_write OUTPUT_FILE (rule_eq +:+ nl +:+ nl).

(** Lines 124 to 146 *)
Definition save_results (results : list pyval) : M unit :=
  run mkdir_parent OUTPUT_FILE;
  run open_w OUTPUT_FILE;
  run write_banner;
  for_each write_entry results.

(** Lines 148 to 151 *)
Definition print_done : M unit :=
  run print (nl +:+ rule_eq);
  run print "✅ Content retrieval complete!";
  run print ("📁 Output saved to: " +:+ OUTPUT_FILE);
  print rule_eq.

(** Lines 107 to 151 *)
Definition live_mode (documents : pyval) (user_token : string) : M unit :=
  do docs <- lift (py_iter documents);
  do results <- retrieve_loop documents user_token 1 docs;
  run save_results results;
  print_done.

Definition main : M unit :=
  do found <- os_path_exists INPUT_FILE;
  if negb found then input_missing
  else
    do documents <- json_load_file INPUT_FILE;
    run print_heading documents;
    do user_token <- os_environ_get TOKEN_VAR;
    match user_token with
    | None => dry_mode documents
    | Some token =>
        if String.eqb token EmptyString then dry_mode documents
        else live_mode documents token
    end.

(** *** Notions the statements are phrased with *)

(** The exit status of the process: an exception that reaches the top
    level ends the interpreter with status 1, unless it is [SystemExit]. *)
Definition exit_status (r : result unit) : Z :=
  match r with
  | Ok _ => 0
  | Raise (SystemExit code) => code
  | Raise _ => 1
  end.

(** an exception other than the request to exit *)
Definition is_error (e : exn) : Prop :=
  match e with SystemExit _ => False | _ => True end.

(** a failed access [doc['k']] *)
Definition access_error (e : exn) : Prop :=
  match e with
  | KeyError _ | TypeError NotSubscriptable => True
  | _ => False
  end.

(** the six fields of a descriptor *)
Definition FIELDS : list string :=
  ["title"; "document_token"; "number"; "level"; "node_token"; "url"].

Definition has_fields (keys : list string) (doc : pyval) : Prop :=
  match doc with
  | PDict d => Forall (fun k => is_Some (d !! k)) keys
  | _ => False
  end.

(** what the console shows before the credential is looked up *)
Definition heading_lines (n : nat) : list string :=
  [ rule_eq; "Lark Wiki Document Content Retrieval"; rule_eq;
    nl +:+ "Found " +:+ of_nat n +:+ " documents";
    "Input: " +:+ INPUT_FILE; "Output: " +:+ OUTPUT_FILE; nl +:+ rule_dash ].

Definition dry_intro : list string :=
  [ nl +:+ "⚠️  User Access Token not found!";
    nl +:+ "To retrieve content, you need:";
    "  1. Set LARK_USER_ACCESS_TOKEN environment variable";
    "     OR";
    "  2. Use MCP tools manually (docx.v1.document.rawContent)";
    nl +:+ "📋 Document Tokens to retrieve:";
    EmptyString ].

Definition dry_outro : list string :=
  [ nl +:+ "💡 To retrieve content using MCP tools:";
    "   Call: mcp_Lark_MCP_docx_v1_document_rawContent";
    "   With: document_id = {document_token}";
    nl +:+ "💡 To retrieve via API:";
    "   export LARK_USER_ACCESS_TOKEN='your_token'";
    "   python3 get_wiki_content.py" ].

(** the line of the dry-mode listing for one descriptor *)
Definition listing_line (doc : pyval) : option string :=
  match doc with
  | PDict d =>
      title ← d !! "title";
      token ← d !! "document_token";
      Some ("  • " +:+ py_str title +:+ ": " +:+ py_str token)
  | _ => None
  end.

(** the head of the report *)
Definition banner : string :=
  rule_eq +:+ nl +:+ "LARK WIKI DOCUMENTS - WITH CONTENT" +:+ nl +:+ rule_eq +:+ nl +:+ nl.

(** the metadata lines of a report entry, down to the separator *)
Definition entry_head (d : gmap string pyval) : option string :=
  number ← d !! "number";
  title ← d !! "title";
  level ← d !! "level";
  node_token ← d !! "node_token";
  document_token ← d !! "document_token";
  url ← d !! "url";
  Some ("📄 DOCUMENT " +:+ py_str number +:+ ": " +:+ py_str title +:+ nl
        +:+ "   Level: " +:+ py_str level +:+ nl
        +:+ "   Node Token: " +:+ py_str node_token +:+ nl
        +:+ "   Document Token: " +:+ py_str document_token +:+ nl
        +:+ "   URL: " +:+ py_str url +:+ nl
        +:+ nl +:+ rule_dash +:+ nl +:+ nl).

(** the content part of a report entry *)
Definition entry_body (content : pyval) : option string :=
  if py_bool content then
    match content with
    | PStr s => Some (s +:+ nl +:+ nl)
    | _ => None
    end
  else Some (PLACEHOLDER +:+ nl +:+ nl).

(** the whole report entry of a descriptor, when it can be written *)
Definition entry_text (doc : pyval) : option string :=
  match doc with
  | PDict d =>
      head ← entry_head d;
      body ← entry_body (default PNone (d !! "content"));
      Some (head +:+ body +:+ rule_dash +:+ nl +:+ nl)
  | _ => None
  end.

(** what lines 114 to 118 store for a fetched [content] *)
Definition stored (content : pyval) : pyval :=
  if py_bool content then content else PNone.

(** the argument vector of the fetch for a descriptor *)
Definition request (user_token : string) (doc : pyval) : list string :=
  match py_getitem doc "document_token" with
  | Ok token => curl_argv token user_token
  | Raise _ => []
  end.

(** what one turn of the retrieval loop prints before the fetch *)
Definition turn_lines (i total : nat) (title token : pyval) : list string :=
  [ nl +:+ "[" +:+ of_nat i +:+ "/" +:+ of_nat total +:+ "] Retrieving: " +:+ py_str title;
    "  Token: " +:+ py_str token ].

(** live mode: the input file holds [documents] and the credential is
    [token], which is not empty *)
Definition live (w : world) (documents : pyval) (token : string) : Prop :=
  (exists text, files w !! INPUT_FILE = Some text /\ json_loads text = Some documents)
  /\ environ w !! TOKEN_VAR = Some token /\ token <> EmptyString.

(** dry mode: the input file holds [documents] and the credential is unset
    or empty *)
Definition dry (w : world) (documents : pyval) : Prop :=
  (exists text, files w !! INPUT_FILE = Some text /\ json_loads text = Some documents)
  /\ (environ w !! TOKEN_VAR = None \/ environ w !! TOKEN_VAR = Some EmptyString).



(** a computation whose only effect is to print *)
Definition prints_only {A} (m : M A) : Prop :=
  forall w, exists lines, (m w).2 = say lines w.

(** two worlds that hand the script the same input file, the same
    credential and the same transport history *)
Definition same_inputs (w1 w2 : world) : Prop :=
  files w1 !! INPUT_FILE = files w2 !! INPUT_FILE
  /\ environ w1 !! TOKEN_VAR = environ w2 !! TOKEN_VAR
  /\ calls w1 = calls w2.

(** ... and, when [output] is set, the same output file *)
Definition agree (output : bool) (w1 w2 : world) : Prop :=
  same_inputs w1 w2
  /\ (output = true -> files w1 !! OUTPUT_FILE = files w2 !! OUTPUT_FILE).

(** [m] runs alike from two worlds that agree: it ends with the same result,
    in worlds that agree again, on the output file too if [after] is set and
    the result is no exception *)
Definition alike {A} (before after : bool) (m : M A) : Prop :=
  forall w1 w2, agree before w1 w2 ->
    (m w1).1 = (m w2).1
    /\ agree (match (m w1).1 with Ok _ => after | Raise _ => false end) (m w1).2 (m w2).2.

(** every exception [m] can raise satisfies [E] *)
Definition raises_only {A} (E : exn -> Prop) (m : M A) : Prop :=
  forall w e, (m w).1 = Raise e -> E e.

(** an exception that ends the process with status 0 or 1 *)
Definition ends_with_0_or_1 (e : exn) : Prop :=
  match e with
  | SystemExit code => code = 0%Z \/ code = 1%Z
  | _ => True
  end.

(** the exceptions of the report writer *)
Definition writer_error (e : exn) : Prop :=
  match e with
  | KeyError _ | TypeError NotSubscriptable | TypeError WriteNotStr => True
  | _ => False
  end.

(** [m] leaves the environment and every file but the report alone, and
    only adds to the console and to the transport invocations *)
Definition orderly {A} (m : M A) : Prop :=
  forall w,
    environ (m w).2 = environ w
    /\ (forall path, path <> OUTPUT_FILE -> files (m w).2 !! path = files w !! path)
    /\ (exists lines, console (m w).2 = console w ++ lines)
    /\ (exists argvs, calls (m w).2 = calls w ++ argvs).

(** the line that ends a turn of the retrieval loop *)
Definition status_line (content : pyval) : option string :=
  match content with
  | PNone => Some "  ❌ Failed to retrieve content"
  | _ =>
      match py_len content with
      | Ok n => Some ("  ✅ Content retrieved (" +:+ of_nat n +:+ " characters)")
      | Raise _ => None
      end
  end.

(** what the console shows after the report was written *)
Definition done_lines : list string :=
  [ nl +:+ rule_eq; "✅ Content retrieval complete!";
    "📁 Output saved to: " +:+ OUTPUT_FILE; rule_eq ].

(** the operations on values raise a [KeyError], a [TypeError] or an
    [AttributeError] *)
Definition value_error (e : exn) : Prop :=
  match e with
  | KeyError _ | TypeError _ | AttributeError => True
  | _ => False
  end.

(** ** Running the monad *)

Lemma bind_ret {A B} (a : A) (f : A -> M B) w : bind (ret a) f w = f a w.
Proof. reflexivity. Qed.

Lemma bind_lift_Ok {A B} (a : A) (f : A -> M B) w : bind (lift (Ok a)) f w = f a w.
Proof. reflexivity. Qed.

Lemma bind_lift_Raise {A B} e (f : A -> M B) w : bind (lift (Raise e)) f w = (Raise e, w).
Proof. reflexivity. Qed.

Lemma bind_print {B} s (f : unit -> M B) w : bind (print s) f w = f tt (say [s] w).
Proof. reflexivity. Qed.

Lemma bind_bind {A B C} (m : M A) (f : A -> M B) (g : B -> M C) w :
  bind (bind m f) g w = bind m (fun a => bind (f a) g) w.
Proof. unfold bind. destruct (m w) as [[a|e] w1]; reflexivity. Qed.

Lemma bind_Ok {A B} (m : M A) (f : A -> M B) w a w1 :
  m w = (Ok a, w1) -> bind m f w = f a w1.
Proof. intros H. unfold bind. rewrite H. reflexivity. Qed.

Lemma bind_Raise {A B} (m : M A) (f : A -> M B) w e w1 :
  m w = (Raise e, w1) -> bind m f w = (Raise e, w1).
Proof. intros H. unfold bind. rewrite H. reflexivity. Qed.

Lemma bind_Ok_inv {A B} (m : M A) (f : A -> M B) w b w' :
  bind m f w = (Ok b, w') -> exists a w1, m w = (Ok a, w1) /\ f a w1 = (Ok b, w').
Proof.
  unfold bind. destruct (m w) as [[a|e] w1]; intros H.
  - exists a, w1. split; [reflexivity | exact H].
  - discriminate H.
Qed.

(** ** Worlds *)

Lemma say_say l1 l2 w : say l2 (say l1 w) = say (l1 ++ l2) w.
Proof. unfold say. cbn. rewrite <- app_assoc. reflexivity. Qed.

Lemma set_file_twice p a b w : set_file p b (set_file p a w) = set_file p b w.
Proof. unfold set_file. cbn. rewrite insert_insert_eq. reflexivity. Qed.

Lemma file_write_set p a s w :
  file_write p s (set_file p a w) = (Ok tt, set_file p (a +:+ s) w).
Proof.
  unfold file_write. cbn [set_file files]. rewrite lookup_insert_eq. cbn [default].
  rewrite set_file_twice. reflexivity.
Qed.

Lemma bind_write_set {B} p a s (f : unit -> M B) w :
  bind (file_write p s) f (set_file p a w) = f tt (set_file p (a +:+ s) w).
Proof. unfold bind. rewrite file_write_set. reflexivity. Qed.

Lemma append_assoc (a b c : string) : (a +:+ b) +:+ c = a +:+ (b +:+ c).
Proof.
  induction a as [|x a IH]; [reflexivity|].
  change (String x ((a +:+ b) +:+ c) = String x (a +:+ (b +:+ c))).
  rewrite IH. reflexivity.
Qed.

Lemma append_empty_r (a : string) : a +:+ EmptyString = a.
Proof.
  induction a as [|x a IH]; [reflexivity|].
  change (String x (a +:+ EmptyString) = String x a).
  rewrite IH. reflexivity.
Qed.

(** ** Accesses *)

Lemma py_getitem_Some d k x : d !! k = Some x -> py_getitem (PDict d) k = Ok x.
Proof. intros H. unfold py_getitem. rewrite H. reflexivity. Qed.

Lemma py_getitem_None d k : d !! k = None -> py_getitem (PDict d) k = Raise (KeyError k).
Proof. intros H. unfold py_getitem. rewrite H. reflexivity. Qed.

Lemma has_fields_lookup keys d k :
  has_fields keys (PDict d) -> k ∈ keys -> is_Some (d !! k).
Proof. cbn. rewrite Forall_forall. intros H Hk. apply H, Hk. Qed.

Lemma missing_field d k : d !! k = None -> k ∈ FIELDS -> ~ has_fields FIELDS (PDict d).
Proof.
  intros Hk Hin Hf. destruct (has_fields_lookup _ _ _ Hf Hin) as [x Hx]. congruence.
Qed.

Ltac in_fields := unfold FIELDS; repeat first [apply list_elem_of_here | apply list_elem_of_further].

Ltac getitem H :=
  first [rewrite (py_getitem_Some _ _ _ H), bind_lift_Ok
        | rewrite (py_getitem_None _ _ H), bind_lift_Raise].

Lemma write_entry_Some doc text a w :
  entry_text doc = Some text ->
  write_entry doc (set_file OUTPUT_FILE a w) = (Ok tt, set_file OUTPUT_FILE (a +:+ text) w).
Proof.
  destruct doc as [| | | | |l|d]; try discriminate.
  unfold entry_text, entry_head, entry_body, write_entry.
  destruct (d !! "number") as [number|] eqn:Hnumber; [|discriminate].
  destruct (d !! "title") as [title|] eqn:Htitle; [|discriminate].
  destruct (d !! "level") as [level|] eqn:Hlevel; [|discriminate].
  destruct (d !! "node_token") as [node_token|] eqn:Hnode; [|discriminate].
  destruct (d !! "document_token") as [document_token|] eqn:Hdoc; [|discriminate].
  destruct (d !! "url") as [url|] eqn:Hurl; [|discriminate].
  cbn [mbind option_bind].
  getitem Hnumber. getitem Htitle. rewrite bind_write_set.
  getitem Hlevel. rewrite bind_write_set.
  getitem Hnode. rewrite bind_write_set.
  getitem Hdoc. rewrite bind_write_set.
  getitem Hurl. rewrite !bind_write_set.
  unfold py_get. rewrite bind_lift_Ok.
  destruct (d !! "content") as [content|] eqn:Hcontent; cbn [default from_option id].
  - destruct (py_bool content) eqn:Hb.
    + cbv iota. rewrite bind_bind. getitem Hcontent.
      destruct content; try discriminate. cbn [mbind option_bind].
      intros [= <-]. rewrite bind_bind, !bind_write_set, file_write_set.
      rewrite !append_assoc. reflexivity.
    + cbv iota. cbn [mbind option_bind]. intros [= <-]. rewrite bind_write_set, file_write_set.
      rewrite !append_assoc. reflexivity.
  - cbn [py_bool mbind option_bind]. cbv iota. intros [= <-]. rewrite bind_write_set, file_write_set.
    rewrite !append_assoc. reflexivity.
Qed.

(** the file holds what was written before the statement that raised *)
Ltac stopped_here :=
  first [ eexists _, EmptyString; rewrite append_empty_r; split; [reflexivity|]
        | rewrite ?append_assoc; eexists _, _; split; [reflexivity|] ].

Lemma write_entry_None doc a w :
  entry_text doc = None ->
  exists e part,
    write_entry doc (set_file OUTPUT_FILE a w) = (Raise e, set_file OUTPUT_FILE (a +:+ part) w)
    /\ is_error e /\ (access_error e -> ~ has_fields FIELDS doc).
Proof.
  destruct doc as [| | | | |l|d];
    try (intros _; exists (TypeError NotSubscriptable), EmptyString; rewrite append_empty_r;
         split; [reflexivity | split; [exact I | intros _ H; exact H]]).
  unfold entry_text, entry_head, entry_body, write_entry.
  destruct (d !! "number") as [number|] eqn:Hnumber.
  2:{ intros _. getitem Hnumber. stopped_here. split; [exact I|].
      intros _. eapply missing_field; [eassumption | in_fields]. }
  getitem Hnumber.
  destruct (d !! "title") as [title|] eqn:Htitle.
  2:{ intros _. getitem Htitle. stopped_here. split; [exact I|].
      intros _. eapply missing_field; [eassumption | in_fields]. }
  getitem Htitle. rewrite bind_write_set.
  destruct (d !! "level") as [level|] eqn:Hlevel.
  2:{ intros _. getitem Hlevel. stopped_here. split; [exact I|].
      intros _. eapply missing_field; [eassumption | in_fields]. }
  getitem Hlevel. rewrite bind_write_set.
  destruct (d !! "node_token") as [node_token|] eqn:Hnode.
  2:{ intros _. getitem Hnode. stopped_here. split; [exact I|].
      intros _. eapply missing_field; [eassumption | in_fields]. }
  getitem Hnode. rewrite bind_write_set.
  destruct (d !! "document_token") as [document_token|] eqn:Hdoc.
  2:{ intros _. getitem Hdoc. stopped_here. split; [exact I|].
      intros _. eapply missing_field; [eassumption | in_fields]. }
  getitem Hdoc. rewrite bind_write_set.
  destruct (d !! "url") as [url|] eqn:Hurl.
  2:{ intros _. getitem Hurl. stopped_here. split; [exact I|].
      intros _. eapply missing_field; [eassumption | in_fields]. }
  getitem Hurl. rewrite !bind_write_set.
  unfold py_get. rewrite bind_lift_Ok. cbn [mbind option_bind].
  destruct (d !! "content") as [content|] eqn:Hcontent; cbn [default from_option id].
  - destruct (py_bool content) eqn:Hb; [|discriminate].
    cbv iota. rewrite bind_bind. getitem Hcontent.
    destruct content; try discriminate; intros _;
      rewrite bind_lift_Raise; stopped_here; (split; [exact I|]); intros [].
  - discriminate.
Qed.

(** what [write_entry] leaves of an entry that it cannot finish, and the
    exception it ends with, do not depend on what the file already holds *)
Ltac entry_steps :=
  repeat first
    [ rewrite bind_write_set | rewrite bind_bind | rewrite bind_lift_Ok | rewrite bind_lift_Raise
    | match goal with H : _ !! _ = Some _ |- _ => rewrite (py_getitem_Some _ _ _ H) end
    | match goal with H : _ !! _ = None |- _ => rewrite (py_getitem_None _ _ H) end ].

Ltac stops_here :=
  intros _;
  first [ eexists _, EmptyString; intros a w; unfold write_entry; entry_steps;
          rewrite append_empty_r; reflexivity
        | eexists _, _; intros a w; unfold write_entry; entry_steps;
          rewrite ?append_assoc; reflexivity ].

Lemma write_entry_stops doc :
  entry_text doc = None ->
  exists e part, forall a w,
    write_entry doc (set_file OUTPUT_FILE a w) = (Raise e, set_file OUTPUT_FILE (a +:+ part) w).
Proof.
  destruct doc as [| | | | |l|d];
    try (intros _; exists (TypeError NotSubscriptable), EmptyString; intros a w;
         rewrite append_empty_r; reflexivity).
  unfold entry_text, entry_head, entry_body.
  destruct (d !! "number") as [number|] eqn:Hnumber; [|stops_here].
  destruct (d !! "title") as [title|] eqn:Htitle; [|stops_here].
  destruct (d !! "level") as [level|] eqn:Hlevel; [|stops_here].
  destruct (d !! "node_token") as [node_token|] eqn:Hnode; [|stops_here].
  destruct (d !! "document_token") as [document_token|] eqn:Hdoc; [|stops_here].
  destruct (d !! "url") as [url|] eqn:Hurl; [|stops_here].
  cbn [mbind option_bind].
  destruct (d !! "content") as [content|] eqn:Hcontent; cbn [default from_option id]; [|discriminate].
  destruct (py_bool content) eqn:Hb; [|discriminate].
  destruct content; try discriminate; intros _; eexists _, _; intros a w;
    unfold write_entry; entry_steps; unfold py_get; rewrite Hcontent;
    cbn [default from_option id]; entry_steps; rewrite Hb; cbv iota; entry_steps;
    rewrite ?append_assoc; reflexivity.
Qed.

(** ** The report writer *)

Lemma save_results_eq results w :
  save_results results w = for_each write_entry results (set_file OUTPUT_FILE banner w).
Proof.
  unfold save_results, mkdir_parent, write_banner. rewrite bind_ret.
  unfold bind at 1. unfold open_w.
  repeat first [rewrite bind_bind | rewrite bind_write_set]. reflexivity.
Qed.


Lemma write_entries_inv results : forall a w w',
  for_each write_entry results (set_file OUTPUT_FILE a w) = (Ok tt, w') ->
  exists blocks,
    Forall2 (fun r b => entry_text r = Some b) results blocks
    /\ w' = set_file OUTPUT_FILE (a +:+ join blocks) w.
Proof.
  induction results as [|r results IH]; intros a w w'; cbn [for_each].
  - intros [= <-]. exists []. split; [constructor|]. cbn [join]. rewrite append_empty_r. reflexivity.
  - destruct (entry_text r) as [text|] eqn:Hr.
    + erewrite bind_Ok by (apply write_entry_Some; eassumption).
      intros H. destruct (IH _ _ _ H) as (blocks & Hb & ->).
      exists (text :: blocks). split; [constructor; assumption|].
      cbn [join]. rewrite append_assoc. reflexivity.
    + destruct (write_entry_None r a w Hr) as (e & a' & He & _).
      erewrite bind_Raise by exact He. discriminate.
Qed.

Lemma write_entries_Raise results : forall a w e w',
  for_each write_entry results (set_file OUTPUT_FILE a w) = (Raise e, w') ->
  is_error e /\ (access_error e -> exists r, r ∈ results /\ ~ has_fields FIELDS r).
Proof.
  induction results as [|r results IH]; intros a w e w'; cbn [for_each].
  - discriminate.
  - destruct (entry_text r) as [text|] eqn:Hr.
    + erewrite bind_Ok by (apply write_entry_Some; eassumption).
      intros H. destruct (IH _ _ _ _ H) as (He & Ha). split; [exact He|].
      intros Hacc. destruct (Ha Hacc) as (r' & Hin & Hr'). exists r'.
      split; [apply list_elem_of_further, Hin | exact Hr'].
    + destruct (write_entry_None r a w Hr) as (e0 & a' & He & Herr & Hacc).
      erewrite bind_Raise by exact He. intros [= <- <-]. split; [exact Herr|].
      intros H. exists r. split; [apply list_elem_of_here | apply Hacc, H].
Qed.

(** ** The retrieval loop *)

Lemma get_content_via_api_run token user_token w :
  get_content_via_api token user_token w =
  match subprocess_run (calls w) (curl_argv token user_token) with
  | Completed rc out => (Ok (response_content rc out), invoke (curl_argv token user_token) w)
  | RunRaises name => (Raise (RunError name), invoke (curl_argv token user_token) w)
  end.
Proof.
  unfold get_content_via_api, bind, run_process.
  destruct (subprocess_run _ _); reflexivity.
Qed.

Lemma request_dict user_token d token :
  d !! "document_token" = Some token -> request user_token (PDict d) = curl_argv token user_token.
Proof. intros H. unfold request. rewrite (py_getitem_Some _ _ _ H). reflexivity. Qed.

Lemma retrieve_one_run documents user_token i d total title token w :
  py_len documents = Ok total ->
  d !! "title" = Some title -> d !! "document_token" = Some token ->
  retrieve_one documents user_token i (PDict d) w =
  let w1 := invoke (curl_argv token user_token) (say (turn_lines i total title token) w) in
  match subprocess_run (calls w) (curl_argv token user_token) with
  | RunRaises name => (Raise (RunError name), w1)
  | Completed rc out =>
      let c := response_content rc out in
      if py_bool c then
        match py_len c with
        | Ok n =>
            (Ok (PDict (<["content" := c]> d)),
             say ["  ✅ Content retrieved (" +:+ of_nat n +:+ " characters)"] w1)
        | Raise e => (Raise e, w1)
        end
      else (Ok (PDict (<["content" := PNone]> d)), say ["  ❌ Failed to retrieve content"] w1)
  end.
Proof.
  intros Hlen Htitle Htoken. unfold retrieve_one.
  rewrite Hlen, bind_lift_Ok. getitem Htitle. rewrite bind_print.
  getitem Htoken. rewrite bind_print, bind_lift_Ok.
  unfold bind at 1. rewrite get_content_via_api_run, say_say.
  change (calls (say _ w)) with (calls w).
  destruct (subprocess_run _ _) as [rc out|name]; [|reflexivity].
  cbv zeta. destruct (py_bool (response_content rc out)).
  - cbn [py_setitem]. rewrite bind_lift_Ok.
    destruct (py_len (response_content rc out)) as [n|e].
    + rewrite bind_lift_Ok, bind_print. reflexivity.
    + rewrite bind_lift_Raise. reflexivity.
  - cbn [py_setitem]. rewrite bind_lift_Ok, bind_print. reflexivity.
Qed.

(** a descriptor without title or document token ends the loop before any fetch *)
Lemma retrieve_one_ill documents user_token i doc total w :
  py_len documents = Ok total ->
  ~ has_fields ["title"; "document_token"] doc ->
  exists e lines,
    retrieve_one documents user_token i doc w = (Raise e, say lines w) /\ access_error e.
Proof.
  intros Hlen Hill. unfold retrieve_one. rewrite Hlen, bind_lift_Ok.
  destruct doc as [| | | | |l|d];
    try (exists (TypeError NotSubscriptable), []; split; [|exact I];
         cbn [py_getitem]; rewrite bind_lift_Raise; unfold say; rewrite app_nil_r;
         destruct w; reflexivity).
  destruct (d !! "title") as [title|] eqn:Htitle.
  - destruct (d !! "document_token") as [token|] eqn:Htoken.
    + exfalso. apply Hill. unfold has_fields.
      repeat (apply Forall_cons; split); [rewrite Htitle | rewrite Htoken | apply Forall_nil]; eauto.
    + getitem Htitle. rewrite bind_print. getitem Htoken.
      eexists _, _. split; [reflexivity | exact I].
  - getitem Htitle. exists (KeyError "title"), []. split; [|exact I].
    unfold say; rewrite app_nil_r; destruct w; reflexivity.
Qed.

Lemma retrieve_one_Ok documents user_token i doc total w res w' :
  py_len documents = Ok total ->
  retrieve_one documents user_token i doc w = (Ok res, w') ->
  exists d rc out,
    doc = PDict d /\ has_fields ["title"; "document_token"] doc
    /\ subprocess_run (calls w) (request user_token doc) = Completed rc out
    /\ res = PDict (<["content" := stored (response_content rc out)]> d)
    /\ files w' = files w /\ environ w' = environ w
    /\ calls w' = calls w ++ [request user_token doc].
Proof.
  intros Hlen H.
  assert (Hill : ~ ~ has_fields ["title"; "document_token"] doc).
  { intros Hno. destruct (retrieve_one_ill _ user_token i _ _ w Hlen Hno) as (e & lines & He & _).
    congruence. }
  destruct doc as [| | | | |l|d]; try solve [exfalso; apply Hill; intros []].
  destruct (d !! "title") as [title|] eqn:Htitle.
  2:{ exfalso. apply Hill. intros Hf.
      destruct (has_fields_lookup _ _ "title" Hf) as [x Hx]; [apply list_elem_of_here | congruence]. }
  destruct (d !! "document_token") as [token|] eqn:Htoken.
  2:{ exfalso. apply Hill. intros Hf.
      destruct (has_fields_lookup _ _ "document_token" Hf) as [x Hx];
        [apply list_elem_of_further, list_elem_of_here | congruence]. }
  rewrite (retrieve_one_run _ _ _ _ _ _ _ _ Hlen Htitle Htoken) in H. cbv zeta in H.
  rewrite (request_dict _ _ _ Htoken).
  assert (Hf : has_fields ["title"; "document_token"] (PDict d)).
  { unfold has_fields.
    repeat (apply Forall_cons; split); [rewrite Htitle | rewrite Htoken | apply Forall_nil]; eauto. }
  destruct (subprocess_run _ _) as [rc out|name]; [|discriminate].
  exists d, rc, out. unfold stored.
  destruct (py_bool (response_content rc out)).
  - destruct (py_len (response_content rc out)); [|discriminate].
    injection H as <- <-. repeat split; try reflexivity; assumption.
  - injection H as <- <-. repeat split; try reflexivity; assumption.
Qed.

Lemma retrieve_one_Raise documents user_token i doc total w e w' :
  py_len documents = Ok total ->
  retrieve_one documents user_token i doc w = (Raise e, w') ->
  is_error e /\ files w' = files w /\ environ w' = environ w
  /\ (access_error e -> ~ has_fields ["title"; "document_token"] doc).
Proof.
  intros Hlen H.
  destruct doc as [| | | | |l|d];
    try (revert H; unfold retrieve_one; rewrite Hlen, bind_lift_Ok; cbn [py_getitem];
         rewrite bind_lift_Raise; intros [= <- <-]; repeat split; intros _ []).
  destruct (d !! "title") as [title|] eqn:Htitle.
  2:{ revert H. unfold retrieve_one. rewrite Hlen, bind_lift_Ok. getitem Htitle.
      intros [= <- <-]. repeat split. intros _ Hf.
      destruct (has_fields_lookup _ _ "title" Hf) as [x Hx]; [apply list_elem_of_here | congruence]. }
  destruct (d !! "document_token") as [token|] eqn:Htoken.
  2:{ revert H. unfold retrieve_one. rewrite Hlen, bind_lift_Ok. getitem Htitle.
      rewrite bind_print. getitem Htoken.
      intros [= <- <-]. repeat split. intros _ Hf.
      destruct (has_fields_lookup _ _ "document_token" Hf) as [x Hx];
        [apply list_elem_of_further, list_elem_of_here | congruence]. }
  rewrite (retrieve_one_run _ _ _ _ _ _ _ _ Hlen Htitle Htoken) in H. cbv zeta in H.
  destruct (subprocess_run _ _) as [rc out|name].
  - destruct (py_bool (response_content rc out)); [|discriminate].
    destruct (response_content rc out); try discriminate;
      injection H as <- <-; repeat split; intros [].
  - injection H as <- <-. repeat split. intros [].
Qed.

Lemma retrieve_loop_Ok documents user_token total docs :
  py_len documents = Ok total ->
  forall i w results w',
    retrieve_loop documents user_token i docs w = (Ok results, w') ->
    files w' = files w /\ environ w' = environ w
    /\ calls w' = calls w ++ (request user_token <$> docs)
    /\ length results = length docs
    /\ forall k doc, docs !! k = Some doc ->
         exists d rc out,
           doc = PDict d /\ has_fields ["title"; "document_token"] doc
           /\ subprocess_run (calls w ++ (request user_token <$> take k docs))
                             (request user_token doc) = Completed rc out
           /\ results !! k = Some (PDict (<["content" := stored (response_content rc out)]> d)).
Proof.
  intros Hlen. induction docs as [|doc docs IH]; intros i w results w'; cbn [retrieve_loop].
  - intros [= <- <-]. rewrite app_nil_r. repeat split. intros k doc Hk. discriminate Hk.
  - intros H. apply bind_Ok_inv in H as (res & w1 & Hone & H).
    apply bind_Ok_inv in H as (rest & w2 & Hloop & H). injection H as <- <-.
    destruct (retrieve_one_Ok _ _ _ _ _ _ _ _ Hlen Hone)
      as (d & rc & out & -> & Hf & Hrun & -> & Hfiles & Henv & Hcalls).
    destruct (IH _ _ _ _ Hloop) as (Hfiles' & Henv' & Hcalls' & Hlength & Hnth).
    split; [congruence|]. split; [congruence|].
    split; [rewrite Hcalls', Hcalls, fmap_cons, <- app_assoc; reflexivity|].
    split; [cbn; congruence|].
    intros [|k] doc Hk.
    + injection Hk as <-. exists d, rc, out. cbn [take fmap list_fmap].
      rewrite app_nil_r. repeat split; assumption.
    + cbn in Hk. destruct (Hnth _ _ Hk) as (d' & rc' & out' & -> & Hf' & Hrun' & Hres).
      exists d', rc', out'. rewrite Hcalls, <- app_assoc in Hrun'.
      repeat split; assumption.
Qed.

Lemma retrieve_loop_Raise documents user_token total docs :
  py_len documents = Ok total ->
  forall i w e w',
    retrieve_loop documents user_token i docs w = (Raise e, w') ->
    is_error e /\ files w' = files w /\ environ w' = environ w
    /\ (access_error e ->
        exists doc, doc ∈ docs /\ ~ has_fields ["title"; "document_token"] doc).
Proof.
  intros Hlen. induction docs as [|doc docs IH]; intros i w e w'; cbn [retrieve_loop].
  - discriminate.
  - unfold bind at 1.
    destruct (retrieve_one documents user_token i doc w) as [[res|e1] w1] eqn:Hone.
    + unfold bind at 1.
      destruct (retrieve_loop documents user_token (S i) docs w1) as [[rest|e2] w2] eqn:Hloop;
        [discriminate|].
      intros [= <- <-].
      destruct (retrieve_one_Ok _ _ _ _ _ _ _ _ Hlen Hone)
        as (_ & _ & _ & _ & _ & _ & _ & Hfiles & Henv & _).
      destruct (IH _ _ _ _ Hloop) as (He & Hfiles' & Henv' & Hacc).
      split; [exact He|]. split; [congruence|]. split; [congruence|].
      intros Ha. destruct (Hacc Ha) as (doc' & Hin & Hdoc'). exists doc'.
      split; [apply list_elem_of_further, Hin | exact Hdoc'].
    + intros [= <- <-].
      destruct (retrieve_one_Raise _ _ _ _ _ _ _ _ Hlen Hone) as (He & Hfiles & Henv & Hacc).
      repeat split; try assumption.
      intros Ha. exists doc. split; [apply list_elem_of_here | apply Hacc, Ha].
Qed.

(** ** [main] up to the choice of the mode *)

Lemma print_heading_run documents n w :
  py_len documents = Ok n -> print_heading documents w = (Ok tt, say (heading_lines n) w).
Proof.
  intros H. unfold print_heading. rewrite !bind_print, H, bind_lift_Ok, !bind_print.
  unfold print. rewrite !say_say. reflexivity.
Qed.

Lemma print_heading_Raise documents e w :
  py_len documents = Raise e ->
  print_heading documents w
  = (Raise e, say [rule_eq; "Lark Wiki Document Content Retrieval"; rule_eq] w).
Proof.
  intros H. unfold print_heading. rewrite !bind_print, H, bind_lift_Raise, !say_say.
  reflexivity.
Qed.

Lemma main_loaded w text documents :
  files w !! INPUT_FILE = Some text -> json_loads text = Some documents ->
  main w =
  bind (print_heading documents)
       (fun _ => match environ w !! TOKEN_VAR with
                 | None => dry_mode documents
                 | Some token =>
                     if String.eqb token EmptyString then dry_mode documents
                     else live_mode documents token
                 end) w.
Proof.
  intros Hfile Hjson. unfold main. unfold bind at 1. unfold os_path_exists.
  rewrite bool_decide_eq_true_2 by (rewrite Hfile; eauto). cbn [negb].
  unfold bind at 1. unfold json_load_file. rewrite Hfile, Hjson.
  unfold bind at 1 3. destruct (print_heading documents w) as [[[]|e] w1] eqn:Hhead; [|reflexivity].
  unfold bind, os_environ_get.
  assert (environ w1 = environ w) as ->; [|reflexivity].
  destruct (py_len documents) as [n|e] eqn:Hlen.
  - rewrite (print_heading_run _ _ _ Hlen) in Hhead. injection Hhead as <-. reflexivity.
  - rewrite (print_heading_Raise _ _ _ Hlen) in Hhead. discriminate.
Qed.

Lemma main_live w documents token n :
  live w documents token -> py_len documents = Ok n ->
  main w = live_mode documents token (say (heading_lines n) w).
Proof.
  intros [(text & Hfile & Hjson) [Henv Hne]] Hlen.
  rewrite (main_loaded _ _ _ Hfile Hjson), Henv.
  erewrite bind_Ok by (apply print_heading_run, Hlen).
  destruct (String.eqb_spec token EmptyString); [contradiction | reflexivity].
Qed.

Lemma main_dry w documents n :
  dry w documents -> py_len documents = Ok n ->
  main w = dry_mode documents (say (heading_lines n) w).
Proof.
  intros [(text & Hfile & Hjson) Henv] Hlen.
  rewrite (main_loaded _ _ _ Hfile Hjson).
  erewrite bind_Ok by (apply print_heading_run, Hlen).
  destruct Henv as [-> | ->]; reflexivity.
Qed.

Lemma print_done_run w : exists lines, print_done w = (Ok tt, say lines w).
Proof.
  unfold print_done. rewrite !bind_print. unfold print. rewrite !say_say. eexists. reflexivity.
Qed.

Lemma entry_head_content d c : entry_head (<["content" := c]> d) = entry_head d.
Proof. unfold entry_head. rewrite !lookup_insert_ne by discriminate. reflexivity. Qed.

(** ** Live mode, when it runs to its end *)

Lemma live_mode_Ok docs user_token w w' :
  live_mode (PList docs) user_token w = (Ok tt, w') ->
  exists results w1 blocks,
    retrieve_loop (PList docs) user_token 1 docs w = (Ok results, w1)
    /\ Forall2 (fun r b => entry_text r = Some b) results blocks
    /\ files w' = <[OUTPUT_FILE := banner +:+ join blocks]> (files w)
    /\ environ w' = environ w
    /\ calls w' = calls w ++ (request user_token <$> docs)
    /\ length blocks = length docs
    /\ forall k doc, docs !! k = Some doc ->
         exists d rc out block,
           doc = PDict d /\ has_fields ["title"; "document_token"] doc
           /\ subprocess_run (calls w ++ (request user_token <$> take k docs))
                             (request user_token doc) = Completed rc out
           /\ results !! k = Some (PDict (<["content" := stored (response_content rc out)]> d))
           /\ entry_text (PDict (<["content" := stored (response_content rc out)]> d)) = Some block
           /\ blocks !! k = Some block.
Proof.
  unfold live_mode. cbn [py_iter]. rewrite bind_lift_Ok. intros H.
  apply bind_Ok_inv in H as (results & w1 & Hloop & H).
  apply bind_Ok_inv in H as ([] & w2 & Hsave & H).
  destruct (print_done_run w2) as (lines & Hdone). rewrite Hdone in H. injection H as <-.
  rewrite save_results_eq in Hsave. apply write_entries_inv in Hsave as (blocks & Hblocks & ->).
  destruct (retrieve_loop_Ok (PList docs) _ (length docs) _ eq_refl _ _ _ _ Hloop)
    as (Hfiles & Henv & Hcalls & Hlength & Hnth).
  exists results, w1, blocks. cbn [say set_file files environ calls].
  split; [exact Hloop|]. split; [exact Hblocks|].
  split; [rewrite Hfiles; reflexivity|]. split; [exact Henv|]. split; [exact Hcalls|].
  split; [rewrite <- (Forall2_length _ _ _ Hblocks); exact Hlength|].
  intros k doc Hk. destruct (Hnth _ _ Hk) as (d & rc & out & -> & Hf & Hrun & Hres).
  destruct (Forall2_lookup_l _ _ _ _ _ Hblocks Hres) as (block & Hblock & Htext).
  exists d, rc, out, block. repeat split; assumption.
Qed.

(** ** Dry mode *)

Lemma say_nil w : say [] w = w.
Proof. destruct w. unfold say. cbn. rewrite app_nil_r. reflexivity. Qed.

Lemma prints_only_ret {A} (a : A) : prints_only (ret a).
Proof. intros w. exists []. rewrite say_nil. reflexivity. Qed.

Lemma prints_only_lift {A} (r : result A) : prints_only (lift r).
Proof. intros w. exists []. rewrite say_nil. reflexivity. Qed.

Lemma prints_only_print s : prints_only (print s).
Proof. intros w. exists [s]. reflexivity. Qed.

Lemma prints_only_bind {A B} (m : M A) (f : A -> M B) :
  prints_only m -> (forall a, prints_only (f a)) -> prints_only (bind m f).
Proof.
  intros Hm Hf w. unfold bind. destruct (Hm w) as (l1 & H1).
  destruct (m w) as [[a|e] w1]; cbn in H1; subst w1.
  - destruct (Hf a (say l1 w)) as (l2 & H2). exists (l1 ++ l2). rewrite H2. apply say_say.
  - exists l1. reflexivity.
Qed.

Lemma prints_only_for_each {A} (body : A -> M unit) l :
  (forall x, prints_only (body x)) -> prints_only (for_each body l).
Proof.
  intros Hbody. induction l as [|x l IH]; cbn [for_each].
  - apply prints_only_ret.
  - apply prints_only_bind; [apply Hbody | intros _; exact IH].
Qed.

Create HintDb quiet.
#[local] Hint Resolve prints_only_ret prints_only_lift prints_only_print : quiet.

Lemma prints_only_list_document doc : prints_only (list_document doc).
Proof. unfold list_document. repeat (apply prints_only_bind; [|intros ?]); auto with quiet. Qed.

Lemma prints_only_dry_mode documents : prints_only (dry_mode documents).
Proof.
  unfold dry_mode, sys_exit.
  repeat (apply prints_only_bind; [|intros ?]);
    auto using prints_only_for_each, prints_only_list_document with quiet.
Qed.

Lemma list_document_Some doc line w :
  listing_line doc = Some line -> list_document doc w = (Ok tt, say [line] w).
Proof.
  destruct doc as [| | | | |l|d]; try discriminate. unfold listing_line, list_document.
  destruct (d !! "title") as [title|] eqn:Htitle; [|discriminate].
  destruct (d !! "document_token") as [token|] eqn:Htoken; [|discriminate].
  cbn [mbind option_bind]. intros [= <-]. getitem Htitle. getitem Htoken. reflexivity.
Qed.

Lemma list_document_None doc w :
  listing_line doc = None ->
  exists e, list_document doc w = (Raise e, w) /\ access_error e.
Proof.
  destruct doc as [| | | | |l|d];
    try (intros _; exists (TypeError NotSubscriptable); split; [reflexivity | exact I]).
  unfold listing_line, list_document.
  destruct (d !! "title") as [title|] eqn:Htitle.
  - destruct (d !! "document_token") as [token|] eqn:Htoken; [discriminate|].
    intros _. getitem Htitle. getitem Htoken. eexists. split; [reflexivity | exact I].
  - intros _. getitem Htitle. eexists. split; [reflexivity | exact I].
Qed.

Lemma listing_line_fields doc :
  has_fields ["title"; "document_token"] doc <-> is_Some (listing_line doc).
Proof.
  destruct doc as [| | | | |l|d]; try (split; [intros [] | intros [x Hx]; discriminate]).
  unfold listing_line. split.
  - intros Hf.
    destruct (has_fields_lookup _ _ "title" Hf) as [title ->]; [apply list_elem_of_here|].
    destruct (has_fields_lookup _ _ "document_token" Hf) as [token ->];
      [apply list_elem_of_further, list_elem_of_here|].
    eauto.
  - intros [line H].
    destruct (d !! "title") as [title|] eqn:Htitle; [|discriminate].
    destruct (d !! "document_token") as [token|] eqn:Htoken; [|discriminate].
    unfold has_fields.
    repeat (apply Forall_cons; split); [rewrite Htitle | rewrite Htoken | apply Forall_nil]; eauto.
Qed.

Lemma listing_lines docs :
  Forall (has_fields ["title"; "document_token"]) docs ->
  exists lines, Forall2 (fun doc line => listing_line doc = Some line) docs lines.
Proof.
  induction 1 as [|doc docs Hdoc _ (lines & IH)].
  - exists []. constructor.
  - apply listing_line_fields in Hdoc as [line Hline]. exists (line :: lines).
    constructor; assumption.
Qed.

Lemma list_documents_Some docs : forall lines w,
  Forall2 (fun doc line => listing_line doc = Some line) docs lines ->
  for_each list_document docs w = (Ok tt, say lines w).
Proof.
  induction docs as [|doc docs IH]; intros lines w H; inversion H; subst; cbn [for_each].
  - rewrite say_nil. reflexivity.
  - erewrite bind_Ok by (apply list_document_Some; eassumption).
    rewrite (IH l') by assumption. rewrite say_say. reflexivity.
Qed.

Lemma dry_mode_listing docs lines w :
  Forall2 (fun doc line => listing_line doc = Some line) docs lines ->
  dry_mode (PList docs) w = (Raise (SystemExit 0), say (dry_intro ++ lines ++ dry_outro) w).
Proof.
  intros H. unfold dry_mode. rewrite !bind_print. cbn [py_iter]. rewrite bind_lift_Ok.
  erewrite bind_Ok by (apply list_documents_Some, H).
  rewrite !bind_print. unfold sys_exit, lift. rewrite !say_say.
  reflexivity.
Qed.

(** a descriptor without title or document token ends the listing *)
Lemma list_documents_ill docs : forall w,
  ~ Forall (has_fields ["title"; "document_token"]) docs ->
  exists e w', for_each list_document docs w = (Raise e, w') /\ access_error e.
Proof.
  induction docs as [|doc docs IH]; intros w Hill.
  - exfalso. apply Hill. constructor.
  - cbn [for_each]. destruct (listing_line doc) as [line|] eqn:Hline.
    + erewrite bind_Ok by (apply list_document_Some; eassumption).
      apply IH. intros Hf. apply Hill. constructor; [|exact Hf].
      apply listing_line_fields. eauto.
    + destruct (list_document_None _ w Hline) as (e & He & Hacc).
      erewrite bind_Raise by exact He. eauto.
Qed.

(** ** Live mode, when it raises *)

Lemma has_fields_incl keys keys' doc :
  keys' ⊆ keys -> has_fields keys doc -> has_fields keys' doc.
Proof.
  destruct doc; try solve [intros _ []]. unfold has_fields. rewrite !Forall_forall.
  intros Hsub H k Hk. apply H, Hsub, Hk.
Qed.

Lemma has_fields_content keys d c :
  has_fields keys (PDict d) -> has_fields keys (PDict (<["content" := c]> d)).
Proof.
  unfold has_fields. rewrite !Forall_forall. intros H k Hk. destruct (H k Hk) as [x Hx].
  rewrite lookup_insert. case_decide; eauto.
Qed.

Lemma fetch_fields_in_FIELDS : ["title"; "document_token"] ⊆ FIELDS.
Proof.
  intros k Hk. unfold FIELDS.
  apply elem_of_cons in Hk as [-> | Hk]; [apply list_elem_of_here|].
  apply elem_of_cons in Hk as [-> | Hk]; [apply list_elem_of_further, list_elem_of_here|].
  apply elem_of_nil in Hk as [].
Qed.

Lemma live_mode_Raise docs user_token w e w' :
  live_mode (PList docs) user_token w = (Raise e, w') ->
  is_error e
  /\ (access_error e -> exists doc, doc ∈ docs /\ ~ has_fields FIELDS doc).
Proof.
  unfold live_mode. cbn [py_iter]. rewrite bind_lift_Ok. unfold bind at 1.
  destruct (retrieve_loop (PList docs) user_token 1 docs w) as [[results|e1] w1] eqn:Hloop.
  - unfold bind at 1. rewrite save_results_eq.
    destruct (for_each write_entry results _) as [[[]|e2] w2] eqn:Hsave.
    + destruct (print_done_run w2) as (lines & ->). discriminate.
    + intros [= <- <-]. apply write_entries_Raise in Hsave as (He & Hacc).
      split; [exact He|]. intros Ha. destruct (Hacc Ha) as (r & Hin & Hr).
      apply list_elem_of_lookup in Hin as (k & Hk).
      destruct (retrieve_loop_Ok (PList docs) _ (length docs) _ eq_refl _ _ _ _ Hloop)
        as (_ & _ & _ & Hlength & Hnth).
      destruct (lookup_lt_is_Some_2 docs k) as [doc Hdoc].
      { rewrite <- Hlength. eapply lookup_lt_Some, Hk. }
      destruct (Hnth _ _ Hdoc) as (d & rc & out & -> & _ & _ & Hres).
      exists (PDict d). split; [eapply list_elem_of_lookup_2, Hdoc|].
      intros Hf. apply Hr. rewrite Hk in Hres. injection Hres as ->.
      apply has_fields_content, Hf.
  - intros [= <- <-].
    destruct (retrieve_loop_Raise (PList docs) _ (length docs) _ eq_refl _ _ _ _ Hloop)
      as (He & _ & _ & Hacc).
    split; [exact He|]. intros Ha. destruct (Hacc Ha) as (doc & Hin & Hdoc).
    exists doc. split; [exact Hin|]. intros Hf. apply Hdoc.
    eapply has_fields_incl; [apply fetch_fields_in_FIELDS | exact Hf].
Qed.

(** ** What [get_content_via_api] makes of a response *)

Lemma response_content_nonzero rc out : rc <> 0%Z -> response_content rc out = PNone.
Proof. intros H. unfold response_content. destruct (Z.eqb_spec rc 0); [contradiction | reflexivity]. Qed.

Lemma response_content_invalid rc out : json_loads out = None -> response_content rc out = PNone.
Proof.
  intros H. unfold response_content, try_body. rewrite H. destruct (rc =? 0)%Z; reflexivity.
Qed.

Lemma response_content_code rc out data code :
  json_loads out = Some (PDict data) -> data !! "code" = Some code -> py_eq_0 code = false ->
  response_content rc out = PNone.
Proof.
  intros H Hcode Hne. unfold response_content, try_body. rewrite H. cbn [py_get].
  rewrite Hcode. cbn [default from_option id]. rewrite Hne. destruct (rc =? 0)%Z; reflexivity.
Qed.

Lemma response_content_success out data code inner :
  json_loads out = Some (PDict data) -> data !! "code" = Some code -> py_eq_0 code = true ->
  data !! "data" = Some (PDict inner) ->
  response_content 0 out = default (PStr EmptyString) (inner !! "content").
Proof.
  intros H Hcode Heq Hdata. unfold response_content, try_body. rewrite H. cbn [py_get Z.eqb].
  rewrite Hcode. cbn [default from_option id]. rewrite Heq, Hdata. reflexivity.
Qed.

Lemma response_content_no_data out data code :
  json_loads out = Some (PDict data) -> data !! "code" = Some code -> py_eq_0 code = true ->
  data !! "data" = None ->
  response_content 0 out = PStr EmptyString.
Proof.
  intros H Hcode Heq Hdata. unfold response_content, try_body. rewrite H. cbn [py_get Z.eqb].
  rewrite Hcode. cbn [default from_option id]. rewrite Heq, Hdata. reflexivity.
Qed.

(** ** Two runs side by side *)

Lemma agree_weaken b w1 w2 : agree b w1 w2 -> agree false w1 w2.
Proof. intros [H _]. split; [exact H | discriminate]. Qed.

Lemma alike_ret {A} b (a : A) : alike b b (ret a).
Proof. intros w1 w2 H. split; [reflexivity | exact H]. Qed.

Lemma alike_lift {A} b (r : result A) : alike b b (lift r).
Proof.
  intros w1 w2 H. split; [reflexivity|]. cbn. destruct r; [exact H | eapply agree_weaken, H].
Qed.

Lemma alike_print b s : alike b b (print s).
Proof. intros w1 w2 H. split; [reflexivity | exact H]. Qed.

Lemma alike_bind {A B} b b1 b2 (m : M A) (f : A -> M B) :
  alike b b1 m -> (forall a, alike b1 b2 (f a)) -> alike b b2 (bind m f).
Proof.
  intros Hm Hf w1 w2 H. unfold bind. destruct (Hm w1 w2 H) as (Hres & Hagree).
  destruct (m w1) as [r1 w1'], (m w2) as [r2 w2']. cbn in Hres, Hagree. subst r2.
  destruct r1 as [a|e]; [apply Hf, Hagree | split; [reflexivity | exact Hagree]].
Qed.

Lemma alike_for_each {A} b (body : A -> M unit) l :
  (forall x, alike b b (body x)) -> alike b b (for_each body l).
Proof.
  intros Hbody. induction l as [|x l IH]; cbn [for_each].
  - apply alike_ret.
  - eapply alike_bind; [apply Hbody | intros _; exact IH].
Qed.

Lemma alike_os_path_exists b : alike b b (os_path_exists INPUT_FILE).
Proof.
  intros w1 w2 H. split; [|exact H]. destruct H as [(Hfile & _) _].
  unfold os_path_exists. cbn. rewrite Hfile. reflexivity.
Qed.

Lemma alike_json_load_file b : alike b b (json_load_file INPUT_FILE).
Proof.
  intros w1 w2 H. pose proof H as [(Hfile & _) _]. unfold json_load_file. rewrite Hfile.
  destruct (files w2 !! INPUT_FILE) as [text|]; [destruct (json_loads text)|];
    (split; [reflexivity|]); cbn; first [exact H | eapply agree_weaken, H].
Qed.

Lemma alike_os_environ_get b : alike b b (os_environ_get TOKEN_VAR).
Proof.
  intros w1 w2 H. split; [|exact H]. destruct H as [(_ & Henv & _) _].
  unfold os_environ_get. cbn. rewrite Henv. reflexivity.
Qed.

Lemma alike_run_process b argv : alike b b (run_process argv).
Proof.
  intros w1 w2 H. pose proof H as [(Hfile & Henv & Hcalls) Hout]. unfold run_process.
  rewrite Hcalls.
  assert (Hinv : agree b (invoke argv w1) (invoke argv w2)).
  { split; [|exact Hout]. repeat split; cbn; congruence. }
  destruct (subprocess_run (calls w2) argv); (split; [reflexivity|]); cbn;
    first [exact Hinv | eapply agree_weaken, Hinv].
Qed.

Lemma output_is_not_input : OUTPUT_FILE <> INPUT_FILE.
Proof. discriminate. Qed.

Lemma alike_open_w b : alike b true (open_w OUTPUT_FILE).
Proof.
  intros w1 w2 [(Hfile & Henv & Hcalls) _]. split; [reflexivity|]. cbn.
  split; [repeat split; cbn; try assumption|].
  - rewrite !lookup_insert_ne by apply output_is_not_input. exact Hfile.
  - intros _. cbn. rewrite !lookup_insert_eq. reflexivity.
Qed.

Lemma alike_file_write s : alike true true (file_write OUTPUT_FILE s).
Proof.
  intros w1 w2 [(Hfile & Henv & Hcalls) Hout]. split; [reflexivity|]. cbn.
  split; [repeat split; cbn; try assumption|].
  - rewrite !lookup_insert_ne by apply output_is_not_input. exact Hfile.
  - intros _. cbn. rewrite !lookup_insert_eq, (Hout eq_refl). reflexivity.
Qed.

Create HintDb alike.
#[local] Hint Resolve alike_ret alike_lift alike_print alike_os_path_exists
  alike_json_load_file alike_os_environ_get alike_run_process alike_open_w
  alike_file_write : alike.

Ltac alike_steps :=
  repeat (eapply alike_bind; [solve [eauto with alike] | intros ?]); eauto with alike.

Lemma alike_get_content_via_api b token user_token :
  alike b b (get_content_via_api token user_token).
Proof. unfold get_content_via_api. alike_steps. Qed.

Lemma alike_retrieve_one b documents user_token i doc :
  alike b b (retrieve_one documents user_token i doc).
Proof.
  unfold retrieve_one.
  do 7 (eapply alike_bind;
        [solve [eauto using alike_get_content_via_api with alike] | intros ?]).
  destruct (py_bool _); alike_steps.
Qed.

Lemma alike_retrieve_loop b documents user_token docs :
  forall i, alike b b (retrieve_loop documents user_token i docs).
Proof.
  induction docs as [|doc docs IH]; intros i; cbn [retrieve_loop].
  - apply alike_ret.
  - eapply alike_bind; [apply alike_retrieve_one | intros doc'].
    eapply alike_bind; [apply IH | intros results]. apply alike_ret.
Qed.

Lemma alike_write_entry doc : alike true true (write_entry doc).
Proof.
  unfold write_entry.
  do 13 (eapply alike_bind; [solve [eauto with alike] | intros ?]).
  eapply alike_bind; [|intros _; auto with alike].
  destruct (py_bool _); [|auto with alike].
  eapply alike_bind; [auto with alike | intros content].
  destruct content; alike_steps.
Qed.

Lemma alike_save_results b results : alike b true (save_results results).
Proof.
  unfold save_results, mkdir_parent, write_banner.
  eapply alike_bind; [apply alike_ret | intros _].
  eapply alike_bind; [apply alike_open_w | intros _].
  eapply alike_bind; [alike_steps | intros _].
  apply alike_for_each, alike_write_entry.
Qed.

Lemma alike_live_mode b documents user_token : alike b true (live_mode documents user_token).
Proof.
  unfold live_mode, print_done.
  eapply alike_bind; [apply alike_lift | intros docs].
  eapply alike_bind; [apply alike_retrieve_loop | intros results].
  eapply alike_bind; [apply alike_save_results | intros _].
  alike_steps.
Qed.

Lemma alike_raises {A} b b' (m : M A) :
  alike b b m -> (forall w a, (m w).1 <> Ok a) -> alike b b' m.
Proof.
  intros Hm Hraise w1 w2 H. destruct (Hm w1 w2 H) as (Hres & Hagree). split; [exact Hres|].
  destruct (m w1).1 as [a|e] eqn:Hr; [destruct (Hraise _ _ Hr) | exact Hagree].
Qed.

Lemma bind_never_Ok {A B} (m : M A) (f : A -> M B) :
  (forall a w b, (f a w).1 <> Ok b) -> forall w b, (bind m f w).1 <> Ok b.
Proof.
  intros Hf w b. unfold bind. destruct (m w) as [[a|e] w1]; [apply Hf | discriminate].
Qed.

Lemma alike_dry_mode b b' documents : alike b b' (dry_mode documents).
Proof.
  apply alike_raises.
  - unfold dry_mode, list_document, sys_exit.
    do 8 (eapply alike_bind; [solve [eauto with alike] | intros ?]).
    eapply alike_bind; [apply alike_for_each; intros doc; alike_steps | intros _].
    alike_steps.
  - unfold dry_mode, sys_exit. do 15 (apply bind_never_Ok; intros ?). discriminate.
Qed.

Lemma alike_input_missing b b' : alike b b' input_missing.
Proof.
  apply alike_raises.
  - unfold input_missing, sys_exit. alike_steps.
  - unfold input_missing, sys_exit. do 2 (apply bind_never_Ok; intros ?). discriminate.
Qed.

Lemma alike_main : alike false true main.
Proof.
  unfold main.
  eapply alike_bind; [apply alike_os_path_exists | intros found].
  destruct found; cbn [negb]; [|apply alike_input_missing].
  eapply alike_bind; [apply alike_json_load_file | intros documents].
  eapply alike_bind; [unfold print_heading; alike_steps | intros _].
  eapply alike_bind; [apply alike_os_environ_get | intros [token|]].
  - destruct (String.eqb token EmptyString); [apply alike_dry_mode | apply alike_live_mode].
  - apply alike_dry_mode.
Qed.

(** ** Live mode runs to its end on well-formed input *)







(** ** [main] as a whole *)

Lemma main_missing w :
  files w !! INPUT_FILE = None ->
  main w = (Raise (SystemExit 1),
            say [ "Error: Input file not found: " +:+ INPUT_FILE;
                  "Please run get_all_wiki_docs.sh first to generate the JSON file." ] w).
Proof.
  intros Hfile. unfold main. unfold bind at 1. unfold os_path_exists.
  rewrite bool_decide_eq_false_2 by (rewrite Hfile; intros [x Hx]; discriminate).
  cbn [negb]. unfold input_missing. rewrite !bind_print. unfold sys_exit, lift.
  rewrite say_say. reflexivity.
Qed.

Lemma main_malformed w text :
  files w !! INPUT_FILE = Some text -> json_loads text = None ->
  main w = (Raise JSONDecodeError, w).
Proof.
  intros Hfile Hjson. unfold main. unfold bind at 1. unfold os_path_exists.
  rewrite bool_decide_eq_true_2 by (rewrite Hfile; eauto). cbn [negb].
  unfold bind at 1. unfold json_load_file. rewrite Hfile, Hjson. reflexivity.
Qed.

Lemma dry_mode_never_Ok documents w : (dry_mode documents w).1 <> Ok tt.
Proof.
  unfold dry_mode, sys_exit. do 15 (apply bind_never_Ok; intros ?). discriminate.
Qed.

Lemma live_mode_report documents user_token w w' :
  live_mode documents user_token w = (Ok tt, w') ->
  exists report, files w' !! OUTPUT_FILE = Some report.
Proof.
  unfold live_mode. intros H.
  apply bind_Ok_inv in H as (docs & w0 & _ & H).
  apply bind_Ok_inv in H as (results & w1 & _ & H).
  apply bind_Ok_inv in H as ([] & w2 & Hsave & H).
  destruct (print_done_run w2) as (lines & Hdone). rewrite Hdone in H. injection H as <-.
  rewrite save_results_eq in Hsave. apply write_entries_inv in Hsave as (blocks & _ & ->).
  eexists. cbn [say set_file files]. apply lookup_insert_eq.
Qed.

Lemma main_Ok_report w w' :
  main w = (Ok tt, w') -> exists report, files w' !! OUTPUT_FILE = Some report.
Proof.
  destruct (files w !! INPUT_FILE) as [text|] eqn:Hfile.
  2:{ rewrite (main_missing _ Hfile). discriminate. }
  destruct (json_loads text) as [documents|] eqn:Hjson.
  2:{ rewrite (main_malformed _ _ Hfile Hjson). discriminate. }
  rewrite (main_loaded _ _ _ Hfile Hjson).
  destruct (py_len documents) as [n|e] eqn:Hlen.
  2:{ erewrite bind_Raise by (apply print_heading_Raise, Hlen). discriminate. }
  erewrite bind_Ok by (apply print_heading_run, Hlen).
  destruct (environ w !! TOKEN_VAR) as [token|].
  - destruct (String.eqb token EmptyString).
    + intros H. destruct (dry_mode_never_Ok documents (say (heading_lines n) w)).
      rewrite H. reflexivity.
    + apply live_mode_report.
  - intros H. destruct (dry_mode_never_Ok documents (say (heading_lines n) w)).
    rewrite H. reflexivity.
Qed.

(** ** The report of a run that raises

    Whatever the outcome of a live run, the report it leaves is the banner,
    the entries of the first descriptors of the input array in their order,
    and what was written of the next entry before the error. *)

Lemma write_entries_any results : forall a w,
  exists n blocks part,
    (for_each write_entry results (set_file OUTPUT_FILE a w)).2
    = set_file OUTPUT_FILE (a +:+ join blocks +:+ part) w
    /\ Forall2 (fun r b => entry_text r = Some b) (take n results) blocks
    /\ ((for_each write_entry results (set_file OUTPUT_FILE a w)).1 = Ok tt ->
        n = length results /\ part = EmptyString).
Proof.
  induction results as [|r results IH]; intros a w; cbn [for_each].
  - exists 0, [], EmptyString. cbn [join]. rewrite !append_empty_r.
    split; [reflexivity|]. split; [constructor | intros _; split; reflexivity].
  - destruct (entry_text r) as [text|] eqn:Hr.
    + erewrite bind_Ok by (apply write_entry_Some; eassumption).
      destruct (IH (a +:+ text) w) as (n & blocks & part & Hworld & Hblocks & Hok).
      exists (S n), (text :: blocks), part. rewrite Hworld. cbn [join take].
      split; [rewrite !append_assoc; reflexivity|].
      split; [constructor; assumption|].
      intros H. destruct (Hok H) as [-> ->]. split; reflexivity.
    + destruct (write_entry_None r a w Hr) as (e & part & He & _).
      erewrite bind_Raise by exact He.
      exists 0, [], part. split; [reflexivity|]. split; [constructor | discriminate].
Qed.

Lemma write_entries_stop results : forall a w e w',
  for_each write_entry results (set_file OUTPUT_FILE a w) = (Raise e, w') ->
  exists blocks part r,
    w' = set_file OUTPUT_FILE (a +:+ join blocks +:+ part) w
    /\ Forall2 (fun r b => entry_text r = Some b) (take (length blocks) results) blocks
    /\ results !! length blocks = Some r
    /\ entry_text r = None
    /\ forall a0 w0,
         write_entry r (set_file OUTPUT_FILE a0 w0)
         = (Raise e, set_file OUTPUT_FILE (a0 +:+ part) w0).
Proof.
  induction results as [|r results IH]; intros a w e w'; cbn [for_each].
  - discriminate.
  - destruct (entry_text r) as [text|] eqn:Hr.
    + erewrite bind_Ok by (apply write_entry_Some; eassumption).
      intros H. destruct (IH _ _ _ _ H) as (blocks & part & r' & -> & Hblocks & Hnext & Hnone & Hstop).
      exists (text :: blocks), part, r'. cbn [join take length]. rewrite !append_assoc.
      split; [reflexivity|]. split; [constructor; assumption|].
      split; [exact Hnext|]. split; assumption.
    + destruct (write_entry_stops r Hr) as (e0 & part & Hstop).
      erewrite bind_Raise by apply Hstop. intros [= <- <-].
      exists [], part, r. cbn [join take length]. split; [reflexivity|].
      split; [constructor|]. split; [reflexivity|]. split; assumption.
Qed.

(** X17. Whatever the outcome of a live run, either no file was touched
    (the retrieval loop raised) or the report holds the banner, then the
    complete entries of the first results of the retrieval loop, each at
    its place and built from the descriptor at that place, then a rest.
    When the run reaches its end there is one entry per descriptor and the
    rest is empty. When the run raises, the result that comes after the
    reported ones is one whose entry cannot be written in full, the rest is
    exactly what [write_entry] puts out for it before it raises, and the
    exception of the run is the one [write_entry] raises there. *)
Theorem report_is_an_ordered_prefix w docs token :
  live w (PList docs) token ->
  (files (main w).2 = files w /\ (main w).1 <> Ok tt)
  \/ exists results w1 blocks part,
       retrieve_loop (PList docs) token 1 docs (say (heading_lines (length docs)) w)
         = (Ok results, w1)
       /\ files (main w).2 !! OUTPUT_FILE = Some (banner +:+ join blocks +:+ part)
       /\ length blocks <= length docs
       /\ (forall k block, blocks !! k = Some block ->
             exists d content,
               docs !! k = Some (PDict d)
               /\ results !! k = Some (PDict (<["content" := content]> d))
               /\ entry_text (PDict (<["content" := content]> d)) = Some block)
       /\ ((main w).1 = Ok tt -> length blocks = length docs /\ part = EmptyString)
       /\ (forall e, (main w).1 = Raise e ->
             exists d content,
               docs !! length blocks = Some (PDict d)
               /\ results !! length blocks = Some (PDict (<["content" := content]> d))
               /\ entry_text (PDict (<["content" := content]> d)) = None
               /\ forall a w0,
                    write_entry (PDict (<["content" := content]> d)) (set_file OUTPUT_FILE a w0)
                    = (Raise e, set_file OUTPUT_FILE (a +:+ part) w0)).
Proof.
  intros Hlive. rewrite (main_live _ _ _ (length docs) Hlive eq_refl).
  unfold live_mode. cbn [py_iter]. rewrite !bind_lift_Ok.
  destruct (retrieve_loop (PList docs) token 1 docs (say (heading_lines (length docs)) w))
    as [[results|e] w1] eqn:Hloop.
  - right.
    destruct (retrieve_loop_Ok (PList docs) _ (length docs) _ eq_refl _ _ _ _ Hloop)
      as (Hfiles & _ & _ & Hlength & Hnth).
    assert (Hplace : forall n blocks,
      Forall2 (fun r b => entry_text r = Some b) (take n results) blocks ->
      forall k block, blocks !! k = Some block ->
        exists d content,
          docs !! k = Some (PDict d)
          /\ results !! k = Some (PDict (<["content" := content]> d))
          /\ entry_text (PDict (<["content" := content]> d)) = Some block).
    { intros n blocks Hblocks k block Hk.
      destruct (Forall2_lookup_r _ _ _ _ _ Hblocks Hk) as (r & Hr & Htext).
      apply lookup_take_Some in Hr as [Hr _].
      destruct (lookup_lt_is_Some_2 docs k) as [doc Hdoc].
      { rewrite <- Hlength. eapply lookup_lt_Some, Hr. }
      destruct (Hnth _ _ Hdoc) as (d & rc & out & -> & _ & _ & Hres).
      rewrite Hr in Hres. injection Hres as ->. eauto. }
    exists results, w1.
    rewrite !(bind_Ok _ _ _ _ _ Hloop). unfold bind. rewrite !save_results_eq.
    destruct (for_each write_entry results (set_file OUTPUT_FILE banner w1))
      as [[[]|e] w2] eqn:Hsave.
    + apply write_entries_inv in Hsave as (blocks & Hblocks & ->).
      destruct (print_done_run (set_file OUTPUT_FILE (banner +:+ join blocks) w1)) as (lines & ->).
      exists blocks, EmptyString. cbn [fst snd]. rewrite append_empty_r.
      pose proof (Forall2_length _ _ _ Hblocks) as Hsame.
      split; [reflexivity|].
      split; [apply lookup_insert_eq|]. split; [lia|]. split.
      * apply (Hplace (length results)). rewrite firstn_all. exact Hblocks.
      * split; [intros _; split; [congruence | reflexivity] | discriminate].
    + apply write_entries_stop in Hsave
        as (blocks & part & r & -> & Hblocks & Hnext & Hnone & Hstop).
      exists blocks, part. cbn [fst snd].
      pose proof (lookup_lt_Some _ _ _ Hnext) as Hlt.
      split; [reflexivity|].
      split; [apply lookup_insert_eq|]. split; [lia|].
      split; [apply (Hplace _ _ Hblocks)|]. split; [discriminate|].
      intros e' [= <-].
      destruct (lookup_lt_is_Some_2 docs (length blocks)) as [doc Hdoc]; [lia|].
      destruct (Hnth _ _ Hdoc) as (d & rc & out & -> & _ & _ & Hres).
      rewrite Hnext in Hres. injection Hres as ->.
      exists d, (stored (response_content rc out)). rewrite Hnext. repeat split; assumption.
  - left. rewrite !(bind_Raise _ _ _ _ _ Hloop). cbn [fst snd].
    destruct (retrieve_loop_Raise (PList docs) _ (length docs) _ eq_refl _ _ _ _ Hloop)
      as (_ & Hfiles & _). split; [exact Hfiles | discriminate].
Qed.

(** ** The invocations of the loop, and the ones that raise *)

Lemma retrieve_one_Raise_run documents user_token i doc total w e w' :
  py_len documents = Ok total ->
  retrieve_one documents user_token i doc w = (Raise e, w') ->
  calls w' = calls w
  \/ (calls w' = calls w ++ [request user_token doc]
      /\ forall name,
           subprocess_run (calls w) (request user_token doc) = RunRaises name ->
           e = RunError name).
Proof.
  intros Hlen H.
  destruct doc as [| | | | |l|d];
    try (revert H; unfold retrieve_one; rewrite Hlen, bind_lift_Ok; cbn [py_getitem];
         rewrite bind_lift_Raise; intros [= <- <-]; left; reflexivity).
  destruct (d !! "title") as [title|] eqn:Htitle.
  2:{ revert H. unfold retrieve_one. rewrite Hlen, bind_lift_Ok. getitem Htitle.
      intros [= <- <-]. left. reflexivity. }
  destruct (d !! "document_token") as [token|] eqn:Htoken.
  2:{ revert H. unfold retrieve_one. rewrite Hlen, bind_lift_Ok. getitem Htitle.
      rewrite bind_print. getitem Htoken. intros [= <- <-]. left. reflexivity. }
  rewrite (retrieve_one_run _ _ _ _ _ _ _ _ Hlen Htitle Htoken) in H. cbv zeta in H.
  rewrite (request_dict _ _ _ Htoken). right.
  destruct (subprocess_run _ _) as [rc out|name].
  - destruct (py_bool (response_content rc out)); [|discriminate].
    destruct (py_len (response_content rc out)); [discriminate|].
    injection H as <- <-. split; [reflexivity | discriminate].
  - injection H as <- <-. split; [reflexivity|]. intros name' [= <-]. reflexivity.
Qed.

(** the loop invokes the transport for some argument lists, one after the
    other; when one of these invocations raises, the loop ends with that
    exception and it was the last invocation *)
Lemma retrieve_loop_invocations documents user_token total docs :
  py_len documents = Ok total ->
  forall i w r w',
    retrieve_loop documents user_token i docs w = (r, w') ->
    exists argvs,
      calls w' = calls w ++ argvs
      /\ forall j argv name,
           argvs !! j = Some argv ->
           subprocess_run (calls w ++ take j argvs) argv = RunRaises name ->
           r = Raise (RunError name) /\ S j = length argvs.
Proof.
  intros Hlen. induction docs as [|doc docs IH]; intros i w r w'; cbn [retrieve_loop].
  - intros [= <- <-]. exists []. split; [rewrite app_nil_r; reflexivity|].
    intros j argv name Hj. discriminate Hj.
  - unfold bind at 1.
    destruct (retrieve_one documents user_token i doc w) as [[res|e] w1] eqn:Hone.
    + destruct (retrieve_one_Ok _ _ _ _ _ _ _ _ Hlen Hone)
        as (d & rc & out & _ & _ & Hrun & _ & _ & _ & Hcalls).
      unfold bind.
      destruct (retrieve_loop documents user_token (S i) docs w1) as [r1 w2] eqn:Hloop.
      destruct (IH _ _ _ _ Hloop) as (argvs & Hlog & Hraise).
      intros H. exists (request user_token doc :: argvs).
      assert (Hw : w' = w2) by (destruct r1; injection H as _ <-; reflexivity). subst w'.
      split; [rewrite Hlog, Hcalls, <- app_assoc; reflexivity|].
      intros [|j] argv name Hj Hrun'.
      * injection Hj as <-. cbn [take] in Hrun'. rewrite app_nil_r in Hrun'. congruence.
      * cbn in Hj. cbn [take] in Hrun'.
        pose proof (Hraise _ _ name Hj) as Hnext.
        rewrite Hcalls, <- app_assoc in Hnext.
        destruct (Hnext Hrun') as [-> Hlast]. injection H as <-.
        split; [reflexivity | cbn; lia].
    + intros [= <- <-].
      destruct (retrieve_one_Raise_run _ _ _ _ _ _ _ _ Hlen Hone) as [Hcalls | [Hcalls Hname]].
      * exists []. split; [rewrite Hcalls, app_nil_r; reflexivity|].
        intros j argv name Hj. discriminate Hj.
      * exists [request user_token doc]. split; [exact Hcalls|].
        intros [|j] argv name Hj Hrun'; [|destruct j; discriminate Hj].
        injection Hj as <-. cbn [take] in Hrun'. rewrite app_nil_r in Hrun'.
        rewrite (Hname _ Hrun'). split; reflexivity.
Qed.

Lemma save_and_done_calls results w :
  calls (bind (save_results results) (fun _ => print_done) w).2 = calls w.
Proof.
  unfold bind. rewrite save_results_eq.
  destruct (write_entries_any results banner w) as (n & blocks & part & Hworld & _).
  destruct (for_each write_entry results (set_file OUTPUT_FILE banner w)) as [[[]|e] w2];
    cbn [snd] in Hworld; subst w2.
  - destruct (print_done_run (set_file OUTPUT_FILE (banner +:+ join blocks +:+ part) w))
      as (lines & ->). reflexivity.
  - reflexivity.
Qed.

(** ** The claims *)

(** C1. Order preservation. In live mode, a run that reaches its end leaves
    a report made of the banner followed by exactly one entry per descriptor
    of the input array, the k-th entry being the entry of the k-th
    descriptor (with the content stored for it): nothing is reordered,
    dropped or merged. *)
Theorem C1_report_follows_input_order w docs token w' :
  live w (PList docs) token ->
  main w = (Ok tt, w') ->
  exists blocks,
    files w' !! OUTPUT_FILE = Some (banner +:+ join blocks)
    /\ length blocks = length docs
    /\ forall k doc, docs !! k = Some doc ->
         exists d content block,
           doc = PDict d
           /\ entry_text (PDict (<["content" := content]> d)) = Some block
           /\ blocks !! k = Some block.
Proof.
  intros Hlive Hmain.
  rewrite (main_live _ _ _ (length docs) Hlive eq_refl) in Hmain.
  apply live_mode_Ok in Hmain
    as (results & w1 & blocks & _ & _ & Hfiles & _ & _ & Hlength & Hnth).
  exists blocks. split; [rewrite Hfiles; apply lookup_insert_eq|]. split; [exact Hlength|].
  intros k doc Hk.
  destruct (Hnth _ _ Hk) as (d & rc & out & block & -> & _ & _ & _ & Htext & Hblock).
  exists d, (stored (response_content rc out)), block. repeat split; assumption.
Qed.

(** C4, as the code has it. Without a credential the transport is never
    invoked and no file is touched, whatever the input array; when every
    descriptor of the array carries a title and a document token, the
    console shows the heading, the introduction, one line per descriptor
    in input order and the instructions, and the run ends in
    [sys.exit(0)]. *)
Theorem C4_dry_mode_lists_and_exits_0 w docs :
  dry w (PList docs) ->
  (calls (main w).2 = calls w /\ files (main w).2 = files w)
  /\ (Forall (has_fields ["title"; "document_token"]) docs ->
      exists lines,
        Forall2 (fun doc line => listing_line doc = Some line) docs lines
        /\ main w = (Raise (SystemExit 0),
                     say (heading_lines (length docs) ++ dry_intro ++ lines ++ dry_outro) w)
        /\ exit_status (main w).1 = 0%Z).
Proof.
  intros Hdry. rewrite (main_dry _ _ (length docs) Hdry eq_refl). split.
  - destruct (prints_only_dry_mode (PList docs) (say (heading_lines (length docs)) w))
      as (lines & ->). split; reflexivity.
  - intros Hdocs. destruct (listing_lines _ Hdocs) as (lines & Hlines).
    exists lines. split; [exact Hlines|].
    rewrite (dry_mode_listing _ _ _ Hlines), say_say. split; reflexivity.
Qed.

(** C5. When the input file does not exist, the run ends in [sys.exit(1)]
    after two console lines; no file is written (the output path keeps
    whatever it held), the environment is untouched and the transport is
    never invoked. *)
Theorem C5_missing_input_exits_1 w :
  files w !! INPUT_FILE = None ->
  exists w',
    main w = (Raise (SystemExit 1), w')
    /\ exit_status (main w).1 = 1%Z
    /\ files w' = files w
    /\ files w' !! OUTPUT_FILE = files w !! OUTPUT_FILE
    /\ environ w' = environ w
    /\ calls w' = calls w
    /\ console w' = console w
         ++ [ "Error: Input file not found: " +:+ INPUT_FILE;
              "Please run get_all_wiki_docs.sh first to generate the JSON file." ].
Proof.
  intros Hfile. eexists. split; [apply main_missing, Hfile|].
  rewrite (main_missing _ Hfile). repeat split.
Qed.

Lemma response_content_hello out :
  json_loads out = Some hello_reply -> response_content 0 out = PStr "hello".
Proof.
  intros H. unfold hello_reply in H.
  erewrite response_content_success; [| exact H | reflexivity | reflexivity | reflexivity].
  reflexivity.
Qed.

Lemma entry_text_content d c head body :
  entry_head d = Some head -> entry_body c = Some body ->
  entry_text (PDict (<["content" := c]> d)) = Some (head +:+ body +:+ rule_dash +:+ nl +:+ nl).
Proof.
  intros Hhead Hbody. unfold entry_text.
  rewrite entry_head_content, Hhead, lookup_insert_eq. cbn [default from_option id mbind option_bind].
  rewrite Hbody. reflexivity.
Qed.

Lemma entry_text_head d c block :
  entry_text (PDict (<["content" := c]> d)) = Some block ->
  exists head body,
    entry_head d = Some head /\ entry_body c = Some body
    /\ block = head +:+ body +:+ rule_dash +:+ nl +:+ nl.
Proof.
  unfold entry_text. rewrite entry_head_content, lookup_insert_eq.
  destruct (entry_head d) as [head|]; [|discriminate]. cbn [default from_option id mbind option_bind].
  destruct (entry_body c) as [body|]; [|discriminate]. cbn [mbind option_bind].
  intros [= <-]. eauto.
Qed.

Lemma entry_head_Some_fields d : is_Some (entry_head d) -> has_fields FIELDS (PDict d).
Proof.
  unfold entry_head. intros [head H].
  destruct (d !! "number") eqn:Hnumber; [|discriminate].
  destruct (d !! "title") eqn:Htitle; [|discriminate].
  destruct (d !! "level") eqn:Hlevel; [|discriminate].
  destruct (d !! "node_token") eqn:Hnode; [|discriminate].
  destruct (d !! "document_token") eqn:Htoken; [|discriminate].
  destruct (d !! "url") eqn:Hurl; [|discriminate].
  unfold has_fields, FIELDS. repeat (apply Forall_cons; split); try apply Forall_nil; eauto.
Qed.

(** C2, as the code has it. In live mode, when the fetch for the k-th
    descriptor exits with 0 and its JSON body has a code equal to 0 but no
    nested content field, [get_content_via_api] returns the empty text;
    the loop of [main] takes the empty text for a failed fetch
    ([if content:]), so the content stored for that descriptor is [None],
    and in the report that [main] writes the k-th entry is the metadata of
    that descriptor followed by the placeholder
    [[Content not available]]. *)
Theorem C2_missing_content_is_stored_as_None w docs token w' k d out data code :
  live w (PList docs) token ->
  docs !! k = Some (PDict d) ->
  subprocess_run (calls w ++ (request token <$> take k docs)) (request token (PDict d))
    = Completed 0 out ->
  json_loads out = Some (PDict data) ->
  data !! "code" = Some code -> py_eq_0 code = true ->
  (data !! "data" = None
   \/ exists inner, data !! "data" = Some (PDict inner) /\ inner !! "content" = None) ->
  main w = (Ok tt, w') ->
  exists document_token,
    d !! "document_token" = Some document_token
    /\ (forall w0,
          subprocess_run (calls w0) (curl_argv document_token token) = Completed 0 out ->
          get_content_via_api document_token token w0
          = (Ok (PStr EmptyString), invoke (curl_argv document_token token) w0))
    /\ (forall i w0,
          subprocess_run (calls w0) (curl_argv document_token token) = Completed 0 out ->
          exists w1,
            retrieve_one (PList docs) token i (PDict d) w0
            = (Ok (PDict (<["content" := PNone]> d)), w1))
    /\ exists results w1 blocks head,
         retrieve_loop (PList docs) token 1 docs (say (heading_lines (length docs)) w)
           = (Ok results, w1)
         /\ results !! k = Some (PDict (<["content" := PNone]> d))
         /\ files w' !! OUTPUT_FILE = Some (banner +:+ join blocks)
         /\ length blocks = length docs
         /\ entry_head d = Some head
         /\ blocks !! k = Some (head +:+ "[Content not available]" +:+ nl +:+ nl
                                +:+ rule_dash +:+ nl +:+ nl).
Proof.
  intros Hlive Hk Hrun Hjson Hcode Hzero Hmissing Hmain.
  assert (Hcontent : response_content 0 out = PStr EmptyString).
  { destruct Hmissing as [Hdata | (inner & Hdata & Hinner)].
    - eapply response_content_no_data; eassumption.
    - erewrite response_content_success by eassumption. rewrite Hinner. reflexivity. }
  rewrite (main_live _ _ _ (length docs) Hlive eq_refl) in Hmain.
  apply live_mode_Ok in Hmain
    as (results & w1 & blocks & Hloop & _ & Hfiles & _ & _ & Hlength & Hnth).
  destruct (Hnth _ _ Hk) as (d' & rc & out' & block & [= <-] & Hf & Hrun' & Hres & Htext & Hblock).
  change (calls (say _ w)) with (calls w) in Hrun'.
  rewrite Hrun in Hrun'. injection Hrun' as <- <-.
  rewrite Hcontent in Hres, Htext.
  change (stored (PStr EmptyString)) with PNone in Hres, Htext.
  apply entry_text_head in Htext as (head & body & Hhead & [= <-] & ->).
  destruct (has_fields_lookup _ _ "title" Hf) as [title Htitle]; [apply list_elem_of_here|].
  destruct (has_fields_lookup _ _ "document_token" Hf) as [document_token Htoken];
    [apply list_elem_of_further, list_elem_of_here|].
  exists document_token. split; [exact Htoken|]. split.
  { intros w0 Hrun0. rewrite get_content_via_api_run, Hrun0, Hcontent. reflexivity. }
  split.
  { intros i w0 Hrun0.
    rewrite (retrieve_one_run (PList docs) _ _ _ (length docs) _ _ _ eq_refl Htitle Htoken), Hrun0. cbv zeta.
    rewrite Hcontent. cbn [py_bool String.eqb negb]. eexists. reflexivity. }
  exists results, w1, blocks, head.
  split; [exact Hloop|]. split; [exact Hres|].
  split; [rewrite Hfiles; apply lookup_insert_eq|]. split; [exact Hlength|].
  split; [exact Hhead|].
  rewrite Hblock, !append_assoc. reflexivity.
Qed.

(** C3, as the code has it. A non-zero exit code of the transport, and any
    exception raised while the body is parsed and inspected (inside the
    [try]), make a per-descriptor failure: the content stored is [None],
    the loop goes on with the next descriptor, and a run of [main] that
    reaches its end has invoked the transport for every descriptor and
    shows the placeholder in the entry of the failed one. An exception
    raised by the transport invocation itself is outside the [try]: when
    any invocation made by a run of [main] raises, [main] ends with that
    exception (exit status 1), that invocation was the last one, so no
    later descriptor is fetched, and no file is written. *)
Theorem C3_failures_caught_and_not_caught w docs token :
  live w (PList docs) token ->
  (forall i d title document_token rest w0 rc out,
      d !! "title" = Some title -> d !! "document_token" = Some document_token ->
      subprocess_run (calls w0) (curl_argv document_token token) = Completed rc out ->
      rc <> 0%Z \/ (exists e, try_body out = Raise e) ->
      exists w1,
        retrieve_one (PList docs) token i (PDict d) w0
        = (Ok (PDict (<["content" := PNone]> d)), w1)
        /\ retrieve_loop (PList docs) token i (PDict d :: rest) w0
           = bind (retrieve_loop (PList docs) token (S i) rest)
                  (fun results => ret (PDict (<["content" := PNone]> d) :: results)) w1)
  /\ (forall k d rc out w',
      docs !! k = Some (PDict d) ->
      subprocess_run (calls w ++ (request token <$> take k docs)) (request token (PDict d))
        = Completed rc out ->
      rc <> 0%Z \/ (exists e, try_body out = Raise e) ->
      main w = (Ok tt, w') ->
      calls w' = calls w ++ (request token <$> docs)
      /\ exists results w1 blocks head,
           retrieve_loop (PList docs) token 1 docs (say (heading_lines (length docs)) w)
             = (Ok results, w1)
           /\ results !! k = Some (PDict (<["content" := PNone]> d))
           /\ files w' !! OUTPUT_FILE = Some (banner +:+ join blocks)
           /\ length blocks = length docs
           /\ entry_head d = Some head
           /\ blocks !! k = Some (head +:+ "[Content not available]" +:+ nl +:+ nl
                                  +:+ rule_dash +:+ nl +:+ nl))
  /\ exists argvs,
       calls (main w).2 = calls w ++ argvs
       /\ forall j argv name,
            argvs !! j = Some argv ->
            subprocess_run (calls w ++ take j argvs) argv = RunRaises name ->
            (main w).1 = Raise (RunError name)
            /\ exit_status (main w).1 = 1%Z
            /\ S j = length argvs
            /\ files (main w).2 = files w.
Proof.
  intros Hlive.
  assert (Hcaught : forall rc out,
    rc <> 0%Z \/ (exists e, try_body out = Raise e) -> response_content rc out = PNone).
  { intros rc out [Hrc | (e & He)].
    - apply response_content_nonzero, Hrc.
    - unfold response_content. rewrite He. destruct (rc =? 0)%Z; reflexivity. }
  split; [|split].
  - intros i d title document_token rest w0 rc out Htitle Htoken Hrun Hfail.
    eexists. split.
    + rewrite (retrieve_one_run (PList docs) _ _ _ (length docs) _ _ _ eq_refl Htitle Htoken), Hrun. cbv zeta.
      rewrite (Hcaught _ _ Hfail). reflexivity.
    + cbn [retrieve_loop]. unfold bind at 1.
      rewrite (retrieve_one_run (PList docs) _ _ _ (length docs) _ _ _ eq_refl Htitle Htoken), Hrun. cbv zeta.
      rewrite (Hcaught _ _ Hfail). reflexivity.
  - intros k d rc out w' Hk Hrun Hfail Hmain.
    rewrite (main_live _ _ _ (length docs) Hlive eq_refl) in Hmain.
    apply live_mode_Ok in Hmain
      as (results & w1 & blocks & Hloop & _ & Hfiles & _ & Hcalls & Hlength & Hnth).
    destruct (Hnth _ _ Hk)
      as (d' & rc' & out' & block & [= <-] & _ & Hrun' & Hres & Htext & Hblock).
    change (calls (say _ w)) with (calls w) in Hrun', Hcalls.
    rewrite Hrun in Hrun'. injection Hrun' as <- <-.
    rewrite (Hcaught _ _ Hfail) in Hres, Htext.
    change (stored PNone) with PNone in Hres, Htext.
    apply entry_text_head in Htext as (head & body & Hhead & [= <-] & ->).
    split; [exact Hcalls|].
    exists results, w1, blocks, head.
    split; [exact Hloop|]. split; [exact Hres|].
    split; [rewrite Hfiles; apply lookup_insert_eq|]. split; [exact Hlength|].
    split; [exact Hhead|].
    rewrite Hblock, !append_assoc. reflexivity.
  - rewrite (main_live _ _ _ (length docs) Hlive eq_refl).
    unfold live_mode. cbn [py_iter]. rewrite !bind_lift_Ok.
    destruct (retrieve_loop (PList docs) token 1 docs (say (heading_lines (length docs)) w))
      as [[results|e] w1] eqn:Hloop.
    + destruct (retrieve_loop_invocations (PList docs) _ (length docs) _ eq_refl _ _ _ _ Hloop)
        as (argvs & Hlog & Hraise).
      change (calls (say _ w)) with (calls w) in Hlog, Hraise.
      exists argvs. rewrite !(bind_Ok _ _ _ _ _ Hloop). rewrite save_and_done_calls.
      split; [exact Hlog|]. intros j argv name Hj Hrun.
      destruct (Hraise _ _ _ Hj Hrun) as [Habs _]. discriminate Habs.
    + destruct (retrieve_loop_invocations (PList docs) _ (length docs) _ eq_refl _ _ _ _ Hloop)
        as (argvs & Hlog & Hraise).
      change (calls (say _ w)) with (calls w) in Hlog, Hraise.
      exists argvs. rewrite !(bind_Raise _ _ _ _ _ Hloop). cbn [fst snd].
      split; [exact Hlog|]. intros j argv name Hj Hrun.
      destruct (Hraise _ _ _ Hj Hrun) as [[= ->] Hlast].
      destruct (retrieve_loop_Raise (PList docs) _ (length docs) _ eq_refl _ _ _ _ Hloop)
        as (_ & Hfiles & _).
      repeat split; assumption.
Qed.

(** C6. In live mode, when the fetch for the k-th descriptor exits with 0
    and its body reads as [{"code":0,"data":{"content":"hello"}}], the
    content stored for that descriptor is the text [hello], and in the
    report of a run that reaches its end the k-th entry is the metadata of
    that descriptor followed by the literal [hello]. *)
Theorem C6_hello_is_stored_and_reported w docs token w' k d out :
  live w (PList docs) token ->
  docs !! k = Some (PDict d) ->
  subprocess_run (calls w ++ (request token <$> take k docs)) (request token (PDict d))
    = Completed 0 out ->
  json_loads out = Some hello_reply ->
  main w = (Ok tt, w') ->
  exists results w1 blocks head,
    retrieve_loop (PList docs) token 1 docs (say (heading_lines (length docs)) w)
      = (Ok results, w1)
    /\ results !! k = Some (PDict (<["content" := PStr "hello"]> d))
    /\ files w' !! OUTPUT_FILE = Some (banner +:+ join blocks)
    /\ entry_head d = Some head
    /\ blocks !! k = Some (head +:+ "hello" +:+ nl +:+ nl +:+ rule_dash +:+ nl +:+ nl).
Proof.
  intros Hlive Hk Hrun Hjson Hmain.
  rewrite (main_live _ _ _ (length docs) Hlive eq_refl) in Hmain.
  apply live_mode_Ok in Hmain
    as (results & w1 & blocks & Hloop & _ & Hfiles & _ & _ & _ & Hnth).
  destruct (Hnth _ _ Hk) as (d' & rc & out' & block & [= <-] & _ & Hrun' & Hres & Htext & Hblock).
  change (calls (say _ w)) with (calls w) in Hrun'.
  rewrite Hrun in Hrun'. injection Hrun' as <- <-.
  rewrite (response_content_hello _ Hjson) in Hres, Htext.
  change (stored (PStr "hello")) with (PStr "hello") in Hres, Htext.
  apply entry_text_head in Htext as (head & body & Hhead & [= <-] & ->).
  exists results, w1, blocks, head.
  split; [exact Hloop|]. split; [exact Hres|].
  split; [rewrite Hfiles; apply lookup_insert_eq|]. split; [exact Hhead|].
  rewrite Hblock, !append_assoc. reflexivity.
Qed.

(** C7. In live mode, when the body of the fetch for the k-th descriptor is
    a JSON object whose code is 1, or is no JSON at all, the content stored
    for that descriptor is [None], and in the report of a run that reaches
    its end the k-th entry is the metadata of that descriptor followed by
    the placeholder [[Content not available]]. *)
Theorem C7_failed_fetch_shows_placeholder w docs token w' k d rc out :
  live w (PList docs) token ->
  docs !! k = Some (PDict d) ->
  subprocess_run (calls w ++ (request token <$> take k docs)) (request token (PDict d))
    = Completed rc out ->
  (json_loads out = None
   \/ exists data, json_loads out = Some (PDict data) /\ data !! "code" = Some (PInt 1)) ->
  main w = (Ok tt, w') ->
  exists results w1 blocks head,
    retrieve_loop (PList docs) token 1 docs (say (heading_lines (length docs)) w)
      = (Ok results, w1)
    /\ results !! k = Some (PDict (<["content" := PNone]> d))
    /\ files w' !! OUTPUT_FILE = Some (banner +:+ join blocks)
    /\ entry_head d = Some head
    /\ blocks !! k = Some (head +:+ "[Content not available]" +:+ nl +:+ nl
                           +:+ rule_dash +:+ nl +:+ nl).
Proof.
  intros Hlive Hk Hrun Hbody Hmain.
  assert (Hcontent : response_content rc out = PNone).
  { destruct Hbody as [Hnone | (data & Hjson & Hcode)].
    - apply response_content_invalid, Hnone.
    - eapply response_content_code; [exact Hjson | exact Hcode | reflexivity]. }
  rewrite (main_live _ _ _ (length docs) Hlive eq_refl) in Hmain.
  apply live_mode_Ok in Hmain
    as (results & w1 & blocks & Hloop & _ & Hfiles & _ & _ & _ & Hnth).
  destruct (Hnth _ _ Hk) as (d' & rc' & out' & block & [= <-] & _ & Hrun' & Hres & Htext & Hblock).
  change (calls (say _ w)) with (calls w) in Hrun'.
  rewrite Hrun in Hrun'. injection Hrun' as <- <-.
  rewrite Hcontent in Hres, Htext.
  change (stored PNone) with PNone in Hres, Htext.
  apply entry_text_head in Htext as (head & body & Hhead & [= <-] & ->).
  exists results, w1, blocks, head.
  split; [exact Hloop|]. split; [exact Hres|].
  split; [rewrite Hfiles; apply lookup_insert_eq|]. split; [exact Hhead|].
  rewrite Hblock, !append_assoc. reflexivity.
Qed.

(** C8. Two runs that start with the same input file, the same credential
    and the same transport history (whatever else differs between their
    worlds, a report left by an earlier run included) end alike; when the
    first reaches its end, so does the second, and both leave the same
    report text. *)
Theorem C8_same_inputs_same_report w1 w2 w1' :
  same_inputs w1 w2 ->
  main w1 = (Ok tt, w1') ->
  exists w2' report,
    main w2 = (Ok tt, w2')
    /\ files w1' !! OUTPUT_FILE = Some report
    /\ files w2' !! OUTPUT_FILE = Some report.
Proof.
  intros Hsame Hmain.
  destruct (alike_main w1 w2) as (Hres & _ & Hout); [split; [exact Hsame | discriminate]|].
  rewrite Hmain in Hres, Hout. cbn [fst snd] in Hres, Hout.
  destruct (main_Ok_report _ _ Hmain) as (report & Hreport).
  destruct (main w2) as [r2 w2']. cbn [fst snd] in Hres, Hout.
  exists w2', report. split; [rewrite <- Hres; reflexivity|]. split; [exact Hreport|].
  rewrite <- (Hout eq_refl). exact Hreport.
Qed.

(** C9. In live mode an empty input array gives a report that is the banner
    and nothing else; the run reaches its end without invoking the
    transport. *)
Theorem C9_empty_array_banner_only w token :
  live w (PList []) token ->
  exists w',
    main w = (Ok tt, w')
    /\ files w' !! OUTPUT_FILE = Some banner
    /\ calls w' = calls w.
Proof.
  intros Hlive. rewrite (main_live _ _ _ 0 Hlive eq_refl).
  unfold live_mode. cbn [py_iter]. rewrite bind_lift_Ok. cbn [retrieve_loop].
  rewrite bind_ret.
  unfold bind at 1. rewrite save_results_eq. cbn [for_each ret].
  destruct (print_done_run (set_file OUTPUT_FILE banner (say (heading_lines 0) w)))
    as (lines & ->).
  eexists. split; [reflexivity|]. cbn [say set_file files calls].
  split; [apply lookup_insert_eq | reflexivity].
Qed.

(** C10, as the code has it. In live mode the fetch loop and the report
    writer read title, document_token, number, level, node_token and url
    of every descriptor without a default: when some descriptor of the
    input array lacks one of them the run ends in an unhandled error.
    When every descriptor carries all six, no access fails, in either
    mode. Dry mode reads the title and the document token only: with
    these two present it ends in [sys.exit(0)]. *)
Theorem C10_fields_read_without_default w docs :
  (forall token,
      live w (PList docs) token ->
      (exists doc, doc ∈ docs /\ ~ has_fields FIELDS doc) ->
      exists e w', main w = (Raise e, w') /\ is_error e)
  /\ ((exists token, live w (PList docs) token) \/ dry w (PList docs) ->
      Forall (has_fields FIELDS) docs ->
      forall e w', main w = (Raise e, w') -> ~ access_error e)
  /\ (dry w (PList docs) ->
      Forall (has_fields ["title"; "document_token"]) docs ->
      (main w).1 = Raise (SystemExit 0)).
Proof.
  split; [|split].
  - intros token Hlive (doc & Hin & Hdoc).
    rewrite (main_live _ _ _ (length docs) Hlive eq_refl).
    destruct (live_mode (PList docs) token (say (heading_lines (length docs)) w))
      as [[[]|e] w'] eqn:Hmode.
    + exfalso. apply Hdoc.
      apply live_mode_Ok in Hmode as (results & w1 & blocks & _ & _ & _ & _ & _ & _ & Hnth).
      apply list_elem_of_lookup in Hin as (k & Hk).
      destruct (Hnth _ _ Hk) as (d & rc & out & block & -> & _ & _ & _ & Htext & _).
      apply entry_text_head in Htext as (head & body & Hhead & _).
      apply entry_head_Some_fields. eauto.
    + exists e, w'. split; [reflexivity|]. eapply live_mode_Raise, Hmode.
  - intros Hmode Hdocs e w' Hmain Hacc. destruct Hmode as [(token & Hlive) | Hdry].
    + rewrite (main_live _ _ _ (length docs) Hlive eq_refl) in Hmain.
      apply live_mode_Raise in Hmain as (_ & Hmissing).
      destruct (Hmissing Hacc) as (doc & Hin & Hdoc). apply Hdoc.
      rewrite Forall_forall in Hdocs. apply Hdocs, Hin.
    + rewrite (main_dry _ _ (length docs) Hdry eq_refl) in Hmain.
      destruct (listing_lines docs) as (lines & Hlines).
      { eapply Forall_impl; [exact Hdocs|]. intros doc.
        apply has_fields_incl, fetch_fields_in_FIELDS. }
      rewrite (dry_mode_listing _ _ _ Hlines) in Hmain. injection Hmain as <- _.
      destruct Hacc.
  - intros Hdry Hdocs. rewrite (main_dry _ _ (length docs) Hdry eq_refl).
    destruct (listing_lines _ Hdocs) as (lines & Hlines).
    rewrite (dry_mode_listing _ _ _ Hlines). reflexivity.
Qed.

(** ** Invariants of every run *)

Lemma orderly_ret {A} (a : A) : orderly (ret a).
Proof. intros w. repeat split; [exists [] | exists []]; cbn; rewrite app_nil_r; reflexivity. Qed.

Lemma orderly_lift {A} (r : result A) : orderly (lift r).
Proof. intros w. repeat split; [exists [] | exists []]; cbn; rewrite app_nil_r; reflexivity. Qed.

Lemma orderly_print s : orderly (print s).
Proof. intros w. repeat split; [exists [s] | exists []]; cbn; rewrite ?app_nil_r; reflexivity. Qed.

Lemma orderly_bind {A B} (m : M A) (f : A -> M B) :
  orderly m -> (forall a, orderly (f a)) -> orderly (bind m f).
Proof.
  intros Hm Hf w. unfold bind. destruct (Hm w) as (Henv & Hfiles & (l1 & Hcon) & (c1 & Hcalls)).
  destruct (m w) as [[a|e] w1]; cbn [fst snd] in *.
  - destruct (Hf a w1) as (Henv' & Hfiles' & (l2 & Hcon') & (c2 & Hcalls')).
    split; [congruence|]. split; [intros p Hp; rewrite Hfiles', Hfiles by exact Hp; reflexivity|].
    split; [exists (l1 ++ l2); rewrite Hcon', Hcon, app_assoc; reflexivity|].
    exists (c1 ++ c2). rewrite Hcalls', Hcalls, app_assoc. reflexivity.
  - repeat split; eauto.
Qed.

Lemma orderly_for_each {A} (body : A -> M unit) l :
  (forall x, orderly (body x)) -> orderly (for_each body l).
Proof.
  intros Hbody. induction l as [|x l IH]; cbn [for_each].
  - apply orderly_ret.
  - apply orderly_bind; [apply Hbody | intros _; exact IH].
Qed.

Lemma orderly_set_file text (m : M unit) :
  (forall w, m w = (Ok tt, set_file OUTPUT_FILE (text w) w)) -> orderly m.
Proof.
  intros Hm w. rewrite Hm. cbn. repeat split.
  - intros p Hp. apply lookup_insert_ne. congruence.
  - exists []. rewrite app_nil_r. reflexivity.
  - exists []. rewrite app_nil_r. reflexivity.
Qed.

Lemma orderly_open_w : orderly (open_w OUTPUT_FILE).
Proof. apply (orderly_set_file (fun _ => EmptyString)). reflexivity. Qed.

Lemma orderly_file_write s : orderly (file_write OUTPUT_FILE s).
Proof.
  apply (orderly_set_file (fun w => default EmptyString (files w !! OUTPUT_FILE) +:+ s)).
  reflexivity.
Qed.

Lemma orderly_os_path_exists path : orderly (os_path_exists path).
Proof. intros w. repeat split; [exists [] | exists []]; cbn; rewrite app_nil_r; reflexivity. Qed.

Lemma orderly_os_environ_get name : orderly (os_environ_get name).
Proof. intros w. repeat split; [exists [] | exists []]; cbn; rewrite app_nil_r; reflexivity. Qed.

Lemma orderly_json_load_file path : orderly (json_load_file path).
Proof.
  intros w. unfold json_load_file.
  destruct (files w !! path) as [text|]; [destruct (json_loads text)|];
    repeat split; try (exists []; cbn; rewrite app_nil_r; reflexivity).
Qed.

Lemma orderly_run_process argv : orderly (run_process argv).
Proof.
  intros w. unfold run_process.
  destruct (subprocess_run (calls w) argv);
    (repeat split; [exists []; cbn; rewrite app_nil_r; reflexivity | exists [argv]; reflexivity]).
Qed.

Create HintDb orderly.
#[local] Hint Resolve orderly_ret orderly_lift orderly_print orderly_open_w orderly_file_write
  orderly_os_path_exists orderly_os_environ_get orderly_json_load_file orderly_run_process
  : orderly.

Ltac orderly_steps :=
  repeat (apply orderly_bind; [solve [auto with orderly] | intros ?]); auto with orderly.

Lemma orderly_retrieve_one documents user_token i doc :
  orderly (retrieve_one documents user_token i doc).
Proof.
  unfold retrieve_one, get_content_via_api.
  do 6 (apply orderly_bind; [solve [auto with orderly] | intros ?]).
  apply orderly_bind; [orderly_steps | intros content].
  destruct (py_bool content); orderly_steps.
Qed.

Lemma orderly_retrieve_loop documents user_token docs :
  forall i, orderly (retrieve_loop documents user_token i docs).
Proof.
  induction docs as [|doc docs IH]; intros i; cbn [retrieve_loop].
  - apply orderly_ret.
  - apply orderly_bind; [apply orderly_retrieve_one | intros doc'].
    apply orderly_bind; [apply IH | intros results]. apply orderly_ret.
Qed.

Lemma orderly_write_entry doc : orderly (write_entry doc).
Proof.
  unfold write_entry.
  do 13 (apply orderly_bind; [solve [auto with orderly] | intros ?]).
  apply orderly_bind; [|intros _; auto with orderly].
  destruct (py_bool _); [|auto with orderly].
  apply orderly_bind; [auto with orderly | intros content].
  destruct content; orderly_steps.
Qed.

Lemma orderly_live_mode documents user_token : orderly (live_mode documents user_token).
Proof.
  unfold live_mode, save_results, mkdir_parent, write_banner, print_done.
  apply orderly_bind; [auto with orderly | intros docs].
  apply orderly_bind; [apply orderly_retrieve_loop | intros results].
  apply orderly_bind; [|intros _; orderly_steps].
  apply orderly_bind; [auto with orderly | intros _].
  apply orderly_bind; [auto with orderly | intros _].
  apply orderly_bind; [orderly_steps | intros _].
  apply orderly_for_each, orderly_write_entry.
Qed.

Lemma orderly_dry_mode documents : orderly (dry_mode documents).
Proof.
  unfold dry_mode, list_document, sys_exit.
  do 8 (apply orderly_bind; [solve [auto with orderly] | intros ?]).
  apply orderly_bind; [apply orderly_for_each; intros doc; orderly_steps | intros _].
  orderly_steps.
Qed.

Lemma orderly_main : orderly main.
Proof.
  unfold main, input_missing, print_heading, sys_exit.
  apply orderly_bind; [auto with orderly | intros found].
  destruct found; cbn [negb]; [|orderly_steps].
  apply orderly_bind; [auto with orderly | intros documents].
  apply orderly_bind; [orderly_steps | intros _].
  apply orderly_bind; [auto with orderly | intros [token|]].
  - destruct (String.eqb token EmptyString); [apply orderly_dry_mode | apply orderly_live_mode].
  - apply orderly_dry_mode.
Qed.

(** X1. Whatever the world it starts in, a run of [main] changes no
    environment variable and no file other than the report (the input file
    in particular), and it only appends to the console and to the sequence
    of transport invocations. *)
Theorem X1_main_touches_only_the_report w :
  environ (main w).2 = environ w
  /\ (forall path, path <> OUTPUT_FILE -> files (main w).2 !! path = files w !! path)
  /\ files (main w).2 !! INPUT_FILE = files w !! INPUT_FILE
  /\ (exists lines, console (main w).2 = console w ++ lines)
  /\ (exists argvs, calls (main w).2 = calls w ++ argvs).
Proof.
  destruct (orderly_main w) as (Henv & Hfiles & Hconsole & Hcalls).
  split; [exact Henv|]. split; [exact Hfiles|].
  split; [apply Hfiles; discriminate|]. split; assumption.
Qed.

(** ** What a run can raise *)

Lemma raises_only_ret {A} E (a : A) : raises_only E (ret a).
Proof. intros w e H. discriminate H. Qed.

Lemma raises_only_print E s : raises_only E (print s).
Proof. intros w e H. discriminate H. Qed.

Lemma raises_only_file_write E path s : raises_only E (file_write path s).
Proof. intros w e H. discriminate H. Qed.

Lemma raises_only_open_w E path : raises_only E (open_w path).
Proof. intros w e H. discriminate H. Qed.

Lemma raises_only_os_path_exists E path : raises_only E (os_path_exists path).
Proof. intros w e H. discriminate H. Qed.

Lemma raises_only_os_environ_get E name : raises_only E (os_environ_get name).
Proof. intros w e H. discriminate H. Qed.

Lemma raises_only_lift {A} (E : exn -> Prop) (r : result A) :
  (forall e, r = Raise e -> E e) -> raises_only E (lift r).
Proof. intros Hr w e H. apply Hr. exact H. Qed.

Lemma raises_only_bind {A B} E (m : M A) (f : A -> M B) :
  raises_only E m -> (forall a, raises_only E (f a)) -> raises_only E (bind m f).
Proof.
  intros Hm Hf w e. unfold bind. specialize (Hm w).
  destruct (m w) as [[a|e1] w1]; cbn [fst] in *.
  - apply Hf.
  - intros [= <-]. apply Hm. reflexivity.
Qed.

Lemma raises_only_for_each {A} E (body : A -> M unit) l :
  (forall x, raises_only E (body x)) -> raises_only E (for_each body l).
Proof.
  intros Hbody. induction l as [|x l IH]; cbn [for_each].
  - apply raises_only_ret.
  - apply raises_only_bind; [apply Hbody | intros _; exact IH].
Qed.

Lemma raises_only_json_load_file (E : exn -> Prop) path :
  E FileNotFoundError -> E JSONDecodeError -> raises_only E (json_load_file path).
Proof.
  intros H1 H2 w e. unfold json_load_file.
  destruct (files w !! path) as [text|]; [destruct (json_loads text)|]; cbn;
    intros [= <-]; assumption.
Qed.

Lemma raises_only_run_process (E : exn -> Prop) argv :
  (forall name, E (RunError name)) -> raises_only E (run_process argv).
Proof.
  intros HE w e. unfold run_process. destruct (subprocess_run (calls w) argv); cbn;
    intros [= <-]. apply HE.
Qed.

Lemma py_getitem_error v k e : py_getitem v k = Raise e -> value_error e.
Proof. destruct v; cbn; try (intros [= <-]; exact I). destruct (d !! k); intros [= <-]. exact I. Qed.

Lemma py_setitem_error v k x e : py_setitem v k x = Raise e -> value_error e.
Proof. destruct v; cbn; intros [= <-]; exact I. Qed.

Lemma py_get_error v k x e : py_get v k x = Raise e -> value_error e.
Proof. destruct v; cbn; intros [= <-]; exact I. Qed.

Lemma py_len_error v e : py_len v = Raise e -> value_error e.
Proof. destruct v; cbn; intros [= <-]; exact I. Qed.

Lemma py_iter_error v e : py_iter v = Raise e -> value_error e.
Proof. destruct v; cbn; intros [= <-]; exact I. Qed.

Lemma raises_only_value {A} (E : exn -> Prop) (r : result A) :
  (forall e, value_error e -> E e) -> (forall e, r = Raise e -> value_error e) ->
  raises_only E (lift r).
Proof. intros HE Hr. apply raises_only_lift. intros e He. apply HE, Hr, He. Qed.

Ltac value_raises HE :=
  first [ apply raises_only_ret | apply raises_only_print | apply raises_only_file_write
        | apply raises_only_open_w | apply raises_only_os_path_exists
        | apply raises_only_os_environ_get
        | apply (raises_only_value _ _ HE);
          first [ apply py_getitem_error | apply py_setitem_error | apply py_get_error
                | apply py_len_error | apply py_iter_error ] ].

Ltac raises_steps HE :=
  repeat (apply raises_only_bind; [solve [value_raises HE] | intros ?]); try value_raises HE.

Lemma raises_only_write_entry (E : exn -> Prop) doc :
  (forall e, value_error e -> E e) -> raises_only E (write_entry doc).
Proof.
  intros HE. unfold write_entry.
  do 13 (apply raises_only_bind; [solve [value_raises HE] | intros ?]).
  apply raises_only_bind; [|intros _; value_raises HE].
  destruct (py_bool _); [|value_raises HE].
  apply raises_only_bind; [value_raises HE | intros content].
  destruct content;
    first [ solve [raises_steps HE]
          | apply raises_only_lift; intros e [= <-]; apply HE; exact I ].
Qed.

Lemma raises_only_retrieve_one (E : exn -> Prop) documents user_token i doc :
  (forall e, value_error e -> E e) -> (forall name, E (RunError name)) ->
  raises_only E (retrieve_one documents user_token i doc).
Proof.
  intros HE Hrun. unfold retrieve_one, get_content_via_api.
  do 6 (apply raises_only_bind; [solve [value_raises HE] | intros ?]).
  apply raises_only_bind.
  { apply raises_only_bind; [apply raises_only_run_process, Hrun | intros ?; value_raises HE]. }
  intros content. destruct (py_bool content); raises_steps HE.
Qed.

Lemma raises_only_retrieve_loop (E : exn -> Prop) documents user_token docs :
  (forall e, value_error e -> E e) -> (forall name, E (RunError name)) ->
  forall i, raises_only E (retrieve_loop documents user_token i docs).
Proof.
  intros HE Hrun. induction docs as [|doc docs IH]; intros i; cbn [retrieve_loop].
  - apply raises_only_ret.
  - apply raises_only_bind; [apply raises_only_retrieve_one; assumption | intros doc'].
    apply raises_only_bind; [apply IH | intros results]. apply raises_only_ret.
Qed.

Lemma raises_only_live_mode (E : exn -> Prop) documents user_token :
  (forall e, value_error e -> E e) -> (forall name, E (RunError name)) ->
  raises_only E (live_mode documents user_token).
Proof.
  intros HE Hrun. unfold live_mode, save_results, mkdir_parent, write_banner, print_done.
  apply raises_only_bind; [value_raises HE | intros docs].
  apply raises_only_bind; [apply raises_only_retrieve_loop; assumption | intros results].
  apply raises_only_bind; [|intros _; raises_steps HE].
  apply raises_only_bind; [value_raises HE | intros _].
  apply raises_only_bind; [value_raises HE | intros _].
  apply raises_only_bind; [raises_steps HE | intros _].
  apply raises_only_for_each. intros doc. apply raises_only_write_entry, HE.
Qed.

Lemma raises_only_dry_mode (E : exn -> Prop) documents :
  (forall e, value_error e -> E e) -> E (SystemExit 0) ->
  raises_only E (dry_mode documents).
Proof.
  intros HE Hexit. unfold dry_mode, list_document, sys_exit.
  do 8 (apply raises_only_bind; [solve [value_raises HE] | intros ?]).
  apply raises_only_bind.
  { apply raises_only_for_each. intros doc. raises_steps HE. }
  intros _. do 6 (apply raises_only_bind; [solve [value_raises HE] | intros ?]).
  apply raises_only_lift. intros e [= <-]. exact Hexit.
Qed.

Lemma raises_only_main (E : exn -> Prop) :
  (forall e, value_error e -> E e) -> (forall name, E (RunError name)) ->
  E FileNotFoundError -> E JSONDecodeError -> E (SystemExit 0) -> E (SystemExit 1) ->
  raises_only E main.
Proof.
  intros HE Hrun Hfile Hjson H0 H1. unfold main, input_missing, print_heading, sys_exit.
  apply raises_only_bind; [value_raises HE | intros found].
  destruct found; cbn [negb].
  2:{ do 2 (apply raises_only_bind; [solve [value_raises HE] | intros ?]).
      apply raises_only_lift. intros e [= <-]. exact H1. }
  apply raises_only_bind; [apply raises_only_json_load_file; assumption | intros documents].
  apply raises_only_bind; [raises_steps HE | intros _].
  apply raises_only_bind; [value_raises HE | intros [token|]].
  - destruct (String.eqb token EmptyString);
      [apply raises_only_dry_mode | apply raises_only_live_mode]; assumption.
  - apply raises_only_dry_mode; assumption.
Qed.

(** X2. The process ends with status 0 or 1 and no other: the only calls
    of [sys.exit] pass 0 or 1, and an exception that reaches the top level
    gives 1. *)
Theorem X2_exit_status_is_0_or_1 w :
  exit_status (main w).1 = 0%Z \/ exit_status (main w).1 = 1%Z.
Proof.
  pose proof (raises_only_main ends_with_0_or_1) as H.
  destruct (main w).1 as [[]|e] eqn:Hr; [left; reflexivity|].
  assert (He : ends_with_0_or_1 e).
  { apply (H ltac:(intros [] ?; try exact I; contradiction) ltac:(intros; exact I)
             I I ltac:(left; reflexivity) ltac:(right; reflexivity) w e Hr). }
  destruct e; try (right; reflexivity). exact He.
Qed.

(** ** Inputs that are no array of descriptors *)

(** X3. Without a credential (the variable is unset or empty) a run never
    invokes the transport, never creates or changes a file and never
    returns normally, whatever the input file holds or lacks. *)
Theorem X3_no_credential_no_fetch_no_write w :
  environ w !! TOKEN_VAR = None \/ environ w !! TOKEN_VAR = Some EmptyString ->
  calls (main w).2 = calls w
  /\ files (main w).2 = files w
  /\ (main w).1 <> Ok tt.
Proof.
  intros Henv.
  destruct (files w !! INPUT_FILE) as [text|] eqn:Hfile.
  2:{ rewrite (main_missing _ Hfile). repeat split. discriminate. }
  destruct (json_loads text) as [documents|] eqn:Hjson.
  2:{ rewrite (main_malformed _ _ Hfile Hjson). repeat split. discriminate. }
  rewrite (main_loaded _ _ _ Hfile Hjson).
  destruct (py_len documents) as [n|e] eqn:Hlen.
  2:{ erewrite bind_Raise by (apply print_heading_Raise, Hlen). repeat split. discriminate. }
  erewrite bind_Ok by (apply print_heading_run, Hlen).
  assert (Hdry : (match environ w !! TOKEN_VAR with
                  | Some token =>
                      if String.eqb token EmptyString then dry_mode documents
                      else live_mode documents token
                  | None => dry_mode documents
                  end) = dry_mode documents)
    by (destruct Henv as [-> | ->]; reflexivity).
  rewrite Hdry.
  destruct (prints_only_dry_mode documents (say (heading_lines n) w)) as (lines & ->).
  repeat split. apply dry_mode_never_Ok.
Qed.

(** X4. An input file that is no JSON text ends the run in the decoding
    error, with exit status 1, before anything is printed, fetched or
    written. *)
Theorem X4_malformed_input_raises w text :
  files w !! INPUT_FILE = Some text ->
  json_loads text = None ->
  main w = (Raise JSONDecodeError, w) /\ exit_status (main w).1 = 1%Z.
Proof.
  intros Hfile Hjson. rewrite (main_malformed _ _ Hfile Hjson). split; reflexivity.
Qed.

(** X5. When the input file holds [null], a boolean or a number, the run
    ends in the [TypeError] of [len(documents)], after the first three
    lines of the heading and before the credential is looked at. *)
Theorem X5_unsized_input_raises w text documents :
  files w !! INPUT_FILE = Some text ->
  json_loads text = Some documents ->
  match documents with
  | PNone | PBool _ | PInt _ | PFloat _ => True
  | _ => False
  end ->
  main w = (Raise (TypeError NoLen),
            say [rule_eq; "Lark Wiki Document Content Retrieval"; rule_eq] w).
Proof.
  intros Hfile Hjson Hkind. rewrite (main_loaded _ _ _ Hfile Hjson).
  apply bind_Raise, print_heading_Raise.
  destruct documents; try contradiction; reflexivity.
Qed.

Lemma py_iter_len documents docs :
  py_iter documents = Ok docs -> exists n, py_len documents = Ok n.
Proof. destruct documents; try discriminate; intros _; cbn; eauto. Qed.

Lemma py_getitem_not_dict doc k :
  (forall d, doc <> PDict d) -> py_getitem doc k = Raise (TypeError NotSubscriptable).
Proof. intros H. destruct doc; try reflexivity. destruct (H d eq_refl). Qed.

(** X6. When the first item the loops visit is no JSON object (the input is
    an array that starts with a number, a text or an array, or is itself a
    non-empty object or text), the run ends in the [TypeError] of
    [doc['title']], in dry mode as in live mode, before any transport
    invocation and before any file is written. *)
Theorem X6_first_item_not_an_object w text documents doc rest :
  files w !! INPUT_FILE = Some text ->
  json_loads text = Some documents ->
  py_iter documents = Ok (doc :: rest) ->
  (forall d, doc <> PDict d) ->
  (main w).1 = Raise (TypeError NotSubscriptable)
  /\ exit_status (main w).1 = 1%Z
  /\ calls (main w).2 = calls w
  /\ files (main w).2 = files w.
Proof.
  intros Hfile Hjson Hiter Hdoc.
  destruct (py_iter_len _ _ Hiter) as (n & Hlen).
  rewrite (main_loaded _ _ _ Hfile Hjson).
  erewrite bind_Ok by (apply print_heading_run, Hlen).
  assert (Hdry : dry_mode documents (say (heading_lines n) w)
                 = (Raise (TypeError NotSubscriptable),
                    say dry_intro (say (heading_lines n) w))).
  { unfold dry_mode. rewrite !bind_print, Hiter, bind_lift_Ok. cbn [for_each].
    unfold list_document at 1. rewrite (py_getitem_not_dict _ _ Hdoc).
    rewrite !bind_bind, bind_lift_Raise, !say_say. reflexivity. }
  assert (Hlive : forall token, live_mode documents token (say (heading_lines n) w)
                 = (Raise (TypeError NotSubscriptable), say (heading_lines n) w)).
  { intros token. unfold live_mode. rewrite Hiter, bind_lift_Ok. cbn [retrieve_loop].
    unfold retrieve_one. rewrite Hlen, (py_getitem_not_dict _ _ Hdoc).
    rewrite !bind_bind, bind_lift_Ok. cbv beta. rewrite !bind_bind, bind_lift_Raise.
    reflexivity. }
  destruct (environ w !! TOKEN_VAR) as [token|].
  - destruct (String.eqb token EmptyString); [rewrite Hdry | rewrite Hlive]; repeat split.
  - rewrite Hdry. repeat split.
Qed.

(** ** The contract of [get_content_via_api] *)

(** X7. [get_content_via_api] makes exactly one transport invocation and
    changes nothing else; when that invocation completes it returns a
    value, whatever the exit code and the body (no JSON, a JSON value that
    is no object, fields of the wrong kind); it raises only what the
    invocation raises. *)
Theorem X7_fetch_raises_only_what_the_transport_raises document_token user_token w :
  (get_content_via_api document_token user_token w).2
  = invoke (curl_argv document_token user_token) w
  /\ (forall rc out,
        subprocess_run (calls w) (curl_argv document_token user_token) = Completed rc out ->
        exists content, (get_content_via_api document_token user_token w).1 = Ok content)
  /\ (forall e,
        (get_content_via_api document_token user_token w).1 = Raise e ->
        exists name,
          e = RunError name
          /\ subprocess_run (calls w) (curl_argv document_token user_token) = RunRaises name).
Proof.
  rewrite get_content_via_api_run.
  destruct (subprocess_run (calls w) (curl_argv document_token user_token)) as [rc out|name].
  - split; [reflexivity|]. split; [intros ? ? _; eauto | discriminate].
  - split; [reflexivity|]. split; [discriminate|]. intros e [= <-]. eauto.
Qed.

Lemma response_content_not_None rc out c :
  response_content rc out = c -> c <> PNone ->
  rc = 0%Z
  /\ exists data,
       json_loads out = Some (PDict data)
       /\ py_eq_0 (default PNone (data !! "code")) = true
       /\ ((data !! "data" = None /\ c = PStr EmptyString)
           \/ exists inner,
                data !! "data" = Some (PDict inner)
                /\ c = default (PStr EmptyString) (inner !! "content")).
Proof.
  unfold response_content, try_body. intros Hc Hne.
  destruct (Z.eqb_spec rc 0) as [->|]; [|congruence]. split; [reflexivity|].
  destruct (json_loads out) as [body|]; [|congruence].
  destruct body as [| | | | | |data]; try (cbn in Hc; congruence).
  exists data. split; [reflexivity|]. cbn [py_get] in Hc.
  destruct (py_eq_0 (default PNone (data !! "code"))); [|congruence]. split; [reflexivity|].
  destruct (data !! "data") as [x|] eqn:Hdata; cbn [default from_option id] in Hc.
  - destruct x as [| | | | | |inner]; try (cbn in Hc; congruence).
    right. exists inner. split; [reflexivity|]. cbn in Hc. congruence.
  - left. split; [reflexivity|]. cbn in Hc. rewrite lookup_empty in Hc. cbn in Hc. congruence.
Qed.

(** X8. [get_content_via_api] returns something else than [None] only for
    a response with exit code 0 whose body is a JSON object with a code
    equal to 0 and whose data field is absent or an object; what it returns
    then is the content field of the data, the empty text when the data or
    the content is missing. Every other response gives [None]. *)
Theorem X8_content_only_from_a_successful_response document_token user_token w content :
  (get_content_via_api document_token user_token w).1 = Ok content /\ content <> PNone
  <->
  content <> PNone
  /\ exists out data,
       subprocess_run (calls w) (curl_argv document_token user_token) = Completed 0 out
       /\ json_loads out = Some (PDict data)
       /\ py_eq_0 (default PNone (data !! "code")) = true
       /\ ((data !! "data" = None /\ content = PStr EmptyString)
           \/ exists inner,
                data !! "data" = Some (PDict inner)
                /\ content = default (PStr EmptyString) (inner !! "content")).
Proof.
  rewrite get_content_via_api_run. split.
  - intros [Hget Hne]. split; [exact Hne|].
    destruct (subprocess_run (calls w) (curl_argv document_token user_token)) as [rc out|name];
      [|discriminate].
    injection Hget as Hc.
    destruct (response_content_not_None _ _ _ Hc Hne) as (-> & data & Hjson & Hcode & Hdata).
    exists out, data. repeat split; assumption.
  - intros (Hne & out & data & -> & Hjson & Hcode & Hdata). split; [|exact Hne].
    cbn [fst]. f_equal. unfold response_content, try_body. rewrite Hjson. cbn [py_get Z.eqb].
    rewrite Hcode.
    destruct Hdata as [[-> ->] | (inner & -> & ->)]; reflexivity.
Qed.

(** ** The transport invocations of a live run *)

Lemma retrieve_one_Raise_calls documents user_token i doc total w e w' :
  py_len documents = Ok total ->
  retrieve_one documents user_token i doc w = (Raise e, w') ->
  calls w' = calls w \/ calls w' = calls w ++ [request user_token doc].
Proof.
  intros Hlen H.
  destruct doc as [| | | | |l|d];
    try (revert H; unfold retrieve_one; rewrite Hlen, bind_lift_Ok; cbn [py_getitem];
         rewrite bind_lift_Raise; intros [= <- <-]; left; reflexivity).
  destruct (d !! "title") as [title|] eqn:Htitle.
  2:{ revert H. unfold retrieve_one. rewrite Hlen, bind_lift_Ok. getitem Htitle.
      intros [= <- <-]. left. reflexivity. }
  destruct (d !! "document_token") as [token|] eqn:Htoken.
  2:{ revert H. unfold retrieve_one. rewrite Hlen, bind_lift_Ok. getitem Htitle.
      rewrite bind_print. getitem Htoken. intros [= <- <-]. left. reflexivity. }
  rewrite (retrieve_one_run _ _ _ _ _ _ _ _ Hlen Htitle Htoken) in H. cbv zeta in H.
  rewrite (request_dict _ _ _ Htoken). right.
  destruct (subprocess_run _ _) as [rc out|name].
  - destruct (py_bool (response_content rc out)); [|discriminate].
    destruct (py_len (response_content rc out)); [discriminate|].
    injection H as <- <-. reflexivity.
  - injection H as <- <-. reflexivity.
Qed.

Lemma retrieve_loop_Raise_calls documents user_token total docs :
  py_len documents = Ok total ->
  forall i w e w',
    retrieve_loop documents user_token i docs w = (Raise e, w') ->
    exists n, n <= length docs /\ calls w' = calls w ++ (request user_token <$> take n docs).
Proof.
  intros Hlen. induction docs as [|doc docs IH]; intros i w e w'; cbn [retrieve_loop].
  - discriminate.
  - unfold bind at 1.
    destruct (retrieve_one documents user_token i doc w) as [[res|e1] w1] eqn:Hone.
    + unfold bind at 1.
      destruct (retrieve_loop documents user_token (S i) docs w1) as [[rest|e2] w2] eqn:Hloop;
        [discriminate|].
      intros [= <- <-].
      destruct (retrieve_one_Ok _ _ _ _ _ _ _ _ Hlen Hone)
        as (_ & _ & _ & _ & _ & _ & _ & _ & _ & Hcalls).
      destruct (IH _ _ _ _ Hloop) as (n & Hn & Hcalls').
      exists (S n). split; [cbn; lia|].
      rewrite Hcalls', Hcalls. cbn [take fmap list_fmap]. rewrite <- app_assoc. reflexivity.
    + intros [= <- <-].
      destruct (retrieve_one_Raise_calls _ _ _ _ _ _ _ _ Hlen Hone) as [Hcalls | Hcalls].
      * exists 0. split; [lia|]. rewrite Hcalls. cbn. rewrite app_nil_r. reflexivity.
      * exists 1. split; [cbn; lia|]. rewrite Hcalls. reflexivity.
Qed.

(** X9. In live mode the transport is invoked once per descriptor, in the
    order of the input array, each time with the [curl] arguments for the
    document token of that descriptor and the credential as bearer token,
    and for nothing else; a run that raises has done so for the first
    descriptors of the array only. *)
Theorem X9_one_invocation_per_descriptor_in_order w docs token :
  live w (PList docs) token ->
  exists n,
    n <= length docs
    /\ calls (main w).2 = calls w ++ (request token <$> take n docs)
    /\ ((main w).1 = Ok tt -> n = length docs)
    /\ (forall k d document_token,
          docs !! k = Some (PDict d) -> d !! "document_token" = Some document_token ->
          request token (PDict d)
          = [ "curl"; "-s"; "-X"; "GET";
              "https://open.feishu.cn/open-apis/docx/v1/documents/"
                +:+ py_str document_token +:+ "/raw_content";
              "-H"; "Authorization: Bearer " +:+ token ]).
Proof.
  intros Hlive. rewrite (main_live _ _ _ (length docs) Hlive eq_refl).
  unfold live_mode. cbn [py_iter]. rewrite !bind_lift_Ok.
  destruct (retrieve_loop (PList docs) token 1 docs (say (heading_lines (length docs)) w))
    as [[results|e] w1] eqn:Hloop.
  - exists (length docs). rewrite !(bind_Ok _ _ _ _ _ Hloop), save_and_done_calls.
    destruct (retrieve_loop_Ok (PList docs) _ (length docs) _ eq_refl _ _ _ _ Hloop)
      as (_ & _ & Hcalls & _).
    split; [lia|]. split; [rewrite Hcalls, firstn_all; reflexivity|]. split; [reflexivity|].
    intros k d document_token _ Htoken. rewrite (request_dict _ _ _ Htoken). reflexivity.
  - rewrite !(bind_Raise _ _ _ _ _ Hloop). cbn [fst snd].
    destruct (retrieve_loop_Raise_calls (PList docs) _ (length docs) _ eq_refl _ _ _ _ Hloop)
      as (n & Hn & Hcalls).
    exists n. split; [exact Hn|]. split; [exact Hcalls|]. split; [discriminate|].
    intros k d document_token _ Htoken. rewrite (request_dict _ _ _ Htoken). reflexivity.
Qed.

(** ** What the retrieval loop stores *)

Lemma stored_None_or_true c : stored c = PNone \/ py_bool (stored c) = true.
Proof. unfold stored. destruct (py_bool c) eqn:Hb; [right; exact Hb | left; reflexivity]. Qed.

(** X10. The retrieval loop returns the descriptors of its input, as many
    and in the same order, each changed in its content field only; the
    content it stores is [None] or a value that counts as true, never an
    empty text, and a content field the input already had is replaced. *)
Theorem X10_loop_changes_only_the_content documents user_token total docs i w results w' :
  py_len documents = Ok total ->
  retrieve_loop documents user_token i docs w = (Ok results, w') ->
  length results = length docs
  /\ forall k r, results !! k = Some r ->
       exists d content,
         docs !! k = Some (PDict d)
         /\ r = PDict (<["content" := content]> d)
         /\ (content = PNone \/ py_bool content = true)
         /\ (forall d', r = PDict d' ->
               d' !! "content" = Some content
               /\ forall key, key <> "content" -> d' !! key = d !! key).
Proof.
  intros Hlen Hloop.
  destruct (retrieve_loop_Ok _ _ _ _ Hlen _ _ _ _ Hloop) as (_ & _ & _ & Hlength & Hnth).
  split; [exact Hlength|]. intros k r Hr.
  destruct (lookup_lt_is_Some_2 docs k) as [doc Hdoc].
  { rewrite <- Hlength. eapply lookup_lt_Some, Hr. }
  destruct (Hnth _ _ Hdoc) as (d & rc & out & -> & _ & _ & Hres).
  rewrite Hr in Hres. injection Hres as ->.
  exists d, (stored (response_content rc out)).
  split; [exact Hdoc|]. split; [reflexivity|]. split; [apply stored_None_or_true|].
  intros d' [= <-]. split; [apply lookup_insert_eq|].
  intros key Hkey. apply lookup_insert_ne. congruence.
Qed.

(** ** Contents of every kind *)

(** X11. In live mode, when the fetch for the k-th descriptor exits with 0
    and its body is a JSON object with a code equal to 0 whose data hold a
    non-empty text as content, the report of a run that reaches its end
    has, as its k-th entry, the metadata of that descriptor followed by
    that text, unchanged. *)
Theorem X11_content_is_reported_verbatim w docs token w' k d out data inner text :
  live w (PList docs) token ->
  docs !! k = Some (PDict d) ->
  subprocess_run (calls w ++ (request token <$> take k docs)) (request token (PDict d))
    = Completed 0 out ->
  json_loads out = Some (PDict data) ->
  py_eq_0 (default PNone (data !! "code")) = true ->
  data !! "data" = Some (PDict inner) ->
  inner !! "content" = Some (PStr text) ->
  text <> EmptyString ->
  main w = (Ok tt, w') ->
  exists blocks head,
    files w' !! OUTPUT_FILE = Some (banner +:+ join blocks)
    /\ entry_head d = Some head
    /\ blocks !! k = Some (head +:+ text +:+ nl +:+ nl +:+ rule_dash +:+ nl +:+ nl).
Proof.
  intros Hlive Hk Hrun Hjson Hcode Hdata Hcontent Htext Hmain.
  assert (Hresp : response_content 0 out = PStr text).
  { unfold response_content, try_body. rewrite Hjson. cbn [py_get Z.eqb].
    rewrite Hcode, Hdata. cbn [default from_option id py_get]. rewrite Hcontent. reflexivity. }
  assert (Hbool : py_bool (PStr text) = true).
  { cbn. destruct (String.eqb_spec text EmptyString); [contradiction | reflexivity]. }
  rewrite (main_live _ _ _ (length docs) Hlive eq_refl) in Hmain.
  apply live_mode_Ok in Hmain
    as (results & w1 & blocks & _ & _ & Hfiles & _ & _ & _ & Hnth).
  destruct (Hnth _ _ Hk) as (d' & rc & out' & block & [= <-] & _ & Hrun' & _ & Hentry & Hblock).
  change (calls (say _ w)) with (calls w) in Hrun'.
  rewrite Hrun in Hrun'. injection Hrun' as <- <-.
  rewrite Hresp in Hentry. unfold stored in Hentry. rewrite Hbool in Hentry.
  apply entry_text_head in Hentry as (head & body & Hhead & Hbody & ->).
  unfold entry_body in Hbody. rewrite Hbool in Hbody. injection Hbody as <-.
  exists blocks, head. split; [rewrite Hfiles; apply lookup_insert_eq|].
  split; [exact Hhead|]. rewrite Hblock, !append_assoc. reflexivity.
Qed.

(** X12. A fetched content that counts as true but has no length (a
    non-zero number, [true]) makes the turn raise the [TypeError] of
    [len(content)] right after the fetch: the loop ends there, and no later
    descriptor is fetched. *)
Theorem X12_content_without_length_ends_the_loop
    documents total user_token i d title token rest w rc out :
  py_len documents = Ok total ->
  d !! "title" = Some title -> d !! "document_token" = Some token ->
  subprocess_run (calls w) (curl_argv token user_token) = Completed rc out ->
  py_bool (response_content rc out) = true ->
  match response_content rc out with
  | PBool _ | PInt _ | PFloat _ => True
  | _ => False
  end ->
  exists w1,
    retrieve_loop documents user_token i (PDict d :: rest) w = (Raise (TypeError NoLen), w1)
    /\ calls w1 = calls w ++ [curl_argv token user_token]
    /\ files w1 = files w.
Proof.
  intros Hlen Htitle Htoken Hrun Hbool Hkind. cbn [retrieve_loop]. unfold bind at 1.
  rewrite (retrieve_one_run _ _ _ _ _ _ _ _ Hlen Htitle Htoken), Hrun. cbv zeta.
  rewrite Hbool.
  destruct (response_content rc out); try contradiction; cbn [py_len];
    eexists; (split; [reflexivity|]); split; reflexivity.
Qed.

(** X13. A stored content that counts as true but is no text (a non-empty
    array or object) passes the loop and makes the report writer raise at
    [f.write(doc['content'])], after the metadata lines of that entry have
    been written. *)
Theorem X13_content_that_is_no_text_stops_the_writer d head content a w :
  entry_head d = Some head ->
  d !! "content" = Some content ->
  py_bool content = true ->
  (forall s, content <> PStr s) ->
  write_entry (PDict d) (set_file OUTPUT_FILE a w)
  = (Raise (TypeError WriteNotStr), set_file OUTPUT_FILE (a +:+ head) w).
Proof.
  unfold entry_head, write_entry. intros Hhead Hcontent Hbool Hkind.
  destruct (d !! "number") as [number|] eqn:Hnumber; [|discriminate].
  destruct (d !! "title") as [title|] eqn:Htitle; [|discriminate].
  destruct (d !! "level") as [level|] eqn:Hlevel; [|discriminate].
  destruct (d !! "node_token") as [node_token|] eqn:Hnode; [|discriminate].
  destruct (d !! "document_token") as [document_token|] eqn:Hdoc; [|discriminate].
  destruct (d !! "url") as [url|] eqn:Hurl; [|discriminate].
  cbn [mbind option_bind] in Hhead. injection Hhead as <-.
  getitem Hnumber. getitem Htitle. rewrite bind_write_set.
  getitem Hlevel. rewrite bind_write_set.
  getitem Hnode. rewrite bind_write_set.
  getitem Hdoc. rewrite bind_write_set.
  getitem Hurl. rewrite !bind_write_set.
  unfold py_get. rewrite bind_lift_Ok, Hcontent. cbn [default from_option id].
  rewrite Hbool, bind_bind. getitem Hcontent.
  destruct content; try (rewrite bind_lift_Raise, !append_assoc; reflexivity).
  destruct (Hkind s eq_refl).
Qed.

(** ** A report from an earlier run *)

Lemma py_getitem_access v k e : py_getitem v k = Raise e -> access_error e.
Proof. destruct v; cbn; try (intros [= <-]; exact I). destruct (d !! k); intros [= <-]. exact I. Qed.

Lemma raises_only_write_entry_writer doc : raises_only writer_error (write_entry doc).
Proof.
  assert (Hget : forall e, access_error e -> writer_error e)
    by (intros [] He; try destruct He; try exact I; destruct why; try exact I; destruct He).
  destruct doc as [| | | | |l|d];
    try (intros w e; unfold write_entry; cbn [py_getitem]; rewrite bind_lift_Raise;
         intros [= <-]; exact I).
  unfold write_entry.
  repeat first
    [ apply raises_only_bind;
      [ solve [ apply raises_only_file_write
              | apply raises_only_lift; intros e He; apply Hget, (py_getitem_access _ _ _ He)
              | apply raises_only_lift; discriminate ]
      | intros ? ] ].
  apply raises_only_bind; [|intros _; apply raises_only_file_write].
  destruct (py_bool _); [|apply raises_only_file_write].
  apply raises_only_bind;
    [apply raises_only_lift; intros e He; apply Hget, (py_getitem_access _ _ _ He) | intros c].
  destruct c;
    first [ apply raises_only_lift; intros e [= <-]; exact I
          | apply raises_only_bind;
            [apply raises_only_file_write | intros _; apply raises_only_file_write] ].
Qed.

(** X14. When a live run ends in an exception the report writer cannot
    raise (an exception of the transport, the [TypeError] of
    [len(content)]), it ended in the retrieval loop, before the report was
    opened: every file is as it was, a report left by an earlier run
    included. *)
Theorem X14_failed_loop_keeps_the_old_report w docs token e :
  live w (PList docs) token ->
  (main w).1 = Raise e ->
  ~ writer_error e ->
  files (main w).2 = files w.
Proof.
  intros Hlive. rewrite (main_live _ _ _ (length docs) Hlive eq_refl).
  unfold live_mode. cbn [py_iter]. rewrite !bind_lift_Ok.
  destruct (retrieve_loop (PList docs) token 1 docs (say (heading_lines (length docs)) w))
    as [[results|e1] w1] eqn:Hloop.
  - rewrite !(bind_Ok _ _ _ _ _ Hloop). unfold bind. rewrite save_results_eq.
    destruct (for_each write_entry results (set_file OUTPUT_FILE banner w1))
      as [[[]|e2] w2] eqn:Hsave.
    + destruct (print_done_run w2) as (lines & ->). discriminate.
    + cbn [fst snd]. intros [= <-] Hnot. destruct Hnot.
      apply (raises_only_for_each writer_error write_entry results
               raises_only_write_entry_writer (set_file OUTPUT_FILE banner w1)).
      rewrite Hsave. reflexivity.
  - rewrite !(bind_Raise _ _ _ _ _ Hloop). cbn [fst snd]. intros _ _.
    destruct (retrieve_loop_Raise (PList docs) _ (length docs) _ eq_refl _ _ _ _ Hloop)
      as (_ & Hfiles & _). exact Hfiles.
Qed.

(** ** The exit status of dry mode *)

Lemma has_fields_dec keys doc : {has_fields keys doc} + {~ has_fields keys doc}.
Proof.
  destruct doc as [| | | | |l|d]; try solve [right; intros []].
  unfold has_fields. apply Forall_dec. intros k. apply _.
Qed.

(** X15. In dry mode the exit status is 0 exactly when every descriptor of
    the input array carries a title and a document token; a descriptor
    that lacks one ends the run in the error of that access, with status
    1. *)
Theorem X15_dry_mode_exit_status w docs :
  dry w (PList docs) ->
  (exit_status (main w).1 = 0%Z <-> Forall (has_fields ["title"; "document_token"]) docs)
  /\ (~ Forall (has_fields ["title"; "document_token"]) docs ->
      exists e, (main w).1 = Raise e /\ access_error e /\ exit_status (main w).1 = 1%Z).
Proof.
  intros Hdry. rewrite (main_dry _ _ (length docs) Hdry eq_refl).
  assert (Hill : ~ Forall (has_fields ["title"; "document_token"]) docs ->
                 exists e, (dry_mode (PList docs) (say (heading_lines (length docs)) w)).1 = Raise e
                           /\ access_error e
                           /\ exit_status (dry_mode (PList docs)
                                             (say (heading_lines (length docs)) w)).1 = 1%Z).
  { intros Hno. unfold dry_mode. rewrite !bind_print. cbn [py_iter]. rewrite bind_lift_Ok.
    edestruct (list_documents_ill docs) as (e & w1 & He & Hacc); [exact Hno|].
    erewrite bind_Raise by exact He. exists e. split; [reflexivity|]. split; [exact Hacc|].
    cbn [fst]. destruct e; try reflexivity. destruct Hacc. }
  split; [|exact Hill]. split.
  - intros Hstatus.
    destruct (@Forall_dec pyval (has_fields ["title"; "document_token"])
                (has_fields_dec ["title"; "document_token"]) docs) as [Hall | Hno];
      [exact Hall|].
    destruct (Hill Hno) as (e & _ & _ & H1). rewrite H1 in Hstatus. discriminate.
  - intros Hall. destruct (listing_lines _ Hall) as (lines & Hlines).
    rewrite (dry_mode_listing _ _ _ Hlines). reflexivity.
Qed.

(** ** The console of a live run *)

Lemma print_done_exact w : print_done w = (Ok tt, say done_lines w).
Proof. unfold print_done. rewrite !bind_print. unfold print. rewrite !say_say. reflexivity. Qed.

Lemma status_line_stored c n :
  py_bool c = true -> py_len c = Ok n ->
  status_line (stored c) = Some ("  ✅ Content retrieved (" +:+ of_nat n +:+ " characters)").
Proof.
  intros Hb Hlen. unfold stored. rewrite Hb.
  destruct c; try discriminate; unfold status_line; rewrite Hlen; reflexivity.
Qed.

Lemma retrieve_one_console documents user_token i d total title token w res w' :
  py_len documents = Ok total ->
  d !! "title" = Some title -> d !! "document_token" = Some token ->
  retrieve_one documents user_token i (PDict d) w = (Ok res, w') ->
  exists rc out status,
    subprocess_run (calls w) (curl_argv token user_token) = Completed rc out
    /\ status_line (stored (response_content rc out)) = Some status
    /\ console w' = console w ++ turn_lines i total title token ++ [status].
Proof.
  intros Hlen Htitle Htoken H.
  rewrite (retrieve_one_run _ _ _ _ _ _ _ _ Hlen Htitle Htoken) in H. cbv zeta in H.
  destruct (subprocess_run _ _) as [rc out|name]; [|discriminate].
  exists rc, out. destruct (py_bool (response_content rc out)) eqn:Hb.
  - destruct (py_len (response_content rc out)) as [n|e] eqn:Hn; [|discriminate].
    injection H as <- <-. eexists. split; [reflexivity|].
    split; [apply status_line_stored; eassumption|]. cbn. rewrite <- app_assoc. reflexivity.
  - injection H as <- <-. eexists. split; [reflexivity|].
    unfold stored. rewrite Hb. split; [reflexivity|]. cbn. rewrite <- app_assoc. reflexivity.
Qed.

Lemma retrieve_loop_console documents user_token total docs :
  py_len documents = Ok total ->
  forall i w results w',
    retrieve_loop documents user_token i docs w = (Ok results, w') ->
    exists transcript,
      console w' = console w ++ concat transcript
      /\ length transcript = length docs
      /\ forall k d title token,
           docs !! k = Some (PDict d) ->
           d !! "title" = Some title -> d !! "document_token" = Some token ->
           exists rc out status,
             subprocess_run (calls w ++ (request user_token <$> take k docs))
                            (request user_token (PDict d)) = Completed rc out
             /\ status_line (stored (response_content rc out)) = Some status
             /\ transcript !! k = Some (turn_lines (i + k) total title token ++ [status]).
Proof.
  intros Hlen. induction docs as [|doc docs IH]; intros i w results w'; cbn [retrieve_loop].
  - intros [= <- <-]. exists []. cbn. rewrite app_nil_r. repeat split.
    intros k d title token Hk. discriminate Hk.
  - intros H. apply bind_Ok_inv in H as (res & w1 & Hone & H).
    apply bind_Ok_inv in H as (rest & w2 & Hloop & H). injection H as <- <-.
    destruct (retrieve_one_Ok _ _ _ _ _ _ _ _ Hlen Hone)
      as (d0 & _ & _ & -> & Hf & _ & _ & _ & _ & Hcalls).
    destruct (has_fields_lookup _ _ "title" Hf) as [title0 Htitle0]; [apply list_elem_of_here|].
    destruct (has_fields_lookup _ _ "document_token" Hf) as [token0 Htoken0];
      [apply list_elem_of_further, list_elem_of_here|].
    destruct (retrieve_one_console _ _ _ _ _ _ _ _ _ _ Hlen Htitle0 Htoken0 Hone)
      as (rc0 & out0 & status0 & Hrun0 & Hstatus0 & Hconsole0).
    destruct (IH _ _ _ _ Hloop) as (transcript & Hconsole & Hlength & Hnth).
    exists ((turn_lines i total title0 token0 ++ [status0]) :: transcript).
    split; [rewrite Hconsole, Hconsole0; cbn [concat]; rewrite <- !app_assoc; reflexivity|].
    split; [cbn; congruence|].
    intros [|k] d title token Hk Htitle Htoken.
    + injection Hk as <-. rewrite Htitle0 in Htitle. rewrite Htoken0 in Htoken.
      injection Htitle as <-. injection Htoken as <-.
      exists rc0, out0, status0. cbn [take fmap list_fmap]. rewrite app_nil_r, Nat.add_0_r.
      rewrite (request_dict _ _ _ Htoken0). repeat split; assumption.
    + cbn in Hk. destruct (Hnth _ _ _ _ Hk Htitle Htoken) as (rc & out & status & Hrun & Hs & Ht).
      exists rc, out, status. rewrite Hcalls, <- app_assoc in Hrun.
      rewrite Nat.add_succ_r. repeat split; assumption.
Qed.

(** X16. The console of a live run that reaches its end: the heading with
    the number of descriptors, then for the k-th descriptor (counting from
    1) the line [[k/n] Retrieving: title], the line of its token and the
    line of success (with the length of the content) or of failure, in the
    order of the input array, then the four closing lines. *)
Theorem X16_console_of_a_live_run w docs token w' :
  live w (PList docs) token ->
  main w = (Ok tt, w') ->
  exists transcript,
    console w' = console w ++ heading_lines (length docs) ++ concat transcript ++ done_lines
    /\ length transcript = length docs
    /\ forall k d title document_token,
         docs !! k = Some (PDict d) ->
         d !! "title" = Some title -> d !! "document_token" = Some document_token ->
         exists rc out status,
           subprocess_run (calls w ++ (request token <$> take k docs))
                          (request token (PDict d)) = Completed rc out
           /\ status_line (stored (response_content rc out)) = Some status
           /\ transcript !! k
              = Some [ nl +:+ "[" +:+ of_nat (S k) +:+ "/" +:+ of_nat (length docs)
                          +:+ "] Retrieving: " +:+ py_str title;
                       "  Token: " +:+ py_str document_token;
                       status ].
Proof.
  intros Hlive Hmain. rewrite (main_live _ _ _ (length docs) Hlive eq_refl) in Hmain.
  unfold live_mode in Hmain. cbn [py_iter] in Hmain. rewrite bind_lift_Ok in Hmain.
  apply bind_Ok_inv in Hmain as (results & w1 & Hloop & Hmain).
  apply bind_Ok_inv in Hmain as ([] & w2 & Hsave & Hmain).
  rewrite print_done_exact in Hmain. injection Hmain as <-.
  rewrite save_results_eq in Hsave. apply write_entries_inv in Hsave as (blocks & _ & ->).
  destruct (retrieve_loop_console (PList docs) _ (length docs) _ eq_refl _ _ _ _ Hloop)
    as (transcript & Hconsole & Hlength & Hnth).
  exists transcript. cbn [say set_file console]. rewrite Hconsole. cbn [say console].
  split; [rewrite <- !app_assoc; reflexivity|]. split; [exact Hlength|].
  intros k d title document_token Hk Htitle Htoken.
  destruct (Hnth _ _ _ _ Hk Htitle Htoken) as (rc & out & status & Hrun & Hstatus & Ht).
  exists rc, out, status. split; [exact Hrun|]. split; [exact Hstatus|]. exact Ht.
Qed.

End Script.

(** * The claims on sample runs *)

Lemma C1_witness :
  let w := start (Some two_documents) (Some "tok") in
  let transport := scripted [Completed 0 hello_body; Completed 0 (js "{'code':1}")] in
  exists blocks,
    files (main Json.loads no_repr transport w).2 !! OUTPUT_FILE = Some (banner +:+ join blocks)
    /\ length blocks = length [PDict doc_A; PDict doc_B]
    /\ forall k doc, [PDict doc_A; PDict doc_B] !! k = Some doc ->
         exists d content block,
           doc = PDict d
           /\ entry_text no_repr (PDict (<["content" := content]> d)) = Some block
           /\ blocks !! k = Some block.
Proof.
  intros w transport.
  apply (C1_report_follows_input_order Json.loads no_repr transport w
           [PDict doc_A; PDict doc_B] "tok").
  - split; [exists two_documents; split; vm_compute; reflexivity|].
    split; [vm_compute; reflexivity | discriminate].
  - vm_compute. reflexivity.
Defined.

Lemma C5_witness :
  exists w',
    main Json.loads no_repr (scripted []) (start None None) = (Raise (SystemExit 1), w')
    /\ exit_status (main Json.loads no_repr (scripted []) (start None None)).1 = 1%Z
    /\ files w' = files (start None None)
    /\ files w' !! OUTPUT_FILE = files (start None None) !! OUTPUT_FILE
    /\ environ w' = environ (start None None)
    /\ calls w' = calls (start None None)
    /\ console w' = console (start None None)
         ++ [ "Error: Input file not found: " +:+ INPUT_FILE;
              "Please run get_all_wiki_docs.sh first to generate the JSON file." ].
Proof.
  apply (C5_missing_input_exits_1 Json.loads no_repr (scripted []) (start None None)).
  vm_compute. reflexivity.
Defined.

(** C2 fails as stated: the body [{"code":0,"data":{}}] has code 0 and no
    content field, the fetch exits with 0, and the content stored for the
    descriptor is [None], not the empty text; a run of [main] that gets
    this body for its second descriptor reports that fetch as failed. *)
Lemma C2_counterexample :
  let reply := js "{'code':0,'data':{}}" in
  let transport := scripted [Completed 0 reply] in
  let w := start (Some one_short_document) (Some "tok") in
  let turn := retrieve_one Json.loads no_repr transport (PList [PDict doc_short]) "tok" 1
                (PDict doc_short) w in
  let outcome := main Json.loads no_repr (scripted [Completed 0 hello_body; Completed 0 reply])
               (start (Some two_documents) (Some "tok")) in
  Json.loads reply = Some (PDict {[ "code" := PInt 0; "data" := PDict ∅ ]})
  /\ (get_content_via_api Json.loads no_repr transport (PStr "da") "tok" w).1 = Ok (PStr EmptyString)
  /\ turn.1 = Ok (PDict (<["content" := PNone]> doc_short))
  /\ turn.1 <> Ok (PDict (<["content" := PStr EmptyString]> doc_short))
  /\ outcome.1 = Ok tt
  /\ console outcome.2 !! 12 = Some "  ❌ Failed to retrieve content".
Proof.
  intros reply transport w turn outcome.
  assert (Hturn : turn.1 = Ok (PDict (<["content" := PNone]> doc_short)))
    by (vm_compute; reflexivity).
  split; [vm_compute; reflexivity|]. split; [vm_compute; reflexivity|].
  split; [exact Hturn|]. split.
  - rewrite Hturn. intros H.
    apply (f_equal (fun r => match r with Ok (PDict m) => m !! "content" | _ => None end)) in H.
    rewrite !lookup_insert_eq in H. discriminate H.
  - split; vm_compute; reflexivity.
Qed.

(** C3 fails as stated: when the transport cannot be invoked for the first
    of two descriptors, the exception reaches the top level; the second
    descriptor is never fetched and no report is written. *)
Lemma C3_counterexample :
  let transport := scripted [RunRaises "FileNotFoundError"; Completed 0 hello_body] in
  let w := start (Some two_documents) (Some "tok") in
  let outcome := main Json.loads no_repr transport w in
  Json.loads two_documents = Some (PList [PDict doc_A; PDict doc_B])
  /\ outcome.1 = Raise (RunError "FileNotFoundError")
  /\ exit_status outcome.1 = 1%Z
  /\ calls outcome.2 = [curl_argv no_repr (PStr "da") "tok"]
  /\ files outcome.2 !! OUTPUT_FILE = None.
Proof. vm_compute. repeat split; reflexivity. Qed.

Lemma C2_witness :
  let w := start (Some two_documents) (Some "tok") in
  let transport := scripted [Completed 0 hello_body; Completed 0 no_content_body] in
  let docs := [PDict doc_A; PDict doc_B] in
  exists document_token,
    doc_B !! "document_token" = Some document_token
    /\ (forall w0,
          transport (calls w0) (curl_argv no_repr document_token "tok")
            = Completed 0 no_content_body ->
          get_content_via_api Json.loads no_repr transport document_token "tok" w0
          = (Ok (PStr EmptyString), invoke (curl_argv no_repr document_token "tok") w0))
    /\ (forall i w0,
          transport (calls w0) (curl_argv no_repr document_token "tok")
            = Completed 0 no_content_body ->
          exists w1,
            retrieve_one Json.loads no_repr transport (PList docs) "tok" i (PDict doc_B) w0
            = (Ok (PDict (<["content" := PNone]> doc_B)), w1))
    /\ exists results w1 blocks head,
         retrieve_loop Json.loads no_repr transport (PList docs) "tok" 1 docs
           (say (heading_lines (length docs)) w)
           = (Ok results, w1)
         /\ results !! 1 = Some (PDict (<["content" := PNone]> doc_B))
         /\ files (main Json.loads no_repr transport w).2 !! OUTPUT_FILE
            = Some (banner +:+ join blocks)
         /\ length blocks = length docs
         /\ entry_head no_repr doc_B = Some head
         /\ blocks !! 1 = Some (head +:+ "[Content not available]" +:+ nl +:+ nl
                                +:+ rule_dash +:+ nl +:+ nl).
Proof.
  intros w transport docs.
  apply (C2_missing_content_is_stored_as_None Json.loads no_repr transport w docs "tok"
           (main Json.loads no_repr transport w).2 1 doc_B no_content_body
           {[ "code" := PInt 0; "data" := PDict ∅ ]} (PInt 0)).
  - split; [exists two_documents; split; vm_compute; reflexivity|].
    split; [vm_compute; reflexivity | discriminate].
  - reflexivity.
  - vm_compute. reflexivity.
  - vm_compute. reflexivity.
  - vm_compute. reflexivity.
  - reflexivity.
  - right. exists ∅. split; vm_compute; reflexivity.
  - vm_compute. reflexivity.
Defined.

Lemma C3_witness :
  let w := start (Some two_documents) (Some "tok") in
  let docs := [PDict doc_A; PDict doc_B] in
  let failing := scripted [Completed 7 EmptyString; Completed 0 hello_body] in
  let raising := scripted [Completed 0 hello_body; RunRaises "FileNotFoundError"] in
  (exists w1,
      retrieve_one Json.loads no_repr failing (PList docs) "tok" 1 (PDict doc_A) w
      = (Ok (PDict (<["content" := PNone]> doc_A)), w1)
      /\ retrieve_loop Json.loads no_repr failing (PList docs) "tok" 1 [PDict doc_A; PDict doc_B] w
         = bind (retrieve_loop Json.loads no_repr failing (PList docs) "tok" 2 [PDict doc_B])
                (fun results => ret (PDict (<["content" := PNone]> doc_A) :: results)) w1)
  /\ (calls (main Json.loads no_repr failing w).2
      = calls w ++ (request no_repr "tok" <$> docs)
      /\ exists results w1 blocks head,
           retrieve_loop Json.loads no_repr failing (PList docs) "tok" 1 docs
             (say (heading_lines (length docs)) w)
             = (Ok results, w1)
           /\ results !! 0 = Some (PDict (<["content" := PNone]> doc_A))
           /\ files (main Json.loads no_repr failing w).2 !! OUTPUT_FILE
              = Some (banner +:+ join blocks)
           /\ length blocks = length docs
           /\ entry_head no_repr doc_A = Some head
           /\ blocks !! 0 = Some (head +:+ "[Content not available]" +:+ nl +:+ nl
                                  +:+ rule_dash +:+ nl +:+ nl))
  /\ ((main Json.loads no_repr raising w).1 = Raise (RunError "FileNotFoundError")
      /\ exit_status (main Json.loads no_repr raising w).1 = 1%Z
      /\ 2 = length (calls (main Json.loads no_repr raising w).2)
      /\ files (main Json.loads no_repr raising w).2 = files w).
Proof.
  intros w docs failing raising.
  assert (Hlive : live Json.loads w (PList docs) "tok").
  { split; [exists two_documents; split; vm_compute; reflexivity|].
    split; [vm_compute; reflexivity | discriminate]. }
  split; [|split].
  - apply (proj1 (C3_failures_caught_and_not_caught Json.loads no_repr failing w docs "tok"
                    Hlive)
             1 doc_A (PStr "A") (PStr "da") [PDict doc_B] w 7%Z EmptyString).
    + vm_compute. reflexivity.
    + vm_compute. reflexivity.
    + vm_compute. reflexivity.
    + left. discriminate.
  - apply (proj1 (proj2 (C3_failures_caught_and_not_caught Json.loads no_repr failing w docs
                           "tok" Hlive))
             0 doc_A 7%Z EmptyString).
    + reflexivity.
    + vm_compute. reflexivity.
    + left. discriminate.
    + vm_compute. reflexivity.
  - destruct (proj2 (proj2 (C3_failures_caught_and_not_caught Json.loads no_repr raising w docs
                              "tok" Hlive)))
      as (argvs & Hlog & Hraise).
    change (calls w ++ argvs) with argvs in Hlog. subst argvs.
    apply (Hraise 1 (curl_argv no_repr (PStr "db") "tok") "FileNotFoundError").
    + vm_compute. reflexivity.
    + vm_compute. reflexivity.
Defined.

(** C4 fails as stated: without a credential, an input array whose
    descriptor has no document token ends the run in a [KeyError], that is
    with exit status 1. *)
Lemma C4_counterexample :
  let input := js "[{'title':'A'}]" in
  let w := start (Some input) None in
  let outcome := main Json.loads no_repr (scripted []) w in
  dry Json.loads w (PList [PDict {[ "title" := PStr "A" ]}])
  /\ outcome.1 = Raise (KeyError "document_token")
  /\ exit_status outcome.1 = 1%Z
  /\ exit_status outcome.1 <> 0%Z.
Proof.
  intros input w outcome. split.
  - split; [exists input; split; vm_compute; reflexivity | left; vm_compute; reflexivity].
  - vm_compute. repeat split; discriminate.
Qed.

Lemma C4_witness :
  let w := start (Some two_documents) None in
  let outcome := main Json.loads no_repr (scripted []) w in
  (calls outcome.2 = calls w /\ files outcome.2 = files w)
  /\ (Forall (has_fields ["title"; "document_token"]) [PDict doc_A; PDict doc_B] ->
      exists lines,
        Forall2 (fun doc line => listing_line no_repr doc = Some line)
                [PDict doc_A; PDict doc_B] lines
        /\ outcome = (Raise (SystemExit 0),
                      say (heading_lines (length [PDict doc_A; PDict doc_B])
                           ++ dry_intro ++ lines ++ dry_outro) w)
        /\ exit_status outcome.1 = 0%Z).
Proof.
  intros w outcome.
  apply (C4_dry_mode_lists_and_exits_0 Json.loads no_repr (scripted []) w
           [PDict doc_A; PDict doc_B]).
  split; [exists two_documents; split; vm_compute; reflexivity | left; vm_compute; reflexivity].
Defined.

Lemma C6_witness :
  let w := start (Some two_documents) (Some "tok") in
  let transport := scripted [Completed 0 (js "{'code':1}"); Completed 0 hello_body] in
  exists results w1 blocks head,
    retrieve_loop Json.loads no_repr transport (PList [PDict doc_A; PDict doc_B]) "tok" 1
      [PDict doc_A; PDict doc_B] (say (heading_lines (length [PDict doc_A; PDict doc_B])) w)
    = (Ok results, w1)
    /\ results !! 1 = Some (PDict (<["content" := PStr "hello"]> doc_B))
    /\ files (main Json.loads no_repr transport w).2 !! OUTPUT_FILE
       = Some (banner +:+ join blocks)
    /\ entry_head no_repr doc_B = Some head
    /\ blocks !! 1 = Some (head +:+ "hello" +:+ nl +:+ nl +:+ rule_dash +:+ nl +:+ nl).
Proof.
  intros w transport.
  apply (C6_hello_is_stored_and_reported Json.loads no_repr transport w
           [PDict doc_A; PDict doc_B] "tok" (main Json.loads no_repr transport w).2
           1 doc_B hello_body).
  - split; [exists two_documents; split; vm_compute; reflexivity|].
    split; [vm_compute; reflexivity | discriminate].
  - reflexivity.
  - vm_compute. reflexivity.
  - vm_compute. reflexivity.
  - vm_compute. reflexivity.
Defined.

Lemma C7_witness :
  let w := start (Some two_documents) (Some "tok") in
  let transport := scripted [Completed 0 (js "{'code':1}"); Completed 0 "<html>"] in
  (exists results w1 blocks head,
    retrieve_loop Json.loads no_repr transport (PList [PDict doc_A; PDict doc_B]) "tok" 1
      [PDict doc_A; PDict doc_B] (say (heading_lines (length [PDict doc_A; PDict doc_B])) w)
    = (Ok results, w1)
    /\ results !! 0 = Some (PDict (<["content" := PNone]> doc_A))
    /\ files (main Json.loads no_repr transport w).2 !! OUTPUT_FILE
       = Some (banner +:+ join blocks)
    /\ entry_head no_repr doc_A = Some head
    /\ blocks !! 0 = Some (head +:+ "[Content not available]" +:+ nl +:+ nl
                           +:+ rule_dash +:+ nl +:+ nl))
  /\ (exists results w1 blocks head,
    retrieve_loop Json.loads no_repr transport (PList [PDict doc_A; PDict doc_B]) "tok" 1
      [PDict doc_A; PDict doc_B] (say (heading_lines (length [PDict doc_A; PDict doc_B])) w)
    = (Ok results, w1)
    /\ results !! 1 = Some (PDict (<["content" := PNone]> doc_B))
    /\ files (main Json.loads no_repr transport w).2 !! OUTPUT_FILE
       = Some (banner +:+ join blocks)
    /\ entry_head no_repr doc_B = Some head
    /\ blocks !! 1 = Some (head +:+ "[Content not available]" +:+ nl +:+ nl
                           +:+ rule_dash +:+ nl +:+ nl)).
Proof.
  intros w transport. split.
  - apply (C7_failed_fetch_shows_placeholder Json.loads no_repr transport w
             [PDict doc_A; PDict doc_B] "tok" (main Json.loads no_repr transport w).2
             0 doc_A 0%Z (js "{'code':1}")).
    + split; [exists two_documents; split; vm_compute; reflexivity|].
      split; [vm_compute; reflexivity | discriminate].
    + reflexivity.
    + vm_compute. reflexivity.
    + right. exists {[ "code" := PInt 1 ]}. split; vm_compute; reflexivity.
    + vm_compute. reflexivity.
  - apply (C7_failed_fetch_shows_placeholder Json.loads no_repr transport w
             [PDict doc_A; PDict doc_B] "tok" (main Json.loads no_repr transport w).2
             1 doc_B 0%Z "<html>").
    + split; [exists two_documents; split; vm_compute; reflexivity|].
      split; [vm_compute; reflexivity | discriminate].
    + reflexivity.
    + vm_compute. reflexivity.
    + left. vm_compute. reflexivity.
    + vm_compute. reflexivity.
Defined.

Lemma C8_witness :
  let transport := scripted [Completed 0 hello_body; Completed 0 (js "{'code':1}")] in
  let first := start (Some two_documents) (Some "tok") in
  let second := rerun two_documents "tok" in
  exists w2' report,
    main Json.loads no_repr transport second = (Ok tt, w2')
    /\ files (main Json.loads no_repr transport first).2 !! OUTPUT_FILE = Some report
    /\ files w2' !! OUTPUT_FILE = Some report.
Proof.
  intros transport first second.
  apply (C8_same_inputs_same_report Json.loads no_repr transport first second).
  - repeat split; vm_compute; reflexivity.
  - vm_compute. reflexivity.
Defined.

Lemma C9_witness :
  let w := start (Some "[]") (Some "tok") in
  exists w',
    main Json.loads no_repr (scripted []) w = (Ok tt, w')
    /\ files w' !! OUTPUT_FILE = Some banner
    /\ calls w' = calls w.
Proof.
  intros w. apply (C9_empty_array_banner_only Json.loads no_repr (scripted []) w "tok").
  split; [exists "[]"; split; vm_compute; reflexivity|].
  split; [vm_compute; reflexivity | discriminate].
Defined.

(** C10 fails as stated: without a credential, a descriptor that lacks
    number, level, node_token and url raises nothing; the run lists it and
    ends in [sys.exit(0)]. *)
Lemma C10_counterexample :
  let w := start (Some one_short_document) None in
  let outcome := main Json.loads no_repr (scripted []) w in
  Json.loads one_short_document = Some (PList [PDict doc_short])
  /\ ~ has_fields FIELDS (PDict doc_short)
  /\ outcome.1 = Raise (SystemExit 0)
  /\ exit_status outcome.1 = 0%Z
  /\ ~ is_error (SystemExit 0).
Proof.
  intros w outcome. split; [vm_compute; reflexivity|]. split.
  - intros Hf. destruct (has_fields_lookup FIELDS doc_short "url" Hf) as [x Hx].
    + unfold FIELDS. repeat first [apply list_elem_of_here | apply list_elem_of_further].
    + vm_compute in Hx. discriminate Hx.
  - split; [vm_compute; reflexivity|]. split; [vm_compute; reflexivity|]. intros [].
Qed.

Lemma C10_witness :
  (exists e w',
      main Json.loads no_repr (scripted [Completed 0 hello_body])
        (start (Some one_short_document) (Some "tok")) = (Raise e, w')
      /\ is_error e)
  /\ (forall e w',
      main Json.loads no_repr (scripted [RunRaises "FileNotFoundError"])
        (start (Some two_documents) (Some "tok")) = (Raise e, w')
      -> ~ access_error e)
  /\ (main Json.loads no_repr (scripted []) (start (Some one_short_document) None)).1
     = Raise (SystemExit 0).
Proof.
  split; [|split].
  - apply (proj1 (C10_fields_read_without_default Json.loads no_repr
             (scripted [Completed 0 hello_body])
             (start (Some one_short_document) (Some "tok")) [PDict doc_short]) "tok").
    + split; [exists one_short_document; split; vm_compute; reflexivity|].
      split; [vm_compute; reflexivity | discriminate].
    + exists (PDict doc_short). split; [apply list_elem_of_here|].
      intros Hf. destruct (has_fields_lookup FIELDS doc_short "url" Hf) as [x Hx].
      * unfold FIELDS. repeat first [apply list_elem_of_here | apply list_elem_of_further].
      * vm_compute in Hx. discriminate Hx.
  - apply (proj1 (proj2 (C10_fields_read_without_default Json.loads no_repr
             (scripted [RunRaises "FileNotFoundError"])
             (start (Some two_documents) (Some "tok")) [PDict doc_A; PDict doc_B]))).
    + left. exists "tok".
      split; [exists two_documents; split; vm_compute; reflexivity|].
      split; [vm_compute; reflexivity | discriminate].
    + repeat (apply Forall_cons; split); try apply Forall_nil;
        unfold has_fields, FIELDS;
        repeat (apply Forall_cons; split); try apply Forall_nil;
        vm_compute; eauto.
  - apply (proj2 (proj2 (C10_fields_read_without_default Json.loads no_repr
             (scripted []) (start (Some one_short_document) None) [PDict doc_short]))).
    + split; [exists one_short_document; split; vm_compute; reflexivity
             | left; vm_compute; reflexivity].
    + repeat (apply Forall_cons; split); try apply Forall_nil;
        unfold has_fields; repeat (apply Forall_cons; split); try apply Forall_nil;
        vm_compute; eauto.
Defined.

(** * The further properties on sample runs *)

Lemma X3_witness :
  let w := start (Some two_documents) (Some EmptyString) in
  let outcome := main Json.loads no_repr (scripted [Completed 0 hello_body]) w in
  calls outcome.2 = calls w /\ files outcome.2 = files w /\ outcome.1 <> Ok tt.
Proof.
  intros w outcome.
  apply (X3_no_credential_no_fetch_no_write Json.loads no_repr
           (scripted [Completed 0 hello_body]) w).
  right. vm_compute. reflexivity.
Defined.

Lemma X4_witness :
  let w := start (Some "<html>") (Some "tok") in
  main Json.loads no_repr (scripted []) w = (Raise JSONDecodeError, w)
  /\ exit_status (main Json.loads no_repr (scripted []) w).1 = 1%Z.
Proof.
  intros w. apply (X4_malformed_input_raises Json.loads no_repr (scripted []) w "<html>").
  - vm_compute. reflexivity.
  - vm_compute. reflexivity.
Defined.

Lemma X5_witness :
  let w := start (Some "42") (Some "tok") in
  main Json.loads no_repr (scripted []) w
  = (Raise (TypeError NoLen),
     say [rule_eq; "Lark Wiki Document Content Retrieval"; rule_eq] w).
Proof.
  intros w. apply (X5_unsized_input_raises Json.loads no_repr (scripted []) w "42" (PInt 42)).
  - vm_compute. reflexivity.
  - vm_compute. reflexivity.
  - exact I.
Defined.

Lemma X6_witness :
  let w := start (Some (js "{'title':'A'}")) (Some "tok") in
  let outcome := main Json.loads no_repr (scripted [Completed 0 hello_body]) w in
  outcome.1 = Raise (TypeError NotSubscriptable)
  /\ exit_status outcome.1 = 1%Z
  /\ calls outcome.2 = calls w
  /\ files outcome.2 = files w.
Proof.
  intros w outcome.
  apply (X6_first_item_not_an_object Json.loads no_repr (scripted [Completed 0 hello_body]) w
           (js "{'title':'A'}") (PDict {[ "title" := PStr "A" ]}) (PStr "title") []).
  - vm_compute. reflexivity.
  - vm_compute. reflexivity.
  - vm_compute. reflexivity.
  - discriminate.
Defined.

Lemma X9_witness :
  let w := start (Some two_documents) (Some "tok") in
  let transport := scripted [Completed 0 hello_body; Completed 0 (js "{'code':1}")] in
  let docs := [PDict doc_A; PDict doc_B] in
  exists n,
    n <= length docs
    /\ calls (main Json.loads no_repr transport w).2
       = calls w ++ (request no_repr "tok" <$> take n docs)
    /\ ((main Json.loads no_repr transport w).1 = Ok tt -> n = length docs)
    /\ (forall k d document_token,
          docs !! k = Some (PDict d) -> d !! "document_token" = Some document_token ->
          request no_repr "tok" (PDict d)
          = [ "curl"; "-s"; "-X"; "GET";
              "https://open.feishu.cn/open-apis/docx/v1/documents/"
                +:+ py_str no_repr document_token +:+ "/raw_content";
              "-H"; "Authorization: Bearer " +:+ "tok" ]).
Proof.
  intros w transport docs.
  apply (X9_one_invocation_per_descriptor_in_order Json.loads no_repr transport w docs "tok").
  split; [exists two_documents; split; vm_compute; reflexivity|].
  split; [vm_compute; reflexivity | discriminate].
Defined.

Lemma X10_witness :
  let w := start (Some two_documents) (Some "tok") in
  let transport := scripted [Completed 0 hello_body; Completed 0 (js "{'code':0,'data':{}}")] in
  let docs := [PDict (<["content" := PStr "old"]> doc_A); PDict doc_B] in
  let results := [PDict (<["content" := PStr "hello"]> doc_A);
                  PDict (<["content" := PNone]> doc_B)] in
  length results = length docs
  /\ forall k r, results !! k = Some r ->
       exists d content,
         docs !! k = Some (PDict d)
         /\ r = PDict (<["content" := content]> d)
         /\ (content = PNone \/ py_bool content = true)
         /\ (forall d', r = PDict d' ->
               d' !! "content" = Some content
               /\ forall key, key <> "content" -> d' !! key = d !! key).
Proof.
  intros w transport docs results.
  apply (X10_loop_changes_only_the_content Json.loads no_repr transport (PList docs) "tok" 2
           docs 1 w results
           (retrieve_loop Json.loads no_repr transport (PList docs) "tok" 1 docs w).2).
  - reflexivity.
  - vm_compute. reflexivity.
Defined.

Lemma X11_witness :
  let w := start (Some two_documents) (Some "tok") in
  let transport := scripted [Completed 0 (js "{'code':1}"); Completed 0 text_body] in
  exists blocks head,
    files (main Json.loads no_repr transport w).2 !! OUTPUT_FILE
    = Some (banner +:+ join blocks)
    /\ entry_head no_repr doc_B = Some head
    /\ blocks !! 1 = Some (head +:+ "Release notes, 3rd draft" +:+ nl +:+ nl
                           +:+ rule_dash +:+ nl +:+ nl).
Proof.
  intros w transport.
  apply (X11_content_is_reported_verbatim Json.loads no_repr transport w
           [PDict doc_A; PDict doc_B] "tok" (main Json.loads no_repr transport w).2
           1 doc_B text_body
           {[ "code" := PInt 0; "data" := PDict {[ "content" := PStr "Release notes, 3rd draft" ]} ]}
           {[ "content" := PStr "Release notes, 3rd draft" ]} "Release notes, 3rd draft").
  - split; [exists two_documents; split; vm_compute; reflexivity|].
    split; [vm_compute; reflexivity | discriminate].
  - reflexivity.
  - vm_compute. reflexivity.
  - vm_compute. reflexivity.
  - vm_compute. reflexivity.
  - vm_compute. reflexivity.
  - vm_compute. reflexivity.
  - discriminate.
  - vm_compute. reflexivity.
Defined.

Lemma X12_witness :
  let w := start (Some two_documents) (Some "tok") in
  let transport := scripted [Completed 0 number_body; Completed 0 hello_body] in
  exists w1,
    retrieve_loop Json.loads no_repr transport (PList [PDict doc_A; PDict doc_B]) "tok" 1
      [PDict doc_A; PDict doc_B] w
    = (Raise (TypeError NoLen), w1)
    /\ calls w1 = calls w ++ [curl_argv no_repr (PStr "da") "tok"]
    /\ files w1 = files w.
Proof.
  intros w transport.
  apply (X12_content_without_length_ends_the_loop Json.loads no_repr transport
           (PList [PDict doc_A; PDict doc_B]) 2 "tok" 1 doc_A (PStr "A") (PStr "da")
           [PDict doc_B] w 0%Z number_body).
  - reflexivity.
  - vm_compute. reflexivity.
  - vm_compute. reflexivity.
  - vm_compute. reflexivity.
  - vm_compute. reflexivity.
  - vm_compute. exact I.
Defined.

Lemma X13_witness :
  let d := <["content" := PList [PStr "a"; PStr "b"]]> doc_A in
  exists head,
    entry_head no_repr d = Some head
    /\ write_entry no_repr (PDict d) (set_file OUTPUT_FILE banner (start None None))
       = (Raise (TypeError WriteNotStr),
          set_file OUTPUT_FILE (banner +:+ head) (start None None)).
Proof.
  intros d.
  assert (Hhead : is_Some (entry_head no_repr d)) by (vm_compute; eauto).
  destruct Hhead as [head Hhead]. exists head. split; [exact Hhead|].
  apply (X13_content_that_is_no_text_stops_the_writer no_repr d head
           (PList [PStr "a"; PStr "b"]) banner (start None None)).
  - exact Hhead.
  - vm_compute. reflexivity.
  - reflexivity.
  - discriminate.
Defined.

Lemma X14_witness :
  let w := rerun two_documents "tok" in
  let transport := scripted [Completed 0 hello_body; RunRaises "FileNotFoundError"] in
  files (main Json.loads no_repr transport w).2 = files w.
Proof.
  intros w transport.
  apply (X14_failed_loop_keeps_the_old_report Json.loads no_repr transport w
           [PDict doc_A; PDict doc_B] "tok" (RunError "FileNotFoundError")).
  - split; [exists two_documents; split; vm_compute; reflexivity|].
    split; [vm_compute; reflexivity | discriminate].
  - vm_compute. reflexivity.
  - intros [].
Defined.

Lemma X15_witness :
  let w := start (Some two_documents) None in
  let outcome := main Json.loads no_repr (scripted []) w in
  (exit_status outcome.1 = 0%Z
   <-> Forall (has_fields ["title"; "document_token"]) [PDict doc_A; PDict doc_B])
  /\ (~ Forall (has_fields ["title"; "document_token"]) [PDict doc_A; PDict doc_B] ->
      exists e, outcome.1 = Raise e /\ access_error e /\ exit_status outcome.1 = 1%Z).
Proof.
  intros w outcome.
  apply (X15_dry_mode_exit_status Json.loads no_repr (scripted []) w [PDict doc_A; PDict doc_B]).
  split; [exists two_documents; split; vm_compute; reflexivity | left; vm_compute; reflexivity].
Defined.

Lemma X16_witness :
  let w := start (Some two_documents) (Some "tok") in
  let transport := scripted [Completed 0 hello_body; Completed 0 (js "{'code':1}")] in
  let docs := [PDict doc_A; PDict doc_B] in
  exists transcript,
    console (main Json.loads no_repr transport w).2
    = console w ++ heading_lines (length docs) ++ concat transcript ++ done_lines
    /\ length transcript = length docs
    /\ forall k d title document_token,
         docs !! k = Some (PDict d) ->
         d !! "title" = Some title -> d !! "document_token" = Some document_token ->
         exists rc out status,
           transport (calls w ++ (request no_repr "tok" <$> take k docs))
                     (request no_repr "tok" (PDict d)) = Completed rc out
           /\ status_line (stored (response_content Json.loads rc out)) = Some status
           /\ transcript !! k
              = Some [ nl +:+ "[" +:+ of_nat (S k) +:+ "/" +:+ of_nat (length docs)
                          +:+ "] Retrieving: " +:+ py_str no_repr title;
                       "  Token: " +:+ py_str no_repr document_token;
                       status ].
Proof.
  intros w transport docs.
  apply (X16_console_of_a_live_run Json.loads no_repr transport w docs "tok").
  - split; [exists two_documents; split; vm_compute; reflexivity|].
    split; [vm_compute; reflexivity | discriminate].
  - vm_compute. reflexivity.
Defined.

Lemma X17_witness :
  let w := start (Some second_without_url) (Some "tok") in
  let transport := scripted [Completed 0 hello_body; Completed 0 hello_body] in
  let docs := [PDict doc_A; PDict doc_B_no_url] in
  (main Json.loads no_repr transport w).1 = Raise (KeyError "url")
  /\ ((files (main Json.loads no_repr transport w).2 = files w
       /\ (main Json.loads no_repr transport w).1 <> Ok tt)
      \/ exists results w1 blocks part,
           retrieve_loop Json.loads no_repr transport (PList docs) "tok" 1 docs
             (say (heading_lines (length docs)) w)
             = (Ok results, w1)
           /\ files (main Json.loads no_repr transport w).2 !! OUTPUT_FILE
              = Some (banner +:+ join blocks +:+ part)
           /\ length blocks <= length docs
           /\ (forall k block, blocks !! k = Some block ->
                 exists d content,
                   docs !! k = Some (PDict d)
                   /\ results !! k = Some (PDict (<["content" := content]> d))
                   /\ entry_text no_repr (PDict (<["content" := content]> d)) = Some block)
           /\ ((main Json.loads no_repr transport w).1 = Ok tt ->
               length blocks = length docs /\ part = EmptyString)
           /\ (forall e, (main Json.loads no_repr transport w).1 = Raise e ->
                 exists d content,
                   docs !! length blocks = Some (PDict d)
                   /\ results !! length blocks = Some (PDict (<["content" := content]> d))
                   /\ entry_text no_repr (PDict (<["content" := content]> d)) = None
                   /\ forall a w0,
                        write_entry no_repr (PDict (<["content" := content]> d))
                          (set_file OUTPUT_FILE a w0)
                        = (Raise e, set_file OUTPUT_FILE (a +:+ part) w0))).
Proof.
  intros w transport docs. split; [vm_compute; reflexivity|].
  apply (report_is_an_ordered_prefix Json.loads no_repr transport w docs "tok").
  split; [exists second_without_url; split; vm_compute; reflexivity|].
  split; [vm_compute; reflexivity | discriminate].
Defined.

